(** * RecTransport backend: the route handlers of [backend/main.py]

    A shallow embedding of the FastAPI handlers of [src/backend/main.py]
    and of the document store they talk to, followed by the properties
    the specification states about them.

    Conventions of the embedding:
    - a Python value that comes out of a JSON request body is a [pyval];
      a Python [str] is a Rocq [string] whose characters are code points
      below 256;
    - a handler is a computation in the monad [M]: it reads and updates
      the [World] (the collections of the store, the pending database
      faults, the clock, the id counter) and either returns a value or
      raises an exception; the state reached before an exception is kept,
      as an [insert] that happened before a later [raise] stays in the
      store;
    - the modules [auth.py] and [models.py] are imported by [main.py] but
      are not part of the sources; what [main.py] uses of them is taken as
      the records [Auth] and [Models], resp. modelled from the
      specification where said so. *)

From Stdlib Require Import ZArith QArith Ascii String List Bool Lia.
From stdpp Require Import gmap strings pretty.
Import ListNotations.
Local Open Scope string_scope.
Local Open Scope Z_scope.
Local Open Scope list_scope.

(** ** Python values *)

#[local] Set Warnings "-register-all".

Inductive pyval : Type :=
| VNone
| VBool (b : bool)
| VInt (z : Z)
| VFloat (q : Q)
| VStr (s : string)
| VList (l : list pyval)
| VDict (d : list (string * pyval)).

(** A [dict] with [str] keys, as [json] builds it: the items in order,
    keys pairwise distinct. *)
Abbreviation pydict := (list (string * pyval)).

(** Python truthiness, [bool(v)]. *)
Definition truthy (v : pyval) : bool :=
  match v with
  | VNone => false
  | VBool b => b
  | VInt z => negb (z =? 0)
  | VFloat q => negb (Qeq_bool q 0)
  | VStr s => negb (String.eqb s "")
  | VList l => match l with [] => false | _ => true end
  | VDict d => match d with [] => false | _ => true end
  end.

(** [d.get(k)]: the value bound to [k], [None] when there is none. *)
Fixpoint dict_get (d : pydict) (k : string) : pyval :=
  match d with
  | [] => VNone
  | (k', v) :: d' => if String.eqb k' k then v else dict_get d' k
  end.

(** [k in d]. *)
Fixpoint dict_has (d : pydict) (k : string) : bool :=
  match d with
  | [] => false
  | (k', _) :: d' => String.eqb k' k || dict_has d' k
  end.

(** [d.get(k, default)]. *)
Definition dict_get_default (d : pydict) (k : string) (default : pyval) : pyval :=
  if dict_has d k then dict_get d k else default.

Definition opt_str (o : option string) : pyval :=
  match o with Some s => VStr s | None => VNone end.

(** Truthiness of an [Optional[str]]. *)
Definition truthy_opt (o : option string) : bool :=
  match o with Some s => negb (String.eqb s "") | None => false end.

(** ** Dates *)

Record datetime : Type := mk_datetime {
  year : Z; month : Z; day : Z;
  hour : Z; minute : Z; second : Z; microsecond : Z }.

Definition is_leap (y : Z) : bool :=
  ((y mod 4 =? 0) && negb (y mod 100 =? 0)) || (y mod 400 =? 0).

Definition days_in_month (y m : Z) : Z :=
  if m =? 2 then (if is_leap y then 29 else 28)
  else if (m =? 4) || (m =? 6) || (m =? 9) || (m =? 11) then 30
  else 31.

(** The check of [datetime.date(y, m, d)]: [MINYEAR = 1], [MAXYEAR = 9999]. *)
Definition valid_date (y m d : Z) : bool :=
  (1 <=? y) && (y <=? 9999) && (1 <=? m) && (m <=? 12) &&
  (1 <=? d) && (d <=? days_in_month y m).

Definition digit_char (n : Z) : ascii :=
  ascii_of_N (Z.to_N (48 + n mod 10)).

(** The last [width] decimal digits of [n], zero padded: ["%0<width>d"]
    for [0 <= n < 10^width]. *)
Fixpoint zero_padded (width : nat) (n : Z) : string :=
  match width with
  | O => ""
  | S w => zero_padded w (n / 10) +:+ String (digit_char n) ""
  end.

(** [datetime.isoformat()] of a naive datetime. *)
Definition isoformat (t : datetime) : string :=
  zero_padded 4 (year t) +:+ "-" +:+ zero_padded 2 (month t) +:+ "-" +:+
  zero_padded 2 (day t) +:+ "T" +:+ zero_padded 2 (hour t) +:+ ":" +:+
  zero_padded 2 (minute t) +:+ ":" +:+ zero_padded 2 (second t) +:+
  (if microsecond t =? 0 then "" else "." +:+ zero_padded 6 (microsecond t)).

Definition iso_or_none (o : option datetime) : pyval :=
  match o with Some t => VStr (isoformat t) | None => VNone end.

(** *** [datetime.strptime(s, "%d-%m-%Y")]

    [_strptime] turns the format into the regular expression
    [(?P<d>3[0-1]|[1-2]\d|0[1-9]|[1-9]| [1-9])-(?P<m>1[0-2]|0[1-9]|[1-9])-(?P<Y>\d\d\d\d)],
    matches it at the start of the string, rejects unconverted trailing
    data and then builds the date, which checks the calendar. *)

Definition digit (c : ascii) : option Z :=
  let n := Z.of_N (N_of_ascii c) - 48 in
  if (0 <=? n) && (n <=? 9) then Some n else None.

(** The ways the group [%d] matches a prefix, in the order of its
    alternatives: the value and the rest of the input. *)
Definition re_d (s : string) : list (Z * string) :=
  (match s with
   | String a (String b r) =>
       match digit a, digit b with
       | Some x, Some y =>
           (if (x =? 3) && (y <=? 1) then [(30 + y, r)] else []) ++
           (if (1 <=? x) && (x <=? 2) then [(10 * x + y, r)] else []) ++
           (if (x =? 0) && (1 <=? y) then [(y, r)] else [])
       | _, _ => []
       end
   | _ => []
   end) ++
  (match s with
   | String a r =>
       match digit a with
       | Some x => if 1 <=? x then [(x, r)] else []
       | None => []
       end
   | _ => []
   end) ++
  (match s with
   | String a (String b r) =>
       if Ascii.eqb a " "%char then
         match digit b with
         | Some y => if 1 <=? y then [(y, r)] else []
         | None => []
         end
       else []
   | _ => []
   end).

(** The group [%m]: [1[0-2]|0[1-9]|[1-9]]. *)
Definition re_m (s : string) : list (Z * string) :=
  (match s with
   | String a (String b r) =>
       match digit a, digit b with
       | Some x, Some y =>
           (if (x =? 1) && (y <=? 2) then [(10 + y, r)] else []) ++
           (if (x =? 0) && (1 <=? y) then [(y, r)] else [])
       | _, _ => []
       end
   | _ => []
   end) ++
  (match s with
   | String a r =>
       match digit a with
       | Some x => if 1 <=? x then [(x, r)] else []
       | None => []
       end
   | _ => []
   end).

(** The group [%Y]: [\d\d\d\d]. *)
Definition re_Y (s : string) : list (Z * string) :=
  match s with
  | String a (String b (String c (String d r))) =>
      match digit a, digit b, digit c, digit d with
      | Some w, Some x, Some y, Some z => [(1000 * w + 100 * x + 10 * y + z, r)]
      | _, _, _, _ => []
      end
  | _ => []
  end.

(** The literal [-] of the format. *)
Definition re_dash (s : string) : list string :=
  match s with
  | String c r => if Ascii.eqb c "-"%char then [r] else []
  | _ => []
  end.

(** All matches of the whole expression at the start of [s], in the order
    the backtracking engine finds them: day, month, year, rest. *)
Definition re_dmY (s : string) : list (Z * Z * Z * string) :=
  '(d, r1) ← re_d s;
  r2 ← re_dash r1;
  '(m, r3) ← re_m r2;
  r4 ← re_dash r3;
  '(y, r5) ← re_Y r4;
  [(d, m, y, r5)].

(** [None] stands for the [ValueError] of [strptime]. *)
Definition strptime_dmY (s : string) : option datetime :=
  match re_dmY s with
  | (d, m, y, rest) :: _ =>
      if String.eqb rest "" then
        if valid_date y m d then Some (mk_datetime y m d 0 0 0 0) else None
      else None
  | [] => None
  end.

(** ** Exceptions and the handler monad *)

(** [HTTPException(status_code, detail)] of FastAPI, and every other
    subclass of [Exception] with its class name and its [str(e)]. *)
Inductive exn : Type :=
| HTTPException (status_code : Z) (detail : string)
| PyError (cls : string) (msg : string).

(** [str(e)]; for an [HTTPException] Starlette prints the code and the
    detail. *)
Definition str_exn (e : exn) : string :=
  match e with
  | HTTPException c d => pretty c +:+ ": " +:+ d
  | PyError _ m => m
  end.

Inductive outcome (A : Type) : Type :=
| Ok (a : A)
| Raise (e : exn).
Arguments Ok {A} a.
Arguments Raise {A} e.

(** ** Documents

    The document classes are declared in [models.py], which is not among
    the sources.  Their fields are those of the data model of the
    specification, under the names [main.py] reads them by.  An id is a
    [str]; a field that [main.py] only stores and returns is kept as the
    Python value it was given; a field [main.py] calls [isoformat] on is
    an optional datetime. *)

(** Modelled from the spec: the class [User] of [models.py]: name,
    email (the identity key), phone, role, password hash, avatar, active
    flag, timestamps. *)
Module User.
Record t : Type := mk {
  id : string; name : pyval; email : string; phone : pyval; role : pyval;
  password_hash : string; avatar : pyval; is_active : bool;
  created_at : option datetime; updated_at : option datetime }.
End User.

(** Modelled from the spec: the class [Driver] of [models.py]: the user
    it belongs to, vehicle attributes, license number and expiry, rating,
    total rides, odometer reading, online flag. *)
Module Driver.
Record t : Type := mk {
  id : string; user_id : string;
  vehicle_make : pyval; vehicle_model : pyval; vehicle_year : pyval;
  license_plate : pyval; vehicle_color : pyval; license_number : pyval;
  license_expiry : option datetime;
  rating : pyval; total_rides : pyval; current_km_reading : pyval;
  is_online : bool;
  created_at : option datetime; updated_at : option datetime }.
End Driver.

(** Modelled from the spec: the class [Passenger] of [models.py]: the
    user it belongs to, rating, total rides. *)
Module Passenger.
Record t : Type := mk {
  id : string; user_id : string; rating : pyval; total_rides : pyval }.
End Passenger.

(** Modelled from the spec: the class [Vehicle] of [models.py]: a
    vehicle on its own, with make, model, year, plate, color, license
    number and expiry. *)
Module Vehicle.
Record t : Type := mk {
  id : string;
  vehicle_make : pyval; vehicle_model : pyval; vehicle_year : Z;
  license_plate : pyval; vehicle_color : pyval; license_number : pyval;
  license_expiry : option datetime;
  created_at : option datetime; updated_at : option datetime }.
End Vehicle.

(** Modelled from the spec: the enumeration [RideStatus] of [models.py],
    closed, and the strings its members serialise to. *)
Inductive RideStatus : Type := REQUESTED | ASSIGNED | IN_PROGRESS | COMPLETED.

Definition RideStatus_value (s : RideStatus) : string :=
  match s with
  | REQUESTED => "requested"
  | ASSIGNED => "assigned"
  | IN_PROGRESS => "in_progress"
  | COMPLETED => "completed"
  end.

Definition RideStatus_eqb (a b : RideStatus) : bool :=
  match a, b with
  | REQUESTED, REQUESTED | ASSIGNED, ASSIGNED
  | IN_PROGRESS, IN_PROGRESS | COMPLETED, COMPLETED => true
  | _, _ => false
  end.

(** Modelled from the spec: the class [Ride] of [models.py]: passenger
    id, optional driver id, status, pickup and dropoff coordinates and
    addresses, a timestamp per lifecycle transition, distance, start and
    end odometer readings. *)
Module Ride.
Record t : Type := mk {
  id : string;
  passenger_id : option string; driver_id : option string;
  status : RideStatus;
  pickup_latitude : pyval; pickup_longitude : pyval; pickup_address : pyval;
  dropoff_latitude : pyval; dropoff_longitude : pyval; dropoff_address : pyval;
  requested_at : option datetime; assigned_at : option datetime;
  picked_up_at : option datetime; completed_at : option datetime;
  distance : pyval; start_km : pyval; end_km : pyval }.
End Ride.

(** Modelled from the spec: the class [FuelEntry] of [models.py]: driver
    id, fuel amount, cost and type, odometer reading, station, date. *)
Module FuelEntry.
Record t : Type := mk {
  id : string; driver_id : string;
  fuel_amount : pyval; fuel_cost : pyval; fuel_type : pyval;
  odometer_reading : pyval; fuel_station : pyval;
  date : option datetime; created_at : option datetime }.
End FuelEntry.

(** ** The store and the world *)

Record Store : Type := mk_store {
  users : list User.t;
  drivers : list Driver.t;
  passengers : list Passenger.t;
  vehicles : list Vehicle.t;
  rides : list Ride.t;
  fuel_entries : list FuelEntry.t }.

(** [faults] is the fate of the database calls to come: the next call
    takes the head, [Some msg] makes it raise with that message, [None]
    and the empty list let it through.  [clock] is what
    [datetime.utcnow()] answers during the request, [next_id] counts the
    ids handed out. *)
Record World : Type := mk_world {
  store : Store;
  faults : list (option string);
  clock : datetime;
  next_id : nat }.

Definition set_store (s : Store) (w : World) : World :=
  mk_world s (faults w) (clock w) (next_id w).
Definition set_faults (f : list (option string)) (w : World) : World :=
  mk_world (store w) f (clock w) (next_id w).

(** No database call of the request fails. *)
Definition healthy (w : World) : Prop := faults w = [].

Definition M (A : Type) : Type := World -> outcome A * World.

Definition ret {A} (a : A) : M A := fun w => (Ok a, w).

Definition bind {A B} (m : M A) (k : A -> M B) : M B :=
  fun w =>
    match m w with
    | (Ok a, w') => k a w'
    | (Raise e, w') => (Raise e, w')
    end.

Definition raise {A} (e : exn) : M A := fun w => (Raise e, w).

(** [try: m  except Exception as e: h e]. *)
Definition try_except {A} (m : M A) (h : exn -> M A) : M A :=
  fun w =>
    match m w with
    | (Ok a, w') => (Ok a, w')
    | (Raise e, w') => h e w'
    end.

Declare Scope py_scope.
Delimit Scope py_scope with py.
Notation "x <- c ;; k" := (bind c (fun x => k))
  (at level 100, c at next level, right associativity) : py_scope.
Notation "c ;; k" := (bind c (fun _ => k))
  (at level 100, right associativity) : py_scope.
Local Open Scope py_scope.

(** [for x in xs: acc = body x acc], with [acc] the variables the loop
    body assigns. *)
Fixpoint for_in {A S} (xs : list A) (body : A -> S -> M S) (acc : S) : M S :=
  match xs with
  | [] => ret acc
  | x :: xs' => acc' <- body x acc ;; for_in xs' body acc'
  end.

(** One round trip to the database. *)
Definition db_call : M unit :=
  fun w =>
    match faults w with
    | [] => (Ok tt, w)
    | None :: fs => (Ok tt, set_faults fs w)
    | Some msg :: fs => (Raise (PyError "PyMongoError" msg), set_faults fs w)
    end.

Definition db_read {A} (f : Store -> A) : M A :=
  db_call ;; fun w => (Ok (f (store w)), w).

Definition db_write (f : Store -> Store) : M unit :=
  db_call ;; fun w => (Ok tt, set_store (f (store w)) w).

Definition utcnow : M datetime := fun w => (Ok (clock w), w).

(** [{key(x): x for x in xs}]: a later item replaces an earlier one with
    the same key. *)
Definition dict_by {A} (key : A -> string) (xs : list A) : gmap string A :=
  foldl (fun m x => <[key x := x]> m) ∅ xs.

(** [d.get(k)] for an [Optional[str]] key. *)
Definition lookup_opt {A} (d : gmap string A) (k : option string) : option A :=
  match k with Some s => d !! s | None => None end.

Definition mem (s : string) (l : list string) : bool :=
  existsb (String.eqb s) l.

(** ** What [main.py] imports from the absent modules *)

(** [auth.py]: the three functions the handlers call.  [verify_password]
    gets the raw [password] entry of the request and the stored hash;
    [create_access_token] gets the [sub] claim and the minutes to expiry. *)
Record Auth : Type := mk_auth {
  get_password_hash : string -> string;
  verify_password : pyval -> string -> bool;
  create_access_token : string -> Z -> string }.

(** [models.py] and the database layer under it: how an id is made from
    the counter, which field values each document class accepts at
    construction, how a JSON value that is not a [str] is read as a
    datetime, and whether an operator document given as the email of a
    query selects a stored email. *)
Record Models : Type := mk_models {
  object_id : nat -> string;
  User_valid : pyval -> string -> pyval -> pyval -> bool;
  Driver_valid : string -> pyval -> pyval -> pyval -> pyval -> bool;
  Passenger_valid : string -> pyval -> pyval -> bool;
  Vehicle_valid : pyval -> pyval -> Z -> pyval -> pyval -> pyval -> bool;
  Ride_valid : option string -> pyval -> pyval -> pyval ->
               pyval -> pyval -> pyval -> bool;
  coerce_datetime : pyval -> option datetime;
  query_operator : pydict -> string -> bool }.

(** The value [create_vehicle] hands to [Vehicle(license_expiry=...)]:
    the datetime it parsed, or the request value it left alone. *)
Inductive expiry_arg : Type :=
| Parsed (t : datetime)
| Unparsed (v : pyval).

Module LoginResponse.
Record t : Type := mk {
  access_token : string; token_type : string; user : User.t }.
End LoginResponse.

Definition ValidationError : exn := PyError "ValidationError" "validation error".

Section Handlers.

Variable auth : Auth.
Variable models : Models.
(** The built-in [int] applied to a [str]. *)
Variable int_of_str : string -> option Z.

Definition fresh_id : M string :=
  fun w => (Ok (object_id models (next_id w)),
            mk_world (store w) (faults w) (clock w) (S (next_id w))).

(** *** Constructors and inserts *)

(** Modelled from the spec: the class [User] of [models.py].  The email
    is the identity key, a [str]; the other request fields are stored as
    given when the class accepts them; the avatar starts empty, the
    active flag set, the timestamps at the time of construction. *)
Definition User_new (name email phone role : pyval) (password_hash : string)
  : M User.t :=
  match email with
  | VStr e =>
      if User_valid models name e phone role then
        id <- fresh_id ;;
        now <- utcnow ;;
        ret (User.mk id name e phone role password_hash VNone true
               (Some now) (Some now))
      else raise ValidationError
  | _ => raise ValidationError
  end.

Definition User_insert (u : User.t) : M unit :=
  db_write (fun s => mk_store (users s ++ [u]) (drivers s) (passengers s)
                       (vehicles s) (rides s) (fuel_entries s)).

Definition coerce_optional_datetime (v : pyval) : M (option datetime) :=
  match v with
  | VNone => ret None
  | _ => match coerce_datetime models v with
         | Some t => ret (Some t)
         | None => raise ValidationError
         end
  end.

(** Modelled from the spec: the class method [Driver.create_driver] of
    [models.py], which builds the driver profile of a user without
    vehicle attributes, offline, and inserts it. *)
Definition Driver_create_driver (user_id : string)
    (license_number license_expiry rating total_rides current_km_reading : pyval)
  : M Driver.t :=
  expiry <- coerce_optional_datetime license_expiry ;;
  if Driver_valid models user_id license_number rating total_rides
       current_km_reading then
    id <- fresh_id ;;
    now <- utcnow ;;
    let d := Driver.mk id user_id VNone VNone VNone VNone VNone license_number
               expiry rating total_rides current_km_reading false
               (Some now) (Some now) in
    db_write (fun s => mk_store (users s) (drivers s ++ [d]) (passengers s)
                         (vehicles s) (rides s) (fuel_entries s)) ;;
    ret d
  else raise ValidationError.

(** Modelled from the spec: the class [Passenger] of [models.py]. *)
Definition Passenger_new (user_id : string) (rating total_rides : pyval)
  : M Passenger.t :=
  if Passenger_valid models user_id rating total_rides then
    id <- fresh_id ;;
    ret (Passenger.mk id user_id rating total_rides)
  else raise ValidationError.

Definition Passenger_insert (p : Passenger.t) : M unit :=
  db_write (fun s => mk_store (users s) (drivers s) (passengers s ++ [p])
                       (vehicles s) (rides s) (fuel_entries s)).

(** Modelled from the spec: the class [Vehicle] of [models.py]. *)
Definition Vehicle_new (vehicle_make vehicle_model : pyval) (vehicle_year : Z)
    (license_plate vehicle_color license_number : pyval)
    (license_expiry : expiry_arg) : M Vehicle.t :=
  expiry <- match license_expiry with
            | Parsed t => ret t
            | Unparsed v => match coerce_datetime models v with
                            | Some t => ret t
                            | None => raise ValidationError
                            end
            end ;;
  if Vehicle_valid models vehicle_make vehicle_model vehicle_year
       license_plate vehicle_color license_number then
    id <- fresh_id ;;
    now <- utcnow ;;
    ret (Vehicle.mk id vehicle_make vehicle_model vehicle_year license_plate
           vehicle_color license_number (Some expiry) (Some now) (Some now))
  else raise ValidationError.

Definition Vehicle_insert (v : Vehicle.t) : M unit :=
  db_write (fun s => mk_store (users s) (drivers s) (passengers s)
                       (vehicles s ++ [v]) (rides s) (fuel_entries s)).

(** Modelled from the spec: the class [Ride] of [models.py].  A ride has
    a passenger id and an optional driver id; [requested_at] is always
    set, at construction; the driver id, the timestamps of the later
    transitions, the distance and the odometer readings have no value
    until an endpoint sets them. *)
Definition Ride_new (passenger_id pickup_latitude pickup_longitude
    pickup_address dropoff_latitude dropoff_longitude dropoff_address : pyval)
    (status : RideStatus) : M Ride.t :=
  pid <- match passenger_id with
         | VNone => ret None
         | VStr s => ret (Some s)
         | _ => raise ValidationError
         end ;;
  if Ride_valid models pid pickup_latitude pickup_longitude pickup_address
       dropoff_latitude dropoff_longitude dropoff_address then
    id <- fresh_id ;;
    now <- utcnow ;;
    ret (Ride.mk id pid None status
           pickup_latitude pickup_longitude pickup_address
           dropoff_latitude dropoff_longitude dropoff_address
           (Some now) None None None VNone VNone VNone)
  else raise ValidationError.

Definition Ride_insert (r : Ride.t) : M unit :=
  db_write (fun s => mk_store (users s) (drivers s) (passengers s)
                       (vehicles s) (rides s ++ [r]) (fuel_entries s)).

(** *** Queries *)

(** Does the query [{"email": q}] select a user with this email? *)
Definition email_matches (q : pyval) (e : string) : bool :=
  match q with
  | VStr s => String.eqb s e
  | VDict ops => query_operator models ops e
  | _ => false
  end.

(** [User.find_one({"email": q})]. *)
Definition User_find_one_email (q : pyval) : M (option User.t) :=
  db_read (fun s => List.find (fun u => email_matches q (User.email u)) (users s)).

(** [User.get(id)]. *)
Definition User_get (id : string) : M (option User.t) :=
  db_read (fun s => List.find (fun u => String.eqb (User.id u) id) (users s)).

(** [Driver.get(id)]. *)
Definition Driver_get (id : string) : M (option Driver.t) :=
  db_read (fun s => List.find (fun d => String.eqb (Driver.id d) id) (drivers s)).

(** [Driver.find_one({"user_id": uid})]. *)
Definition Driver_find_one_user_id (uid : string) : M (option Driver.t) :=
  db_read (fun s => List.find (fun d => String.eqb (Driver.user_id d) uid) (drivers s)).

(** [X.find({"_id": {"$in": ids}})]. *)
Definition User_find_in (ids : list string) : M (list User.t) :=
  db_read (fun s => List.filter (fun u => mem (User.id u) ids) (users s)).
Definition Passenger_find_in (ids : list string) : M (list Passenger.t) :=
  db_read (fun s => List.filter (fun p => mem (Passenger.id p) ids) (passengers s)).
Definition Driver_find_in (ids : list string) : M (list Driver.t) :=
  db_read (fun s => List.filter (fun d => mem (Driver.id d) ids) (drivers s)).

(** [Ride.find({"driver_id": did, "status": {"$in": sts}})]. *)
Definition assigned_to (did : string) (sts : list RideStatus) (r : Ride.t) : bool :=
  match Ride.driver_id r with
  | Some d => String.eqb d did
  | None => false
  end && existsb (RideStatus_eqb (Ride.status r)) sts.

Definition Ride_find_driver_status (did : string) (sts : list RideStatus)
  : M (list Ride.t) :=
  db_read (fun s => List.filter (assigned_to did sts) (rides s)).

(** [[f(r) for r in rides if f(r)]]. *)
Definition truthy_ids (f : Ride.t -> option string) (rs : list Ride.t)
  : list string :=
  flat_map (fun r => match f r with
                     | Some s => if truthy_opt (Some s) then [s] else []
                     | None => []
                     end) rs.

(** [d.values()], in the order of the map; the handlers only pass the
    ids of these values to a [$in] filter, which ignores the order. *)
Definition values {A} (d : gmap string A) : list A := (map_to_list d).*2.

Definition User_find_all : M (list User.t) := db_read users.
Definition Driver_find_all : M (list Driver.t) := db_read drivers.
Definition Passenger_find_all : M (list Passenger.t) := db_read passengers.
Definition Vehicle_find_all : M (list Vehicle.t) := db_read vehicles.
Definition Ride_find_all : M (list Ride.t) := db_read rides.
Definition FuelEntry_find_all : M (list FuelEntry.t) := db_read fuel_entries.

(** *** Python helpers of the handlers *)

(** [v.get(k)] on a value that should be a [dict]. *)
Definition get_method (v : pyval) (k : string) : M pyval :=
  match v with
  | VDict d => ret (dict_get d k)
  | _ => raise (PyError "AttributeError" "object has no attribute 'get'")
  end.

(** [d[k]]. *)
Definition subscript (d : pydict) (k : string) : M pyval :=
  if dict_has d k then ret (dict_get d k) else raise (PyError "KeyError" k).

(** [int(v)]; the texts of the built-in errors are abbreviated. *)
Definition py_int (v : pyval) : M Z :=
  match v with
  | VInt z => ret z
  | VBool b => ret (if b then 1 else 0)
  | VFloat q => ret (Z.quot (Qnum q) (Z.pos (Qden q)))
  | VStr s => match int_of_str s with
              | Some z => ret z
              | None => raise (PyError "ValueError" "invalid literal for int() with base 10")
              end
  | _ => raise (PyError "TypeError" "int() argument must be a string, a bytes-like object or a real number")
  end.

(** What the framework sends for a returned [User]: every field of the
    document. *)
Definition User_json (u : User.t) : pyval :=
  VDict [("id", VStr (User.id u)); ("name", User.name u);
         ("email", VStr (User.email u)); ("phone", User.phone u);
         ("role", User.role u); ("password_hash", VStr (User.password_hash u));
         ("avatar", User.avatar u); ("is_active", VBool (User.is_active u));
         ("created_at", iso_or_none (User.created_at u));
         ("updated_at", iso_or_none (User.updated_at u))].

Definition LoginResponse_json (r : LoginResponse.t) : pyval :=
  VDict [("access_token", VStr (LoginResponse.access_token r));
         ("token_type", VStr (LoginResponse.token_type r));
         ("user", User_json (LoginResponse.user r))].

Definition error_body (e : exn) : pyval :=
  VDict [("status", VStr "error"); ("message", VStr (str_exn e))].

(** ** Authentication endpoints *)

(** [POST /auth/login]. *)
Definition login (user_credentials : pydict) : M LoginResponse.t :=
  user <- User_find_one_email (dict_get user_credentials "email") ;;
  match user with
  | None => raise (HTTPException 401 "Incorrect email or password")
  | Some user =>
      if negb (verify_password auth (dict_get user_credentials "password")
                 (User.password_hash user))
      then raise (HTTPException 401 "Incorrect email or password")
      else
        let access_token_expires := 30 in
        let access_token :=
          create_access_token auth (User.email user) access_token_expires in
        ret (LoginResponse.mk access_token "bearer" user)
  end.

(** ** User management endpoints (admin only)

    [current_user] is the administrator the dependency
    [get_current_admin] resolved before the body runs. *)

(** [POST /users]. *)
Definition create_user (user_data : pydict) (current_user : User.t) : M User.t :=
  existing_user <- User_find_one_email (dict_get user_data "email") ;;
  match existing_user with
  | Some _ => raise (HTTPException 400 "User with this email already exists")
  | None =>
      new_user <- User_new (dict_get user_data "name") (dict_get user_data "email")
                    (dict_get user_data "phone") (dict_get user_data "role")
                    (get_password_hash auth "password") ;;
      User_insert new_user ;;
      ret new_user
  end.

(** [POST /drivers]. *)
Definition create_driver (driver_data : pydict) (current_user : User.t)
  : M Driver.t :=
  q <- get_method (dict_get_default driver_data "user" (VDict [])) "email" ;;
  existing_user <- User_find_one_email q ;;
  match existing_user with
  | Some _ => raise (HTTPException 400 "User with this email already exists")
  | None =>
      name <- get_method (dict_get_default driver_data "user" (VDict [])) "name" ;;
      email <- get_method (dict_get_default driver_data "user" (VDict [])) "email" ;;
      phone <- get_method (dict_get_default driver_data "user" (VDict [])) "phone" ;;
      new_user <- User_new name email phone (VStr "driver")
                    (get_password_hash auth "password") ;;
      User_insert new_user ;;
      driver_profile <- Driver_create_driver (User.id new_user)
                          (dict_get driver_data "license_number")
                          (dict_get driver_data "license_expiry")
                          (dict_get_default driver_data "rating" (VFloat 5))
                          (dict_get_default driver_data "total_rides" (VInt 0))
                          (dict_get_default driver_data "current_km_reading" (VInt 0)) ;;
      ret driver_profile
  end.

(** [POST /passengers]. *)
Definition create_passenger (passenger_data : pydict) (current_user : User.t)
  : M Passenger.t :=
  q <- get_method (dict_get_default passenger_data "user" (VDict [])) "email" ;;
  existing_user <- User_find_one_email q ;;
  match existing_user with
  | Some _ => raise (HTTPException 400 "User with this email already exists")
  | None =>
      name <- get_method (dict_get_default passenger_data "user" (VDict [])) "name" ;;
      email <- get_method (dict_get_default passenger_data "user" (VDict [])) "email" ;;
      phone <- get_method (dict_get_default passenger_data "user" (VDict [])) "phone" ;;
      new_user <- User_new name email phone (VStr "passenger")
                    (get_password_hash auth "password") ;;
      User_insert new_user ;;
      passenger_profile <- Passenger_new (User.id new_user)
                             (dict_get_default passenger_data "rating" (VFloat 5))
                             (dict_get_default passenger_data "total_rides" (VInt 0)) ;;
      Passenger_insert passenger_profile ;;
      ret passenger_profile
  end.

(** ** Vehicles *)

Definition required_fields : list string :=
  ["vehicle_make"; "vehicle_model"; "vehicle_year"; "license_plate";
   "vehicle_color"; "license_number"; "license_expiry"].

(** [for field in fields: if not vehicle_data.get(field): raise 400]. *)
Fixpoint validate_required (fields : list string) (vehicle_data : pydict)
  : M unit :=
  match fields with
  | [] => ret tt
  | field :: fields' =>
      if negb (truthy (dict_get vehicle_data field))
      then raise (HTTPException 400 ("Missing required field: " +:+ field))
      else validate_required fields' vehicle_data
  end.

(** [POST /vehicles]. *)
Definition create_vehicle (vehicle_data : pydict) (current_user : User.t)
  : M Vehicle.t :=
  validate_required required_fields vehicle_data ;;
  license_expiry <- subscript vehicle_data "license_expiry" ;;
  license_expiry <-
    match license_expiry with
    | VStr s =>
        match strptime_dmY s with
        | Some t => ret (Parsed t)
        | None => raise (HTTPException 400
                           "license_expiry must be in DD-MM-YYYY format")
        end
    | v => ret (Unparsed v)
    end ;;
  try_except
    (vehicle_make <- subscript vehicle_data "vehicle_make" ;;
     vehicle_model <- subscript vehicle_data "vehicle_model" ;;
     vehicle_year <- subscript vehicle_data "vehicle_year" ;;
     vehicle_year <- py_int vehicle_year ;;
     license_plate <- subscript vehicle_data "license_plate" ;;
     vehicle_color <- subscript vehicle_data "vehicle_color" ;;
     license_number <- subscript vehicle_data "license_number" ;;
     vehicle <- Vehicle_new vehicle_make vehicle_model vehicle_year
                  license_plate vehicle_color license_number license_expiry ;;
     Vehicle_insert vehicle ;;
     ret vehicle)
    (fun e => raise (HTTPException 500
                       ("Failed to create vehicle: " +:+ str_exn e))).

(** ** Fuel entries *)

Definition fuel_data (entry : FuelEntry.t) (driver : option Driver.t)
    (user : option User.t) : pyval :=
  VDict [("id", VStr (FuelEntry.id entry));
         ("driver_id", VStr (FuelEntry.driver_id entry));
         ("driver_name", from_option User.name (VStr "Unknown") user);
         ("vehicle_make", from_option Driver.vehicle_make (VStr "Unknown") driver);
         ("license_plate", from_option Driver.license_plate (VStr "Unknown") driver);
         ("fuel_amount", FuelEntry.fuel_amount entry);
         ("fuel_cost", FuelEntry.fuel_cost entry);
         ("fuel_type", FuelEntry.fuel_type entry);
         ("odometer_reading", FuelEntry.odometer_reading entry);
         ("fuel_station", FuelEntry.fuel_station entry);
         ("date", iso_or_none (FuelEntry.date entry));
         ("created_at", iso_or_none (FuelEntry.created_at entry))].

(** The body of the loop over the fuel entries, its own [try] included. *)
Definition fuel_entry_step (entry : FuelEntry.t) (fuel_list : list pyval)
  : M (list pyval) :=
  try_except
    (driver <- Driver_get (FuelEntry.driver_id entry) ;;
     user <- match driver with
             | Some d => User_get (Driver.user_id d)
             | None => ret None
             end ;;
     ret (fuel_list ++ [fuel_data entry driver user]))
    (fun e => ret fuel_list).

(** [GET /fuel-entries]. *)
Definition get_fuel_entries (current_user : User.t) : M pyval :=
  try_except
    (fuel_entries <- FuelEntry_find_all ;;
     fuel_list <- for_in fuel_entries fuel_entry_step [] ;;
     ret (VDict [("status", VStr "success"); ("fuel_entries", VList fuel_list)]))
    (fun e => ret (error_body e)).

(** ** Rides *)

(** [POST /rides]. *)
Definition create_ride (ride_data : pydict) : M Ride.t :=
  new_ride <- Ride_new (dict_get ride_data "passenger_id")
                (dict_get ride_data "pickup_latitude")
                (dict_get ride_data "pickup_longitude")
                (dict_get ride_data "pickup_address")
                (dict_get ride_data "dropoff_latitude")
                (dict_get ride_data "dropoff_longitude")
                (dict_get ride_data "dropoff_address")
                REQUESTED ;;
  Ride_insert new_ride ;;
  ret new_ride.

(** The nested ["user"] object of a ride response. *)
Definition user_details (u : option User.t) (default_role : string) : pyval :=
  match u with
  | Some _ =>
      VDict [("id", from_option (fun x => VStr (User.id x)) VNone u);
             ("name", from_option User.name (VStr "Unknown") u);
             ("email", from_option (fun x => VStr (User.email x)) (VStr "No email") u);
             ("phone", from_option User.phone (VStr "No phone") u);
             ("role", from_option User.role (VStr default_role) u);
             ("avatar", from_option User.avatar VNone u);
             ("created_at", from_option (fun x => iso_or_none (User.created_at x)) VNone u);
             ("is_active", VBool (from_option User.is_active true u))]
  | None => VNone
  end.

(** The nested ["passenger"] object of a ride response. *)
Definition passenger_details (passenger : option Passenger.t)
    (passenger_user : option User.t) : pyval :=
  match passenger with
  | Some _ =>
      VDict [("id", from_option (fun p => VStr (Passenger.id p)) VNone passenger);
             ("user_id", from_option (fun p => VStr (Passenger.user_id p)) VNone passenger);
             ("rating", from_option Passenger.rating (VFloat 0) passenger);
             ("total_rides", from_option Passenger.total_rides (VInt 0) passenger);
             ("user", user_details passenger_user "passenger")]
  | None => VNone
  end.

(** The nested ["driver"] object of a ride response. *)
Definition driver_details (driver : option Driver.t)
    (driver_user : option User.t) : pyval :=
  match driver with
  | Some _ =>
      VDict [("id", from_option (fun d => VStr (Driver.id d)) VNone driver);
             ("user_id", from_option (fun d => VStr (Driver.user_id d)) VNone driver);
             ("vehicle_make", from_option Driver.vehicle_make VNone driver);
             ("vehicle_model", from_option Driver.vehicle_model VNone driver);
             ("license_plate", from_option Driver.license_plate VNone driver);
             ("is_online", VBool (from_option Driver.is_online false driver));
             ("user", user_details driver_user "driver")]
  | None => VNone
  end.

(** The fields every ride response copies from the ride. *)
Definition ride_fields (ride : Ride.t) : pydict :=
  [("id", VStr (Ride.id ride));
   ("passenger_id", opt_str (Ride.passenger_id ride));
   ("driver_id", opt_str (Ride.driver_id ride));
   ("status", VStr (RideStatus_value (Ride.status ride)));
   ("pickup_latitude", Ride.pickup_latitude ride);
   ("pickup_longitude", Ride.pickup_longitude ride);
   ("pickup_address", Ride.pickup_address ride);
   ("dropoff_latitude", Ride.dropoff_latitude ride);
   ("dropoff_longitude", Ride.dropoff_longitude ride);
   ("dropoff_address", Ride.dropoff_address ride);
   ("requested_at", iso_or_none (Ride.requested_at ride));
   ("assigned_at", iso_or_none (Ride.assigned_at ride));
   ("picked_up_at", iso_or_none (Ride.picked_up_at ride));
   ("completed_at", iso_or_none (Ride.completed_at ride));
   ("distance", Ride.distance ride);
   ("start_km", Ride.start_km ride);
   ("end_km", Ride.end_km ride)].

(** The response [get_assigned_rides] builds for one ride. *)
Definition assigned_ride_response (passengers : gmap string Passenger.t)
    (users : gmap string User.t) (ride : Ride.t) : pyval :=
  let passenger := lookup_opt passengers (Ride.passenger_id ride) in
  let passenger_user :=
    match passenger with
    | Some p => users !! Passenger.user_id p
    | None => None
    end in
  VDict (ride_fields ride ++
         [("passenger", passenger_details passenger passenger_user)]).

(** [GET /rides/assigned]; [current_user] is the driver the dependency
    [get_current_driver] resolved. *)
Definition get_assigned_rides (current_user : User.t) : M (list pyval) :=
  driver <- Driver_find_one_user_id (User.id current_user) ;;
  match driver with
  | None => raise (HTTPException 404 "Driver profile not found")
  | Some driver =>
      rides <- Ride_find_driver_status (Driver.id driver) [ASSIGNED; IN_PROGRESS] ;;
      let passenger_ids := truthy_ids Ride.passenger_id rides in
      found <- Passenger_find_in passenger_ids ;;
      let passengers := dict_by Passenger.id found in
      let user_ids := map Passenger.user_id (values passengers) in
      found_users <- User_find_in user_ids ;;
      let users := dict_by User.id found_users in
      ride_responses <-
        for_in rides
          (fun ride ride_responses =>
             ret (ride_responses ++ [assigned_ride_response passengers users ride]))
          [] ;;
      ret ride_responses
  end.


(** ** Debug endpoints (no authentication) *)

(** [GET /debug/data]. *)
Definition debug_data : M pyval :=
  try_except
    (users <- User_find_all ;;
     drivers <- Driver_find_all ;;
     passengers <- Passenger_find_all ;;
     vehicles <- Vehicle_find_all ;;
     ret (VDict
       [("status", VStr "success");
        ("data", VDict
          [("users_count", VInt (Z.of_nat (length users)));
           ("drivers_count", VInt (Z.of_nat (length drivers)));
           ("passengers_count", VInt (Z.of_nat (length passengers)));
           ("vehicles_count", VInt (Z.of_nat (length vehicles)));
           ("users", VList (map (fun u =>
               VDict [("id", VStr (User.id u)); ("name", User.name u);
                      ("email", VStr (User.email u)); ("role", User.role u)])
               users));
           ("drivers", VList (map (fun d =>
               VDict [("id", VStr (Driver.id d));
                      ("user_id", VStr (Driver.user_id d));
                      ("vehicle_make", Driver.vehicle_make d);
                      ("license_plate", Driver.license_plate d)])
               drivers));
           ("passengers", VList (map (fun p =>
               VDict [("id", VStr (Passenger.id p));
                      ("user_id", VStr (Passenger.user_id p))])
               passengers));
           ("vehicles", VList (map (fun v =>
               VDict [("id", VStr (Vehicle.id v));
                      ("vehicle_make", Vehicle.vehicle_make v);
                      ("license_plate", Vehicle.license_plate v)])
               vehicles))])]))
    (fun e => ret (error_body e)).

(** [GET /debug/users]. *)
Definition debug_users : M pyval :=
  try_except
    (users <- User_find_all ;;
     ret (VDict
       [("status", VStr "success");
        ("users", VList (map (fun user =>
            VDict [("id", VStr (User.id user)); ("name", User.name user);
                   ("email", VStr (User.email user)); ("phone", User.phone user);
                   ("role", User.role user);
                   ("created_at", iso_or_none (User.created_at user))])
            users))]))
    (fun e => ret (error_body e)).

(** [GET /debug/users-simple]. *)
Definition debug_users_simple : M pyval :=
  try_except
    (users <- User_find_all ;;
     ret (VDict
       [("status", VStr "success");
        ("users", VList (map (fun user =>
            VDict [("id", VStr (User.id user)); ("name", User.name user);
                   ("email", VStr (User.email user)); ("phone", User.phone user);
                   ("role", User.role user)])
            users))]))
    (fun e => ret (error_body e)).

Definition driver_data (driver : Driver.t) (user : option User.t) : pyval :=
  VDict [("id", VStr (Driver.id driver));
         ("user_id", VStr (Driver.user_id driver));
         ("user_name", from_option User.name (VStr "Unknown") user);
         ("user_email", from_option (fun u => VStr (User.email u)) (VStr "Unknown") user);
         ("user_phone", from_option User.phone (VStr "Unknown") user);
         ("vehicle_make", Driver.vehicle_make driver);
         ("vehicle_model", Driver.vehicle_model driver);
         ("vehicle_year", Driver.vehicle_year driver);
         ("license_plate", Driver.license_plate driver);
         ("vehicle_color", Driver.vehicle_color driver);
         ("license_number", Driver.license_number driver);
         ("license_expiry", iso_or_none (Driver.license_expiry driver));
         ("rating", Driver.rating driver);
         ("total_rides", Driver.total_rides driver);
         ("current_km_reading", Driver.current_km_reading driver);
         ("is_online", VBool (Driver.is_online driver));
         ("created_at", iso_or_none (Driver.created_at driver));
         ("updated_at", iso_or_none (Driver.updated_at driver))].

(** The body of the loop of [debug_drivers], its own [try] included. *)
Definition debug_driver_step (driver : Driver.t) (driver_list : list pyval)
  : M (list pyval) :=
  try_except
    (user <- User_get (Driver.user_id driver) ;;
     ret (driver_list ++ [driver_data driver user]))
    (fun e => ret driver_list).

(** [GET /debug/drivers]. *)
Definition debug_drivers : M pyval :=
  try_except
    (drivers <- Driver_find_all ;;
     driver_list <- for_in drivers debug_driver_step [] ;;
     ret (VDict [("status", VStr "success"); ("drivers", VList driver_list)]))
    (fun e => ret (error_body e)).

Definition vehicle_data_of_vehicle (vehicle : Vehicle.t) : pyval :=
  VDict [("id", VStr (Vehicle.id vehicle));
         ("vehicle_make", Vehicle.vehicle_make vehicle);
         ("vehicle_model", Vehicle.vehicle_model vehicle);
         ("vehicle_year", VInt (Vehicle.vehicle_year vehicle));
         ("license_plate", Vehicle.license_plate vehicle);
         ("vehicle_color", Vehicle.vehicle_color vehicle);
         ("license_number", Vehicle.license_number vehicle);
         ("license_expiry", iso_or_none (Vehicle.license_expiry vehicle));
         ("created_at", iso_or_none (Vehicle.created_at vehicle));
         ("updated_at", iso_or_none (Vehicle.updated_at vehicle))].

Definition vehicle_data_of_driver (driver : Driver.t) (user : option User.t)
  : pyval :=
  VDict [("id", VStr ("driver_" +:+ Driver.id driver));
         ("driver_id", VStr (Driver.id driver));
         ("driver_name", from_option User.name (VStr "Unknown") user);
         ("vehicle_make", Driver.vehicle_make driver);
         ("vehicle_model", Driver.vehicle_model driver);
         ("vehicle_year", Driver.vehicle_year driver);
         ("license_plate", Driver.license_plate driver);
         ("vehicle_color", Driver.vehicle_color driver);
         ("license_number", Driver.license_number driver);
         ("license_expiry", iso_or_none (Driver.license_expiry driver));
         ("created_at", iso_or_none (Driver.created_at driver));
         ("updated_at", iso_or_none (Driver.updated_at driver))].

(** The body of the second loop of [debug_vehicles]. *)
Definition debug_driver_vehicle_step (driver : Driver.t)
    (vehicle_list : list pyval) : M (list pyval) :=
  if truthy (Driver.vehicle_make driver) && truthy (Driver.vehicle_model driver) &&
     truthy (Driver.license_plate driver) && truthy (Driver.vehicle_color driver)
  then
    try_except
      (user <- User_get (Driver.user_id driver) ;;
       ret (vehicle_list ++ [vehicle_data_of_driver driver user]))
      (fun e => ret vehicle_list)
  else ret vehicle_list.

(** [GET /debug/vehicles]. *)
Definition debug_vehicles : M pyval :=
  try_except
    (vehicles <- Vehicle_find_all ;;
     vehicle_list <-
       for_in vehicles
         (fun vehicle vehicle_list =>
            ret (vehicle_list ++ [vehicle_data_of_vehicle vehicle]))
         [] ;;
     drivers <- Driver_find_all ;;
     vehicle_list <- for_in drivers debug_driver_vehicle_step vehicle_list ;;
     ret (VDict [("status", VStr "success"); ("vehicles", VList vehicle_list)]))
    (fun e => ret (error_body e)).

Definition debug_ride_data (ride : Ride.t) : pyval :=
  VDict [("id", VStr (Ride.id ride));
         ("passenger_id", opt_str (Ride.passenger_id ride));
         ("driver_id", opt_str (Ride.driver_id ride));
         ("status", VStr (RideStatus_value (Ride.status ride)));
         ("pickup_address", Ride.pickup_address ride);
         ("dropoff_address", Ride.dropoff_address ride);
         ("requested_at", iso_or_none (Ride.requested_at ride));
         ("assigned_at", iso_or_none (Ride.assigned_at ride));
         ("picked_up_at", iso_or_none (Ride.picked_up_at ride));
         ("completed_at", iso_or_none (Ride.completed_at ride));
         ("distance", Ride.distance ride);
         ("start_km", Ride.start_km ride);
         ("end_km", Ride.end_km ride)].

(** [GET /debug/rides]. *)
Definition debug_rides : M pyval :=
  try_except
    (rides <- Ride_find_all ;;
     ride_list <-
       for_in rides
         (fun ride ride_list => ret (ride_list ++ [debug_ride_data ride])) [] ;;
     ret (VDict [("status", VStr "success"); ("rides", VList ride_list)]))
    (fun e => ret (error_body e)).

(** [GET /debug/fuel-entries]: the loop body is that of
    [get_fuel_entries]. *)
Definition debug_fuel_entries : M pyval :=
  try_except
    (fuel_entries <- FuelEntry_find_all ;;
     fuel_list <- for_in fuel_entries fuel_entry_step [] ;;
     ret (VDict [("status", VStr "success"); ("fuel_entries", VList fuel_list)]))
    (fun e => ret (error_body e)).

(** The response [debug_get_rides_with_details] builds for one ride. *)
Definition detailed_ride_response (passengers : gmap string Passenger.t)
    (drivers : gmap string Driver.t) (users : gmap string User.t)
    (ride : Ride.t) : pyval :=
  let passenger := lookup_opt passengers (Ride.passenger_id ride) in
  let driver :=
    if truthy_opt (Ride.driver_id ride)
    then lookup_opt drivers (Ride.driver_id ride) else None in
  let passenger_user :=
    match passenger with
    | Some p => users !! Passenger.user_id p
    | None => None
    end in
  let driver_user :=
    match driver with
    | Some d => users !! Driver.user_id d
    | None => None
    end in
  VDict (ride_fields ride ++
         [("passenger", passenger_details passenger passenger_user);
          ("driver", driver_details driver driver_user)]).

(** [GET /debug/rides-with-details]; [list(set(...))] only feeds a
    [$in] filter, which ignores order and repetition. *)
Definition debug_get_rides_with_details : M pyval :=
  try_except
    (rides <- Ride_find_all ;;
     let passenger_ids := truthy_ids Ride.passenger_id rides in
     let driver_ids := truthy_ids Ride.driver_id rides in
     found_passengers <- Passenger_find_in passenger_ids ;;
     let passengers := dict_by Passenger.id found_passengers in
     found_drivers <- Driver_find_in driver_ids ;;
     let drivers := dict_by Driver.id found_drivers in
     let passenger_user_ids := map Passenger.user_id (values passengers) in
     let driver_user_ids := map Driver.user_id (values drivers) in
     let all_user_ids := passenger_user_ids ++ driver_user_ids in
     found_users <- User_find_in all_user_ids ;;
     let users := dict_by User.id found_users in
     ride_responses <-
       for_in rides
         (fun ride ride_responses =>
            ret (ride_responses ++
                 [detailed_ride_response passengers drivers users ride]))
         [] ;;
     ret (VDict [("status", VStr "success");
                 ("rides", VList ride_responses);
                 ("total", VInt (Z.of_nat (length ride_responses)))]))
    (fun e => ret (VDict [("status", VStr "error");
                          ("message", VStr (str_exn e));
                          ("rides", VList [])])).

(** The routes under [/debug]. *)
Inductive debug_route : Type :=
| DebugData | DebugUsers | DebugUsersSimple | DebugDrivers | DebugVehicles
| DebugRides | DebugFuelEntries | DebugRidesWithDetails.

Definition debug_handler (r : debug_route) : M pyval :=
  match r with
  | DebugData => debug_data
  | DebugUsers => debug_users
  | DebugUsersSimple => debug_users_simple
  | DebugDrivers => debug_drivers
  | DebugVehicles => debug_vehicles
  | DebugRides => debug_rides
  | DebugFuelEntries => debug_fuel_entries
  | DebugRidesWithDetails => debug_get_rides_with_details
  end.

End Handlers.

(** [v[k]] of a response value; [None] when [v] is not an object. *)
Definition field (v : pyval) (k : string) : pyval :=
  match v with
  | VDict d => dict_get d k
  | _ => VNone
  end.

(** ** A concrete environment and concrete requests, to run the handlers on *)

Definition plain_auth : Auth :=
  mk_auth (fun s => "hash:" +:+ s)
          (fun pw h => match pw with
                       | VStr s => String.eqb ("hash:" +:+ s) h
                       | _ => false
                       end)
          (fun sub minutes => "token-for:" +:+ sub).

Definition lenient_models : Models :=
  mk_models (fun n => "id-" +:+ pretty n)
            (fun _ _ _ _ => true) (fun _ _ _ _ _ => true) (fun _ _ _ => true)
            (fun _ _ _ _ _ _ => true) (fun _ _ _ _ _ _ _ => true)
            (fun _ => None) (fun _ _ => false).

Definition decimal_only (s : string) : option Z :=
  if String.eqb s "2021" then Some 2021 else None.

Definition noon : datetime := mk_datetime 2026 11 3 12 0 0 0.

Definition admin : User.t :=
  User.mk "u-admin" (VStr "Admin") "admin@rec.example" (VStr "100")
    (VStr "admin") "hash:password" VNone true (Some noon) (Some noon).

Definition asha : User.t :=
  User.mk "u-asha" (VStr "Asha") "asha@rec.example" (VStr "101")
    (VStr "driver") "hash:password" VNone true (Some noon) (Some noon).

Definition asha_profile : Driver.t :=
  Driver.mk "d-asha" "u-asha" VNone VNone VNone VNone VNone (VStr "TN-01")
    None (VFloat 5) (VInt 0) (VInt 0) true (Some noon) (Some noon).

Definition ride_of_asha : Ride.t :=
  Ride.mk "r-1" (Some "p-gone") (Some "d-asha") ASSIGNED
    (VFloat 13) (VFloat 80) (VStr "Gate 1") (VFloat 13) (VFloat 80)
    (VStr "Hostel") (Some noon) (Some noon) None None VNone VNone VNone.

Definition ride_of_other : Ride.t :=
  Ride.mk "r-2" (Some "p-gone") (Some "d-other") IN_PROGRESS
    (VFloat 13) (VFloat 80) (VStr "Gate 2") (VFloat 13) (VFloat 80)
    (VStr "Library") (Some noon) (Some noon) (Some noon) None VNone VNone VNone.

Definition ride_done : Ride.t :=
  Ride.mk "r-3" (Some "p-gone") (Some "d-asha") COMPLETED
    (VFloat 13) (VFloat 80) (VStr "Gate 3") (VFloat 13) (VFloat 80)
    (VStr "Canteen") (Some noon) (Some noon) (Some noon) (Some noon)
    VNone VNone VNone.

Definition fuel_of_nobody : FuelEntry.t :=
  FuelEntry.mk "f-1" "d-gone" (VFloat 30) (VFloat 3000) (VStr "diesel")
    (VInt 42000) (VStr "Unknown") (Some noon) (Some noon).

Definition small_store : Store :=
  mk_store [admin; asha] [asha_profile] []
           [] [ride_of_asha; ride_of_other; ride_done] [fuel_of_nobody].

Definition calm : World := mk_world small_store [] noon 0.

(** The second database call of the request fails. *)
Definition flaky : World := mk_world small_store [None; Some "connection reset"] noon 0.

Definition ride_request : pydict :=
  [("passenger_id", VStr "p-1"); ("pickup_latitude", VFloat 13);
   ("pickup_longitude", VFloat 80); ("pickup_address", VStr "Gate 1");
   ("dropoff_latitude", VFloat 13); ("dropoff_longitude", VFloat 80);
   ("dropoff_address", VStr "Hostel")].

Definition vehicle_request (expiry : string) : pydict :=
  [("vehicle_make", VStr "Tata"); ("vehicle_model", VStr "Winger");
   ("vehicle_year", VInt 2021); ("license_plate", VStr "TN 01 AB 1234");
   ("vehicle_color", VStr "white"); ("license_number", VStr "L-77");
   ("license_expiry", VStr expiry)].

Definition login_of_asha : pydict :=
  [("email", VStr "asha@rec.example"); ("password", VStr "password")].



(** A request that brings its own password. *)
Definition new_user_request : pydict :=
  [("name", VStr "Ravi"); ("email", VStr "ravi@rec.example");
   ("phone", VStr "102"); ("role", VStr "passenger");
   ("password", VStr "hunter2")].

Definition new_profile_request : pydict :=
  [("user", VDict [("name", VStr "Meena"); ("email", VStr "meena@rec.example");
                   ("phone", VStr "104"); ("password", VStr "hunter2")]);
   ("license_number", VStr "TN-03"); ("password", VStr "hunter2")].

Definition second_asha_request : pydict :=
  [("name", VStr "Asha B"); ("email", VStr "asha@rec.example");
   ("phone", VStr "103"); ("role", VStr "driver")].

Definition second_asha_profile_request : pydict :=
  [("user", VDict [("name", VStr "Asha B"); ("email", VStr "asha@rec.example");
                   ("phone", VStr "103")]);
   ("license_number", VStr "TN-02")].

Definition vehicle_without_plate : pydict :=
  [("vehicle_make", VStr "Tata"); ("vehicle_model", VStr "Winger");
   ("vehicle_year", VInt 2021);
   ("vehicle_color", VStr "white"); ("license_number", VStr "L-77");
   ("license_expiry", VStr "05-11-2027")].

(** A body without a plate whose year is the number 0. *)
Definition vehicle_of_year_zero_without_plate : pydict :=
  [("vehicle_make", VStr "Tata"); ("vehicle_model", VStr "Winger");
   ("vehicle_year", VInt 0);
   ("vehicle_color", VStr "white"); ("license_number", VStr "L-77");
   ("license_expiry", VStr "05-11-2027")].

(** ** Vocabulary of the properties *)

(** The user [User.find_one({"email": q})] finds in the store. *)
Definition user_with_email (models : Models) (q : pyval) (w : World)
  : option User.t :=
  List.find (fun u => email_matches models q (User.email u)) (users (store w)).

(** The email of the ["user"] object of a driver or passenger request,
    when that entry is an object (or absent, which reads as [{}]). *)
Definition nested_user_email (data : pydict) : option pyval :=
  match dict_get_default data "user" (VDict []) with
  | VDict d => Some (dict_get d "email")
  | _ => None
  end.

(** The first of [fields] for which [not vehicle_data.get(field)]
    holds. *)
Definition first_missing (fields : list string) (vehicle_data : pydict)
  : option string :=
  List.find (fun g => negb (truthy (dict_get vehicle_data g))) fields.

(** The fields the loop over [fields] visits before it reaches [f]. *)
Fixpoint fields_before (f : string) (fields : list string) : list string :=
  match fields with
  | [] => []
  | g :: rest => if String.eqb g f then [] else g :: fields_before f rest
  end.

(** Following the words of the specification: a valid [DD-MM-YYYY] date
    is two digits, a dash, two digits, a dash and four digits that name
    a day of the calendar. *)
Definition DD_MM_YYYY (s : string) : option datetime :=
  match s with
  | String d1 (String d2 (String s1 (String m1 (String m2 (String s2
      (String y1 (String y2 (String y3 (String y4 EmptyString))))))))) =>
      if Ascii.eqb s1 "-"%char && Ascii.eqb s2 "-"%char then
        match digit d1, digit d2, digit m1, digit m2 with
        | Some a, Some b, Some c, Some d =>
            match digit y1, digit y2, digit y3, digit y4 with
            | Some e, Some f, Some g, Some h =>
                let dd := 10 * a + b in
                let mm := 10 * c + d in
                let yyyy := 1000 * e + 100 * f + 10 * g + h in
                if valid_date yyyy mm dd
                then Some (mk_datetime yyyy mm dd 0 0 0 0) else None
            | _, _, _, _ => None
            end
        | _, _, _, _ => None
        end
      else None
  | _ => None
  end.

(** The users of [w1] are those of [w], or those and one more user whose
    password hash is [h]. *)
Definition adds_user_with_hash (h : string) (w w1 : World) : Prop :=
  users (store w1) = users (store w) \/
  exists u, users (store w1) = users (store w) ++ [u] /\ User.password_hash u = h.

(** [m] leaves the users collection as it is, whatever its outcome. *)
Definition keeps_users {A} (m : M A) : Prop :=
  forall w r w1, m w = (r, w1) -> users (store w1) = users (store w).

(** The document [Driver.get(id)], resp. [User.get(id)], reads from the
    store of [w]. *)
Definition stored_driver (id : string) (w : World) : option Driver.t :=
  List.find (fun d => String.eqb (Driver.id d) id) (drivers (store w)).

Definition stored_user (id : string) (w : World) : option User.t :=
  List.find (fun u => String.eqb (User.id u) id) (users (store w)).

(** The driver profile of a user, as [get_assigned_rides] looks it up. *)
Definition driver_profile_of (u : User.t) (w : World) : option Driver.t :=
  List.find (fun d => String.eqb (Driver.user_id d) (User.id u)) (drivers (store w)).

(** No passenger of the store has the id the ride refers to. *)
Definition passenger_missing (ride : Ride.t) (w : World) : Prop :=
  forall p, In p (passengers (store w)) ->
            Ride.passenger_id ride <> Some (Passenger.id p).

(** No passenger the ride refers to has its user in the store. *)
Definition passenger_user_missing (ride : Ride.t) (w : World) : Prop :=
  forall p, In p (passengers (store w)) ->
            Ride.passenger_id ride = Some (Passenger.id p) ->
            forall u, In u (users (store w)) -> User.id u <> Passenger.user_id p.

(** What the fuel listing says of an entry: all three driver fields are
    "Unknown" when the driver is missing, the driver's name is "Unknown"
    when the driver is there and its user is missing. *)
Definition fuel_item_tolerant (w : World) (entry : FuelEntry.t) (item : pyval)
  : Prop :=
  (stored_driver (FuelEntry.driver_id entry) w = None ->
   field item "driver_name" = VStr "Unknown" /\
   field item "vehicle_make" = VStr "Unknown" /\
   field item "license_plate" = VStr "Unknown") /\
  (forall d, stored_driver (FuelEntry.driver_id entry) w = Some d ->
             stored_user (Driver.user_id d) w = None ->
             field item "driver_name" = VStr "Unknown").

(** What the assigned-ride listing says of a ride: the passenger is
    [null] when it is missing, the passenger's user is [null] when the
    user is missing. *)
Definition ride_item_tolerant (w : World) (ride : Ride.t) (item : pyval)
  : Prop :=
  (passenger_missing ride w -> field item "passenger" = VNone) /\
  (passenger_user_missing ride w ->
   field item "passenger" = VNone \/
   field (field item "passenger") "user" = VNone).

(** The message of the first database call that fails, among the calls
    whose fates are [fs]. *)
Fixpoint first_fault (fs : list (option string)) : option string :=
  match fs with
  | [] => None
  | Some msg :: _ => Some msg
  | None :: fs' => first_fault fs'
  end.

(** The number of database calls a debug handler makes outside a
    per-item [try]: they are its first calls. *)
Definition outer_calls (r : debug_route) : nat :=
  match r with
  | DebugData => 4
  | DebugUsers => 1
  | DebugUsersSimple => 1
  | DebugDrivers => 1
  | DebugVehicles => 2
  | DebugRides => 1
  | DebugFuelEntries => 1
  | DebugRidesWithDetails => 4
  end.

(** The world after one database call. *)
Definition advance (w : World) : World :=
  match faults w with
  | [] => w
  | _ :: fs => set_faults fs w
  end.

(** * The rest of [main.py] and [config.py] *)

(** ** [datetime.strptime(s, "%Y-%m-%d")]

    The regular expression is
    [(?P<Y>\d\d\d\d)-(?P<m>1[0-2]|0[1-9]|[1-9])-(?P<d>3[0-1]|[1-2]\d|0[1-9]|[1-9]| [1-9])];
    nothing follows the day, so the first alternative of [%d] that
    matches ends the match, and what is left of the string is
    unconverted data. *)
Definition re_Ymd (s : string) : list (Z * Z * Z * string) :=
  '(y, r1) ← re_Y s;
  r2 ← re_dash r1;
  '(m, r3) ← re_m r2;
  r4 ← re_dash r3;
  '(d, r5) ← re_d r4;
  [(y, m, d, r5)].

Definition strptime_Ymd (s : string) : option datetime :=
  match re_Ymd s with
  | (y, m, d, rest) :: _ =>
      if String.eqb rest "" then
        if valid_date y m d then Some (mk_datetime y m d 0 0 0 0) else None
      else None
  | [] => None
  end.

(** [strftime("%d-%m-%Y")] of a date whose year has four digits. *)
Definition format_dmY (t : datetime) : string :=
  zero_padded 2 (day t) +:+ "-" +:+ zero_padded 2 (month t) +:+ "-" +:+
  zero_padded 4 (year t).

(** ** More handlers of [main.py] *)

(** [GET /auth/me]: the user the dependency [get_current_user]
    resolved. *)
Definition get_current_user_info (current_user : User.t) : M User.t :=
  ret current_user.

(** [GET /drivers]. *)
Definition get_all_drivers (current_user : User.t) : M (list Driver.t) :=
  drivers <- Driver_find_all ;;
  ret drivers.

(** [GET /rides/pending]. *)
Definition get_pending_rides (current_user : User.t) : M (list Ride.t) :=
  rides <- db_read (fun s =>
             List.filter (fun r => RideStatus_eqb (Ride.status r) REQUESTED)
               (rides s)) ;;
  ret rides.

(** Modelled from the spec: [p.dict()] of a [Passenger] of [models.py],
    every field of the document. *)
Definition Passenger_dict (p : Passenger.t) : pydict :=
  [("id", VStr (Passenger.id p)); ("user_id", VStr (Passenger.user_id p));
   ("rating", Passenger.rating p); ("total_rides", Passenger.total_rides p)].

(** [d[k] = v]. *)
Fixpoint dict_set (d : pydict) (k : string) (v : pyval) : pydict :=
  match d with
  | [] => [(k, v)]
  | (k', v') :: d' =>
      if String.eqb k' k then (k', v) :: d' else (k', v') :: dict_set d' k v
  end.

(** [GET /passengers]; [user.dict()] is shown as the framework sends
    it. *)
Definition get_all_passengers (current_user : User.t) : M (list pyval) :=
  passengers <- Passenger_find_all ;;
  let user_ids := map Passenger.user_id passengers in
  found_users <- User_find_in user_ids ;;
  let users := dict_by User.id found_users in
  response <-
    for_in passengers
      (fun p response =>
         let user := users !! Passenger.user_id p in
         let passenger_dict := Passenger_dict p in
         let passenger_dict :=
           dict_set passenger_dict "user" (from_option User_json VNone user) in
         ret (response ++ [VDict passenger_dict]))
      [] ;;
  ret response.

Definition driver_vehicle_entry (driver : Driver.t) : pyval :=
  VDict [("id", VStr (Driver.id driver));
         ("vehicle_make", Driver.vehicle_make driver);
         ("vehicle_model", Driver.vehicle_model driver);
         ("vehicle_year", Driver.vehicle_year driver);
         ("license_plate", Driver.license_plate driver);
         ("vehicle_color", Driver.vehicle_color driver);
         ("license_number", Driver.license_number driver);
         ("license_expiry", iso_or_none (Driver.license_expiry driver));
         ("created_at", iso_or_none (Driver.created_at driver));
         ("updated_at", iso_or_none (Driver.updated_at driver))].

Definition has_vehicle (driver : Driver.t) : bool :=
  truthy (Driver.vehicle_make driver) && truthy (Driver.vehicle_model driver) &&
  truthy (Driver.license_plate driver) && truthy (Driver.vehicle_color driver).

(** [GET /vehicles]: the entry of a stored vehicle has the keys and
    values [debug_vehicles] gives it. *)
Definition get_all_vehicles (current_user : User.t) : M (list pyval) :=
  vehicles <- Vehicle_find_all ;;
  let vehicle_list := map vehicle_data_of_vehicle vehicles in
  drivers <- Driver_find_all ;;
  vehicle_list <-
    for_in drivers
      (fun driver vehicle_list =>
         if has_vehicle driver
         then ret (vehicle_list ++ [driver_vehicle_entry driver])
         else ret vehicle_list)
      vehicle_list ;;
  ret vehicle_list.

Definition fuel_required_fields : list string :=
  ["driver_id"; "fuel_amount"; "fuel_cost"; "fuel_type"; "odometer_reading"].

Section FuelHandlers.

Variable models : Models.
(** The built-in [float]: [None] when it raises. *)
Variable float_of : pyval -> option Q.
(** Which field values the class [FuelEntry] accepts. *)
Variable FuelEntry_valid :
  string -> pyval -> pyval -> pyval -> pyval -> pyval -> datetime -> bool.

(** [float(v)]; the text of the built-in error is abbreviated. *)
Definition py_float (v : pyval) : M pyval :=
  match float_of v with
  | Some q => ret (VFloat q)
  | None => raise (PyError "ValueError" "could not convert to float")
  end.

(** Modelled from the spec: the class [FuelEntry] of [models.py]; the
    driver id is a [str], [created_at] is the time of construction. *)
Definition FuelEntry_new (driver_id fuel_amount fuel_cost fuel_type
    odometer_reading fuel_station : pyval) (date : datetime)
  : M FuelEntry.t :=
  match driver_id with
  | VStr did =>
      if FuelEntry_valid did fuel_amount fuel_cost fuel_type odometer_reading
           fuel_station date then
        id <- fresh_id models ;;
        now <- utcnow ;;
        ret (FuelEntry.mk id did fuel_amount fuel_cost fuel_type
               odometer_reading fuel_station (Some date) (Some now))
      else raise ValidationError
  | _ => raise ValidationError
  end.

Definition FuelEntry_insert (e : FuelEntry.t) : M unit :=
  db_write (fun s => mk_store (users s) (drivers s) (passengers s)
                       (vehicles s) (rides s) (fuel_entries s ++ [e])).

(** The date of a fuel entry: the [date] of the body when it is a
    non-empty string [strptime] reads as [%Y-%m-%d], the current time in
    every other case. *)
Definition fuel_date_of (fuel_date : pyval) : M datetime :=
  match fuel_date with
  | VStr s =>
      if truthy fuel_date then
        match strptime_Ymd s with
        | Some t => ret t
        | None => utcnow
        end
      else utcnow
  | _ => utcnow
  end.

(** [POST /fuel-entries]; the body of the answer is
    [{"status": "success", "fuel_entry": fuel_entry}]. *)
Definition create_fuel_entry (fuel_data : pydict) (current_user : User.t)
  : M FuelEntry.t :=
  try_except
    (validate_required fuel_required_fields fuel_data ;;
     fuel_date <- fuel_date_of (dict_get fuel_data "date") ;;
     driver_id <- subscript fuel_data "driver_id" ;;
     fuel_amount <- subscript fuel_data "fuel_amount" ;;
     fuel_amount <- py_float fuel_amount ;;
     fuel_cost <- subscript fuel_data "fuel_cost" ;;
     fuel_cost <- py_float fuel_cost ;;
     fuel_type <- subscript fuel_data "fuel_type" ;;
     odometer_reading <- subscript fuel_data "odometer_reading" ;;
     odometer_reading <- py_float odometer_reading ;;
     fuel_entry <- FuelEntry_new driver_id fuel_amount fuel_cost fuel_type
                     odometer_reading
                     (dict_get_default fuel_data "fuel_station" (VStr "Unknown"))
                     fuel_date ;;
     FuelEntry_insert fuel_entry ;;
     ret fuel_entry)
    (fun e => raise (HTTPException 500
                       ("Failed to create fuel entry: " +:+ str_exn e))).

End FuelHandlers.

(** ** [config.py] *)

Module Config.

(** [os.environ], read through [os.getenv]. *)
Definition environ : Type := string -> option string.

(** [os.getenv(k, default)]. *)
Definition getenv_default (env : environ) (k default : string) : string :=
  from_option id default (env k).

Definition is_production (env : environ) : bool :=
  match env "ENVIRONMENT" with
  | Some v => String.eqb v "production"
  | None => false
  end.

(** [get_mongodb_url()], with the value of [settings.MONGODB_URL] at the
    time of the call. *)
Definition get_mongodb_url (settings_MONGODB_URL : string) (env : environ)
  : string :=
  let mongodb_url := settings_MONGODB_URL in
  if negb (String.eqb mongodb_url "") &&
     negb (String.eqb mongodb_url "mongodb://localhost:27017")
  then mongodb_url
  else
    let otherwise :=
      if is_production env
      then getenv_default env "MONGODB_URL" "mongodb://localhost:27017"
      else "mongodb://localhost:27017" in
    match env "MONGODB_URL" with
    | Some v => if truthy_opt (Some v) then v else otherwise
    | None => otherwise
    end.

(** [get_redis_url()]. *)
Definition get_redis_url (env : environ) : string :=
  let otherwise :=
    if is_production env
    then getenv_default env "REDIS_URL" "redis://localhost:6379"
    else "redis://localhost:6379" in
  match env "REDIS_URL" with
  | Some v => if truthy_opt (Some v) then v else otherwise
  | None => otherwise
  end.

(** The two settings the module assigns after it built [settings]. *)
Record Settings : Type := mk_settings {
  MONGODB_URL : string;
  REDIS_URL : string }.

(** [settings.MONGODB_URL = get_mongodb_url()] and
    [settings.REDIS_URL = get_redis_url()], the last statements of the
    module. *)
Definition update_settings (settings : Settings) (env : environ) : Settings :=
  let settings := mk_settings (get_mongodb_url (MONGODB_URL settings) env)
                    (REDIS_URL settings) in
  mk_settings (MONGODB_URL settings) (get_redis_url env).

End Config.

(** ** Vocabulary of the further properties *)

(** [m] leaves every collection as it is, whatever its outcome. *)
Definition keeps_store {A} (m : M A) : Prop :=
  forall w r w1, m w = (r, w1) -> store w1 = store w.

(** No two users of the store have the same email. *)
Definition emails_unique (w : World) : Prop :=
  NoDup (map User.email (users (store w))).

(** The users of [w1] are those of [w], or those and one more user, for
    which [P] holds. *)
Definition adds_user_such (P : User.t -> Prop) (w w1 : World) : Prop :=
  users (store w1) = users (store w) \/
  exists u, users (store w1) = users (store w) ++ [u] /\ P u.

(** The store with one more vehicle. *)
Definition with_vehicle (v : Vehicle.t) (s : Store) : Store :=
  mk_store (users s) (drivers s) (passengers s) (vehicles s ++ [v])
    (rides s) (fuel_entries s).

(** The store with one more user. *)
Definition with_user (u : User.t) (s : Store) : Store :=
  mk_store (users s ++ [u]) (drivers s) (passengers s) (vehicles s)
    (rides s) (fuel_entries s).

(** The store with one more fuel entry. *)
Definition with_fuel_entry (e : FuelEntry.t) (s : Store) : Store :=
  mk_store (users s) (drivers s) (passengers s) (vehicles s)
    (rides s) (fuel_entries s ++ [e]).

(** The store with one more ride. *)
Definition with_ride (r : Ride.t) (s : Store) : Store :=
  mk_store (users s) (drivers s) (passengers s) (vehicles s)
    (rides s ++ [r]) (fuel_entries s).

(** [m] changes the store exactly when it returns: by [add a] when it
    returns [a], not at all when it raises. *)
Definition stores_on_ok {A} (add : A -> Store -> Store) (m : M A) : Prop :=
  forall w r w1, m w = (r, w1) ->
    match r with
    | Ok a => store w1 = add a (store w)
    | Raise _ => store w1 = store w
    end.

(** [m] started with a reachable database ends with a reachable
    database. *)
Definition keeps_healthy {A} (m : M A) : Prop :=
  forall w r w1, healthy w -> m w = (r, w1) -> healthy w1.

(** No user of [w] has the email of [u]. *)
Definition email_is_new (w : World) (u : User.t) : Prop :=
  forall u', In u' (users (store w)) -> User.email u' <> User.email u.

(** The date [create_fuel_entry] gives an entry: the [date] of the body
    when it is a string [strptime] reads as [%Y-%m-%d], the time of the
    request otherwise. *)
Definition entry_date (fuel_data : pydict) (w : World) : datetime :=
  match dict_get fuel_data "date" with
  | VStr s => from_option id (clock w) (strptime_Ymd s)
  | _ => clock w
  end.

(** What [GET /passengers] says of a passenger: its user is [null] when
    no user of the store has the id, and otherwise a user of the store
    with that id, every field of it, the password hash included. *)
Definition passenger_item_shows_user (w : World) (p : Passenger.t)
    (item : pyval) : Prop :=
  field item "id" = VStr (Passenger.id p) /\
  ((forall u, In u (users (store w)) -> User.id u <> Passenger.user_id p) ->
   field item "user" = VNone) /\
  ((exists u, In u (users (store w)) /\ User.id u = Passenger.user_id p) ->
   exists u, In u (users (store w)) /\ User.id u = Passenger.user_id p /\
             field item "user" = User_json u /\
             field (field item "user") "password_hash" =
               VStr (User.password_hash u)).

(** Two entries of vehicle listings that show the same vehicle. *)
Definition same_vehicle (a b : pyval) : Prop :=
  field a "vehicle_make" = field b "vehicle_make" /\
  field a "vehicle_model" = field b "vehicle_model" /\
  field a "vehicle_year" = field b "vehicle_year" /\
  field a "license_plate" = field b "license_plate" /\
  field a "vehicle_color" = field b "vehicle_color" /\
  field a "license_number" = field b "license_number" /\
  field a "license_expiry" = field b "license_expiry".

(** ** More concrete requests and worlds *)

Definition plain_float (v : pyval) : option Q :=
  match v with
  | VInt z => Some (inject_Z z)
  | VFloat q => Some q
  | VBool b => Some (if b then 1%Q else 0%Q)
  | _ => None
  end.

Definition any_fuel_entry
  : string -> pyval -> pyval -> pyval -> pyval -> pyval -> datetime -> bool :=
  fun _ _ _ _ _ _ _ => true.

Definition login_of_ravi : pydict :=
  [("email", VStr "ravi@rec.example"); ("password", VStr "password")].

(** A fuel entry for a driver the store does not have, dated in another
    format than [%Y-%m-%d]. *)
Definition fuel_request : pydict :=
  [("driver_id", VStr "d-nobody"); ("fuel_amount", VInt 30);
   ("fuel_cost", VInt 3000); ("fuel_type", VStr "diesel");
   ("odometer_reading", VInt 42100); ("date", VStr "03/11/2026")].

(** A fuel entry that cost nothing. *)
Definition free_fuel_request : pydict :=
  [("driver_id", VStr "d-asha"); ("fuel_amount", VInt 30);
   ("fuel_cost", VInt 0); ("fuel_type", VStr "diesel");
   ("odometer_reading", VInt 42100)].

(** The third database call of the request fails. *)
Definition failing_third : World :=
  mk_world small_store [None; None; Some "write failed"] noon 0.

Definition riders_store : Store :=
  mk_store [admin; asha] []
    [Passenger.mk "p-1" "u-asha" (VFloat 5) (VInt 3);
     Passenger.mk "p-2" "u-gone" (VFloat 4) (VInt 1)]
    [] [] [].

Definition riders : World := mk_world riders_store [] noon 0.

Definition production_with_cache : Config.environ :=
  fun k =>
    if String.eqb k "ENVIRONMENT" then Some "production"
    else if String.eqb k "REDIS_URL" then Some "redis://cache:6379"
    else None.

(** Models that read an integer expiry as a point in time. *)
Definition timestamp_models : Models :=
  mk_models (fun n => "id-" +:+ pretty n)
            (fun _ _ _ _ => true) (fun _ _ _ _ _ => true) (fun _ _ _ => true)
            (fun _ _ _ _ _ _ => true) (fun _ _ _ _ _ _ _ => true)
            (fun v => match v with VInt _ => Some noon | _ => None end)
            (fun _ _ => false).

Definition vehicle_request_with_timestamp : pydict :=
  [("vehicle_make", VStr "Tata"); ("vehicle_model", VStr "Winger");
   ("vehicle_year", VInt 2021); ("license_plate", VStr "TN 01 AB 1234");
   ("vehicle_color", VStr "white"); ("license_number", VStr "L-77");
   ("license_expiry", VInt 1793707200)].

Definition bus : Vehicle.t :=
  Vehicle.mk "v-1" (VStr "Ashok Leyland") (VStr "Lynx") 2019
    (VStr "TN 01 N 0001") (VStr "yellow") (VStr "L-01")
    (Some noon) (Some noon) (Some noon).

Definition kumar_profile : Driver.t :=
  Driver.mk "d-kumar" "u-gone" (VStr "Force") (VStr "Traveller") (VInt 2020)
    (VStr "TN 01 N 0002") (VStr "white") (VStr "TN-09")
    (Some noon) (VFloat 5) (VInt 0) (VInt 0) false (Some noon) (Some noon).

Definition garage : World :=
  mk_world (mk_store [admin; asha] [asha_profile; kumar_profile] [] [bus] [] [])
    [] noon 0.

(** The garage while the second database call of the request fails. *)
Definition flaky_garage : World :=
  mk_world (store garage) [None; Some "connection reset"] noon 0.

(** ** The items a loop with a per-item [try] lists *)

(** What the processing of one item comes to, given the fates [fs] of
    the database calls still to come ([Some msg] for a call that fails):
    the item the loop appends, [None] when it appends nothing, and the
    fates of the calls that follow the item's own. *)
Definition attempt (A : Type) : Type :=
  A -> list (option string) -> option pyval * list (option string).

(** The list a loop builds from [xs], item by item. *)
Fixpoint listed {A} (try_item : attempt A) (xs : list A)
    (fs : list (option string)) : list pyval :=
  match xs with
  | [] => []
  | x :: rest =>
      match try_item x fs with
      | (Some item, fs') => item :: listed try_item rest fs'
      | (None, fs') => listed try_item rest fs'
      end
  end.

(** A driver of [/debug/drivers] costs one call, the lookup of its user:
    the driver is skipped when that call fails and listed with the user
    of the store when it does not. *)
Definition driver_attempt (w : World) : attempt Driver.t :=
  fun driver fs =>
    match hd None fs with
    | Some _ => (None, tl fs)
    | None =>
        (Some (driver_data driver (stored_user (Driver.user_id driver) w)),
         tl fs)
    end.

(** A driver of [/debug/vehicles]: one without a make, a model, a plate
    or a colour is no item and costs no call; another is skipped when
    the lookup of its user fails and listed when it does not. *)
Definition driver_vehicle_attempt (w : World) : attempt Driver.t :=
  fun driver fs =>
    if has_vehicle driver then
      match hd None fs with
      | Some _ => (None, tl fs)
      | None =>
          (Some (vehicle_data_of_driver driver
                   (stored_user (Driver.user_id driver) w)),
           tl fs)
      end
    else (None, fs).

(** A fuel entry costs the lookup of its driver and, when the store has
    that driver, the lookup of the driver's user: the entry is skipped
    when one of them fails and listed with what the store has when none
    does. *)
Definition fuel_attempt (w : World) : attempt FuelEntry.t :=
  fun entry fs =>
    match hd None fs with
    | Some _ => (None, tl fs)
    | None =>
        match stored_driver (FuelEntry.driver_id entry) w with
        | Some d =>
            match hd None (tl fs) with
            | Some _ => (None, tl (tl fs))
            | None =>
                (Some (fuel_data entry (Some d)
                         (stored_user (Driver.user_id d) w)),
                 tl (tl fs))
            end
        | None => (Some (fuel_data entry None None), tl fs)
        end
    end.

(** The list in the body of a debug endpoint that has a per-item [try],
    when none of its outer calls fails: the items whose own calls all
    succeed, in the order of the store, and no other. *)
Definition lists_all_but_failed_items (r : debug_route) (w : World)
    (body : pyval) : Prop :=
  match r with
  | DebugDrivers =>
      field body "drivers" =
        VList (listed (driver_attempt w) (drivers (store w)) (tl (faults w)))
  | DebugVehicles =>
      field body "vehicles" =
        VList (map vehicle_data_of_vehicle (vehicles (store w)) ++
               listed (driver_vehicle_attempt w) (drivers (store w))
                 (tl (tl (faults w))))
  | DebugFuelEntries =>
      field body "fuel_entries" =
        VList (listed (fuel_attempt w) (fuel_entries (store w))
                 (tl (faults w)))
  | _ => True
  end.

(** * Properties *)

(** ** Dates on concrete strings *)

Example strptime_padded :
  strptime_dmY "05-11-2027" = Some (mk_datetime 2027 11 5 0 0 0 0).
Proof. reflexivity. Qed.

Example strptime_unpadded :
  strptime_dmY "5-1-2027" = Some (mk_datetime 2027 1 5 0 0 0 0).
Proof. reflexivity. Qed.

Example strptime_feb30 : strptime_dmY "30-02-2027" = None.
Proof. reflexivity. Qed.

Example strptime_iso_order : strptime_dmY "2027-11-05" = None.
Proof. reflexivity. Qed.

Example strptime_trailing : strptime_dmY "05-11-20270" = None.
Proof. reflexivity. Qed.

Example isoformat_midnight :
  isoformat (mk_datetime 2027 11 5 0 0 0 0) = "2027-11-05T00:00:00".
Proof. reflexivity. Qed.

(** ** The monad and the database primitives *)

Lemma bind_ok_inv {A B} (m : M A) (k : A -> M B) w b w2 :
  bind m k w = (Ok b, w2) ->
  exists a w1, m w = (Ok a, w1) /\ k a w1 = (Ok b, w2).
Proof.
  unfold bind. destruct (m w) as [[a|e] w1]; intros H; [|discriminate].
  exists a, w1. split; [reflexivity | exact H].
Qed.

Lemma bind_ok {A B} (m : M A) (k : A -> M B) w a w1 :
  m w = (Ok a, w1) -> bind m k w = k a w1.
Proof. unfold bind. intros ->. reflexivity. Qed.

Lemma bind_raise {A B} (m : M A) (k : A -> M B) w e w1 :
  m w = (Raise e, w1) -> bind m k w = (Raise e, w1).
Proof. unfold bind. intros ->. reflexivity. Qed.

Lemma db_call_healthy w : healthy w -> db_call w = (Ok tt, w).
Proof. unfold healthy, db_call. intros ->. reflexivity. Qed.

Lemma db_read_healthy {A} (f : Store -> A) w :
  healthy w -> db_read f w = (Ok (f (store w)), w).
Proof. intros H. unfold db_read. rewrite (bind_ok _ _ _ _ _ (db_call_healthy w H)). reflexivity. Qed.

Lemma db_write_healthy (f : Store -> Store) w :
  healthy w -> db_write f w = (Ok tt, set_store (f (store w)) w).
Proof. intros H. unfold db_write. rewrite (bind_ok _ _ _ _ _ (db_call_healthy w H)). reflexivity. Qed.

(** A database call touches nothing but the list of pending faults. *)
Lemma db_call_frame w r w1 :
  db_call w = (r, w1) ->
  store w1 = store w /\ clock w1 = clock w /\ next_id w1 = next_id w.
Proof.
  unfold db_call. destruct (faults w) as [|[msg|] fs]; intros H;
    injection H as <- <-; auto.
Qed.

Lemma db_read_ok_inv {A} (f : Store -> A) w a w1 :
  db_read f w = (Ok a, w1) ->
  a = f (store w) /\ store w1 = store w /\ clock w1 = clock w.
Proof.
  unfold db_read. intros H. apply bind_ok_inv in H as ([] & w0 & Hc & H).
  apply db_call_frame in Hc as (Hs & Hk & _).
  injection H as <- <-. rewrite Hs. auto.
Qed.

Lemma db_write_ok_inv (f : Store -> Store) w w1 :
  db_write f w = (Ok tt, w1) ->
  store w1 = f (store w) /\ clock w1 = clock w.
Proof.
  unfold db_write. intros H. apply bind_ok_inv in H as ([] & w0 & Hc & H).
  apply db_call_frame in Hc as (Hs & Hk & _).
  injection H as <-. simpl. rewrite Hs. auto.
Qed.

(** A loop whose body only appends is a [map]. *)
Lemma for_in_append {A B} (f : A -> B) (xs : list A) (acc : list B) w :
  for_in xs (fun x acc => ret (acc ++ [f x])) acc w = (Ok (acc ++ map f xs), w).
Proof.
  revert acc. induction xs as [|x xs IH]; intros acc; simpl.
  - rewrite app_nil_r. reflexivity.
  - unfold bind at 1. unfold ret at 1. rewrite IH, <- app_assoc. reflexivity.
Qed.

Section Properties.

Variable auth : Auth.
Variable models : Models.
Variable int_of_str : string -> option Z.

(** ** Creating a ride *)

Lemma Ride_new_ok_inv a b c d e f g st w r w1 :
  Ride_new models a b c d e f g st w = (Ok r, w1) ->
  Ride.status r = st /\ Ride.requested_at r = Some (clock w) /\
  Ride.driver_id r = None /\ Ride.assigned_at r = None /\
  Ride.picked_up_at r = None /\ Ride.completed_at r = None /\
  store w1 = store w.
Proof.
  unfold Ride_new. intros H.
  apply bind_ok_inv in H as (pid & w0 & Hp & H).
  assert (w0 = w) as ->.
  { destruct a; simpl in Hp; try discriminate; injection Hp; auto. }
  destruct (Ride_valid _ _ _ _ _ _ _ _); [|discriminate].
  injection H as <- <-. simpl. auto 10.
Qed.

(** C1. Whatever the request body, the ride [POST /rides] creates and
    returns has status "requested", its [requested_at] set (to the time
    of the request), no driver id and no [assigned_at], [picked_up_at]
    or [completed_at]; it is the document appended to the rides of the
    store. *)
Theorem create_ride_is_requested (ride_data : pydict) (w : World)
    (r : Ride.t) (w1 : World) :
  create_ride models ride_data w = (Ok r, w1) ->
  Ride.status r = REQUESTED /\
  RideStatus_value (Ride.status r) = "requested" /\
  Ride.requested_at r = Some (clock w) /\
  Ride.driver_id r = None /\
  Ride.assigned_at r = None /\
  Ride.picked_up_at r = None /\
  Ride.completed_at r = None /\
  rides (store w1) = rides (store w) ++ [r].
Proof.
  unfold create_ride. intros H.
  apply bind_ok_inv in H as (new_ride & w0 & Hnew & H).
  apply bind_ok_inv in H as ([] & w2 & Hins & H).
  injection H as <- <-.
  apply Ride_new_ok_inv in Hnew as (Hst & Hreq & Hd & Ha & Hp & Hc & Hs).
  apply db_write_ok_inv in Hins as (Hs2 & _).
  rewrite Hst, Hs2. simpl. rewrite Hs. auto 10.
Qed.

(** With a reachable database, [POST /rides] does create a ride as soon
    as the passenger id is a string or absent and the class accepts the
    fields. *)
Lemma create_ride_returns (ride_data : pydict) (w : World) :
  healthy w ->
  (dict_get ride_data "passenger_id" = VNone \/
   exists s, dict_get ride_data "passenger_id" = VStr s) ->
  (forall pid, Ride_valid models pid
     (dict_get ride_data "pickup_latitude") (dict_get ride_data "pickup_longitude")
     (dict_get ride_data "pickup_address") (dict_get ride_data "dropoff_latitude")
     (dict_get ride_data "dropoff_longitude") (dict_get ride_data "dropoff_address")
     = true) ->
  exists r w1, create_ride models ride_data w = (Ok r, w1).
Proof.
  intros Hw Hp Hv. unfold create_ride, Ride_new, bind, Ride_insert.
  destruct Hp as [-> | [s ->]]; simpl; rewrite Hv; simpl;
    rewrite db_write_healthy by exact Hw; eauto.
Qed.

(** ** The rides assigned to a driver *)

Lemma assigned_to_spec did r :
  assigned_to did [ASSIGNED; IN_PROGRESS] r = true ->
  Ride.driver_id r = Some did /\
  (Ride.status r = ASSIGNED \/ Ride.status r = IN_PROGRESS).
Proof.
  unfold assigned_to. intros H. apply andb_prop in H as [Hd Hs].
  destruct (Ride.driver_id r) as [d|]; [|discriminate].
  apply String.eqb_eq in Hd as ->. split; [reflexivity|].
  destruct (Ride.status r); simpl in Hs; try discriminate; auto.
Qed.

(** What [get_assigned_rides] answers when it answers: one response per
    ride of the caller's driver profile that is assigned or in progress,
    in the order of the collection. *)
Lemma get_assigned_rides_ok_inv (current_user : User.t) w resp w1 :
  get_assigned_rides current_user w = (Ok resp, w1) ->
  exists driver passengers users_by_id,
    List.find (fun d => String.eqb (Driver.user_id d) (User.id current_user))
      (drivers (store w)) = Some driver /\
    resp = map (assigned_ride_response passengers users_by_id)
             (List.filter (assigned_to (Driver.id driver) [ASSIGNED; IN_PROGRESS])
                (rides (store w))).
Proof.
  unfold get_assigned_rides. intros H.
  apply bind_ok_inv in H as (driver & w2 & Hd & H).
  apply db_read_ok_inv in Hd as (-> & Hs2 & _).
  destruct (List.find _ (drivers (store w))) as [driver|] eqn:Hfind; [|discriminate].
  apply bind_ok_inv in H as (rs & w3 & Hr & H).
  apply db_read_ok_inv in Hr as (-> & Hs3 & _).
  apply bind_ok_inv in H as (found & w4 & _ & H).
  apply bind_ok_inv in H as (found_users & w5 & _ & H).
  apply bind_ok_inv in H as (rr & w6 & Hloop & H).
  injection H as <- <-.
  rewrite for_in_append in Hloop. injection Hloop as <- _.
  rewrite Hs2. eauto.
Qed.

(** C2. Every ride in a response of [GET /rides/assigned] carries the id
    of the caller's own driver profile as [driver_id] and the status
    "assigned" or "in_progress". *)
Theorem get_assigned_rides_own_active (current_user : User.t) (w : World)
    (resp : list pyval) (w1 : World) :
  get_assigned_rides current_user w = (Ok resp, w1) ->
  exists driver,
    List.find (fun d => String.eqb (Driver.user_id d) (User.id current_user))
      (drivers (store w)) = Some driver /\
    Forall (fun item =>
              field item "driver_id" = VStr (Driver.id driver) /\
              (field item "status" = VStr "assigned" \/
               field item "status" = VStr "in_progress")) resp.
Proof.
  intros H. apply get_assigned_rides_ok_inv in H
    as (driver & ps & us & Hfind & ->).
  exists driver. split; [exact Hfind|].
  apply List.Forall_forall. intros item Hin.
  apply in_map_iff in Hin as (r & <- & Hin).
  apply filter_In in Hin as [_ Hin].
  apply assigned_to_spec in Hin as [Hd Hs].
  unfold assigned_ride_response, field, ride_fields. simpl.
  rewrite Hd. split; [reflexivity|].
  destruct Hs as [-> | ->]; auto.
Qed.

(** ** Login *)



(** ** Duplicate emails *)

Lemma find_exists {A} (f : A -> bool) (l : list A) :
  (exists x, In x l /\ f x = true) -> exists y, List.find f l = Some y.
Proof.
  intros (x & Hin & Hx). destruct (List.find f l) as [y|] eqn:E; [eauto|].
  rewrite (find_none _ _ E x Hin) in Hx. discriminate.
Qed.

Lemma email_found (e : string) (w : World) :
  healthy w ->
  (exists u, In u (users (store w)) /\ User.email u = e) ->
  exists u', User_find_one_email models (VStr e) w = (Ok (Some u'), w).
Proof.
  intros Hw (u & Hin & He). unfold User_find_one_email.
  rewrite db_read_healthy by exact Hw.
  destruct (find_exists (fun u => email_matches models (VStr e) (User.email u))
              (users (store w))) as [u' ->]; [|eauto].
  exists u. split; [exact Hin|]. simpl. apply String.eqb_eq. auto.
Qed.

(** C4. With a reachable database, a creation request to [POST /users],
    [POST /drivers] or [POST /passengers] whose email is that of a stored
    user is answered with 400 and leaves the world, hence every
    collection, as it was. *)
Theorem duplicate_email_is_400 (data : pydict) (current_user : User.t)
    (w : World) (e : string) :
  healthy w ->
  (exists u, In u (users (store w)) /\ User.email u = e) ->
  (dict_get data "email" = VStr e ->
   create_user auth models data current_user w =
     (Raise (HTTPException 400 "User with this email already exists"), w)) /\
  (nested_user_email data = Some (VStr e) ->
   create_driver auth models data current_user w =
     (Raise (HTTPException 400 "User with this email already exists"), w)) /\
  (nested_user_email data = Some (VStr e) ->
   create_passenger auth models data current_user w =
     (Raise (HTTPException 400 "User with this email already exists"), w)).
Proof.
  intros Hw Hex. destruct (email_found e w Hw Hex) as [u' Hfind].
  split; [|split].
  - intros He. unfold create_user. rewrite He.
    rewrite (bind_ok _ _ _ _ _ Hfind). reflexivity.
  - unfold nested_user_email, create_driver. intros He.
    destruct (dict_get_default data "user" (VDict [])); try discriminate.
    injection He as He. unfold get_method at 1. unfold bind at 1, ret at 1.
    rewrite He, (bind_ok _ _ _ _ _ Hfind). reflexivity.
  - unfold nested_user_email, create_passenger. intros He.
    destruct (dict_get_default data "user" (VDict [])); try discriminate.
    injection He as He. unfold get_method at 1. unfold bind at 1, ret at 1.
    rewrite He, (bind_ok _ _ _ _ _ Hfind). reflexivity.
Qed.

(** ** Required vehicle fields *)

Lemma dict_get_absent (d : pydict) (k : string) :
  dict_has d k = false -> dict_get d k = VNone.
Proof.
  induction d as [|[k' v] d IH]; simpl; [reflexivity|].
  destruct (String.eqb k' k); simpl; [discriminate | exact IH].
Qed.

Lemma validate_required_spec (fields : list string) (data : pydict) (w : World) :
  validate_required fields data w =
  match first_missing fields data with
  | Some g => (Raise (HTTPException 400 ("Missing required field: " +:+ g)), w)
  | None => (Ok tt, w)
  end.
Proof.
  unfold first_missing. induction fields as [|g fields IH]; simpl; [reflexivity|].
  destruct (negb (truthy (dict_get data g))); [reflexivity | exact IH].
Qed.

Lemma find_first_before (P : string -> bool) (f : string) (l : list string) :
  In f l -> P f = true ->
  exists g,
    List.find P l = Some g /\
    (g = f \/ In g (fields_before f l)) /\
    ((forall h, In h (fields_before f l) -> P h = false) -> g = f).
Proof.
  intros Hin Hf. induction l as [|h t IH]; [destruct Hin|].
  simpl. destruct (String.eqb h f) eqn:E.
  - apply String.eqb_eq in E. subst h. rewrite Hf.
    exists f. split; [reflexivity|]. split; [left; reflexivity | reflexivity].
  - assert (Hne : h <> f) by (intros ->; rewrite String.eqb_refl in E; discriminate).
    destruct Hin as [->|Hin]; [contradiction|].
    destruct (P h) eqn:Ph.
    + exists h. split; [reflexivity|]. split.
      * right. left. reflexivity.
      * intros Hall. rewrite (Hall h (or_introl eq_refl)) in Ph. discriminate.
    + destruct (IH Hin) as (g & Hg & Hwhere & Honly).
      exists g. split; [exact Hg|]. split.
      * destruct Hwhere as [->|Hb]; [left; reflexivity | right; right; exact Hb].
      * intros Hall. apply Honly. intros k Hk. apply Hall. right. exact Hk.
Qed.

(** C5, as the code has it. When one of the seven required fields is
    absent from the body, [POST /vehicles] answers 400 with the detail
    "Missing required field: " followed by the first required field, in
    the order of the list, whose value is absent or falsy: that field is
    the absent one or a field listed before it, and it is the absent one
    when every field listed before it has a truthy value. The world is
    left as it was: no vehicle is stored. *)
Theorem create_vehicle_missing_field (data : pydict) (current_user : User.t)
    (w : World) (f : string) :
  In f required_fields ->
  dict_has data f = false ->
  exists g,
    first_missing required_fields data = Some g /\
    In g required_fields /\
    truthy (dict_get data g) = false /\
    (g = f \/ In g (fields_before f required_fields)) /\
    create_vehicle models int_of_str data current_user w =
      (Raise (HTTPException 400 ("Missing required field: " +:+ g)), w) /\
    ((forall h, In h (fields_before f required_fields) ->
                truthy (dict_get data h) = true) -> g = f).
Proof.
  intros Hin Habs.
  assert (Hf : negb (truthy (dict_get data f)) = true)
    by (rewrite (dict_get_absent _ _ Habs); reflexivity).
  destruct (find_first_before (fun g => negb (truthy (dict_get data g)))
              f required_fields Hin Hf) as (g & Hg & Hwhere & Honly).
  exists g. split; [exact Hg|].
  pose proof (find_some _ _ Hg) as [Hgin Hgf].
  apply negb_true_iff in Hgf.
  repeat split; try assumption.
  - unfold create_vehicle.
    erewrite bind_raise; [reflexivity|].
    rewrite validate_required_spec. unfold first_missing. rewrite Hg. reflexivity.
  - intros Hbefore. apply Honly. intros h Hh.
    rewrite (Hbefore h Hh). reflexivity.
Qed.

(** ** The expiry date of a vehicle *)

Lemma digit_range (c : ascii) (x : Z) : digit c = Some x -> 0 <= x <= 9.
Proof.
  unfold digit. destruct (_ && _) eqn:E; [|discriminate].
  intros [= <-]. apply andb_prop in E as [E1 E2]. lia.
Qed.

Lemma re_d_padded a b x y r :
  digit a = Some x -> digit b = Some y -> 1 <= 10 * x + y <= 31 ->
  exists tl, re_d (String a (String b r)) = (10 * x + y, r) :: tl.
Proof.
  intros Ha Hb Hr. pose proof (digit_range _ _ Ha). pose proof (digit_range _ _ Hb).
  unfold re_d. rewrite Ha, Hb.
  destruct (x =? 3) eqn:E3.
  - apply Z.eqb_eq in E3. subst x.
    replace (y <=? 1) with true by (symmetry; apply Z.leb_le; lia).
    simpl. eexists. reflexivity.
  - apply Z.eqb_neq in E3. simpl.
    destruct ((1 <=? x) && (x <=? 2)) eqn:E12; simpl.
    + eexists. reflexivity.
    + assert (x = 0) as -> by
        (apply andb_false_iff in E12 as [E|E]; [apply Z.leb_gt in E | apply Z.leb_gt in E]; lia).
      replace (1 <=? y) with true by (symmetry; apply Z.leb_le; lia).
      simpl. eexists. reflexivity.
Qed.

Lemma re_m_padded a b x y r :
  digit a = Some x -> digit b = Some y -> 1 <= 10 * x + y <= 12 ->
  exists tl, re_m (String a (String b r)) = (10 * x + y, r) :: tl.
Proof.
  intros Ha Hb Hr. pose proof (digit_range _ _ Ha). pose proof (digit_range _ _ Hb).
  unfold re_m. rewrite Ha, Hb.
  destruct (x =? 1) eqn:E1.
  - apply Z.eqb_eq in E1. subst x.
    replace (y <=? 2) with true by (symmetry; apply Z.leb_le; lia).
    simpl. eexists. reflexivity.
  - apply Z.eqb_neq in E1. assert (x = 0) as -> by lia.
    replace (1 <=? y) with true by (symmetry; apply Z.leb_le; lia).
    simpl. eexists. reflexivity.
Qed.

Lemma valid_date_bounds y m d :
  valid_date y m d = true -> 1 <= m <= 12 /\ 1 <= d <= 31.
Proof.
  unfold valid_date, days_in_month. intros H.
  repeat (apply andb_prop in H as [H ?]).
  destruct (m =? 2); [destruct (is_leap y)|destruct (_ || _)]; lia.
Qed.

Lemma re_dash_hit (r : string) : re_dash (String "-" r) = [r].
Proof. reflexivity. Qed.

Lemma re_Y_hit y1 y2 y3 y4 e f g h r :
  digit y1 = Some e -> digit y2 = Some f -> digit y3 = Some g ->
  digit y4 = Some h ->
  re_Y (String y1 (String y2 (String y3 (String y4 r)))) =
  [(1000 * e + 100 * f + 10 * g + h, r)].
Proof. intros He Hf Hg Hh. unfold re_Y. rewrite He, Hf, Hg, Hh. reflexivity. Qed.

(** Every valid [DD-MM-YYYY] date is read by [strptime] as that date. *)
Lemma DD_MM_YYYY_strptime (s : string) (t : datetime) :
  DD_MM_YYYY s = Some t -> strptime_dmY s = Some t.
Proof.
  unfold DD_MM_YYYY.
  destruct s as [|d1 [|d2 [|s1 [|m1 [|m2 [|s2 [|y1 [|y2 [|y3 [|y4 [|? ?]]]]]]]]]]];
    try discriminate.
  destruct (Ascii.eqb s1 "-") eqn:E1; [|discriminate].
  destruct (Ascii.eqb s2 "-") eqn:E2; [|discriminate]. simpl andb. cbv iota.
  apply Ascii.eqb_eq in E1, E2. subst s1 s2.
  destruct (digit d1) as [a|] eqn:Ha; [|discriminate].
  destruct (digit d2) as [b|] eqn:Hb; [|discriminate].
  destruct (digit m1) as [c|] eqn:Hc; [|discriminate].
  destruct (digit m2) as [d|] eqn:Hd; [|discriminate].
  destruct (digit y1) as [e|] eqn:He; [|discriminate].
  destruct (digit y2) as [f|] eqn:Hf; [|discriminate].
  destruct (digit y3) as [g|] eqn:Hg; [|discriminate].
  destruct (digit y4) as [h|] eqn:Hh; [|discriminate].
  cbv zeta. destruct (valid_date _ _ _) eqn:Hv; [|discriminate].
  intros [= <-].
  destruct (valid_date_bounds _ _ _ Hv) as [Hm Hday].
  unfold strptime_dmY, re_dmY.
  destruct (re_d_padded d1 d2 a b
              (String "-" (String m1 (String m2 (String "-"
                (String y1 (String y2 (String y3 (String y4 "")))))))) Ha Hb Hday)
    as [tl1 ->].
  destruct (re_m_padded m1 m2 c d
              (String "-" (String y1 (String y2 (String y3 (String y4 "")))))
              Hc Hd Hm) as [tl2 Hrm].
  cbn [mbind list_bind app]. rewrite re_dash_hit.
  cbn [mbind list_bind app]. rewrite Hrm.
  cbn [mbind list_bind app]. rewrite re_dash_hit.
  cbn [mbind list_bind app]. rewrite (re_Y_hit _ _ _ _ _ _ _ _ "" He Hf Hg Hh).
  cbn [mbind list_bind app]. simpl String.eqb. rewrite Hv. reflexivity.
Qed.

Lemma subscript_inv (d : pydict) (k : string) w r w1 :
  subscript d k w = (r, w1) ->
  w1 = w /\ (dict_has d k = true -> r = Ok (dict_get d k)).
Proof.
  unfold subscript. destruct (dict_has d k); intros [= <- <-]; auto.
  split; [reflexivity | discriminate].
Qed.

Lemma py_int_frame (v : pyval) w r w1 :
  py_int int_of_str v w = (r, w1) -> w1 = w.
Proof.
  unfold py_int. destruct v; try destruct (int_of_str s); intros [= _ <-]; reflexivity.
Qed.


Lemma has_of_truthy (d : pydict) (k : string) :
  truthy (dict_get d k) = true -> dict_has d k = true.
Proof.
  destruct (dict_has d k) eqn:E; [reflexivity|].
  rewrite (dict_get_absent _ _ E). discriminate.
Qed.


(** ** The password of a created user *)

Lemma keeps_ret {A} (a : A) : keeps_users (ret a).
Proof. intros w r w1 [= _ <-]. reflexivity. Qed.

Lemma keeps_raise {A} (e : exn) : keeps_users (@raise A e).
Proof. intros w r w1 [= _ <-]. reflexivity. Qed.

Lemma keeps_bind {A B} (m : M A) (k : A -> M B) :
  keeps_users m -> (forall a, keeps_users (k a)) -> keeps_users (bind m k).
Proof.
  intros Hm Hk w r w1. unfold bind.
  destruct (m w) as [[a|e] w0] eqn:E; intros H.
  - rewrite (Hk a _ _ _ H). exact (Hm _ _ _ E).
  - injection H as _ <-. exact (Hm _ _ _ E).
Qed.

Lemma keeps_db_call : keeps_users db_call.
Proof. intros w r w1 H. apply db_call_frame in H as [-> _]. reflexivity. Qed.

Lemma keeps_db_read {A} (f : Store -> A) : keeps_users (db_read f).
Proof.
  apply keeps_bind; [exact keeps_db_call|].
  intros _ w r w1 [= _ <-]. reflexivity.
Qed.

Lemma keeps_db_write (f : Store -> Store) :
  (forall s, users (f s) = users s) -> keeps_users (db_write f).
Proof.
  intros Hf. apply keeps_bind; [exact keeps_db_call|].
  intros _ w r w1 [= _ <-]. simpl. apply Hf.
Qed.

Lemma keeps_fresh_id : keeps_users (fresh_id models).
Proof. intros w r w1 [= _ <-]. reflexivity. Qed.

Lemma keeps_utcnow : keeps_users utcnow.
Proof. intros w r w1 [= _ <-]. reflexivity. Qed.

Lemma keeps_get_method (v : pyval) (k : string) : keeps_users (get_method v k).
Proof. destruct v; simpl; auto using keeps_ret, keeps_raise. Qed.

Lemma keeps_User_new a b c d h : keeps_users (User_new models a b c d h).
Proof.
  unfold User_new. destruct b; try apply keeps_raise.
  destruct (User_valid _ _ _ _ _); [|apply keeps_raise].
  apply keeps_bind; [apply keeps_fresh_id|]. intros i.
  apply keeps_bind; [apply keeps_utcnow|]. intros t. apply keeps_ret.
Qed.

Lemma User_new_hash a b c d h w u w1 :
  User_new models a b c d h w = (Ok u, w1) -> User.password_hash u = h.
Proof.
  unfold User_new. destruct b; try discriminate.
  destruct (User_valid _ _ _ _ _); [|discriminate].
  intros [= <- _]. reflexivity.
Qed.

Lemma keeps_Driver_create_driver uid a b c d e :
  keeps_users (Driver_create_driver models uid a b c d e).
Proof.
  unfold Driver_create_driver. apply keeps_bind.
  - unfold coerce_optional_datetime.
    destruct b; try apply keeps_ret;
      destruct (coerce_datetime _ _); auto using keeps_ret, keeps_raise.
  - intros t. destruct (Driver_valid _ _ _ _ _ _); [|apply keeps_raise].
    apply keeps_bind; [apply keeps_fresh_id|]. intros i.
    apply keeps_bind; [apply keeps_utcnow|]. intros now.
    apply keeps_bind; [|intros; apply keeps_ret].
    apply keeps_db_write. reflexivity.
Qed.

Lemma keeps_Passenger_new uid a b : keeps_users (Passenger_new models uid a b).
Proof.
  unfold Passenger_new. destruct (Passenger_valid _ _ _ _); [|apply keeps_raise].
  apply keeps_bind; [apply keeps_fresh_id|]. intros; apply keeps_ret.
Qed.

Lemma keeps_Passenger_insert p : keeps_users (Passenger_insert p).
Proof. apply keeps_db_write. reflexivity. Qed.

Lemma keeps_User_find_one_email q :
  keeps_users (User_find_one_email models q).
Proof. apply keeps_db_read. Qed.

Create HintDb keeps.
#[local] Hint Resolve keeps_ret keeps_raise keeps_get_method
  keeps_User_find_one_email keeps_User_new keeps_Driver_create_driver
  keeps_Passenger_new keeps_Passenger_insert : keeps.

(** A chain of binds of computations that keep the users. *)
Ltac keeps :=
  solve [auto with keeps] || (apply keeps_bind; [keeps | intros ?; keeps]).

Lemma adds_of_keeps {A} (m : M A) h w :
  keeps_users m -> adds_user_with_hash h w (snd (m w)).
Proof. intros Hm. left. destruct (m w) as [r w1] eqn:E. exact (Hm _ _ _ E). Qed.

Lemma adds_after_keeps {A B} (m : M A) (k : A -> M B) h w :
  keeps_users m ->
  (forall a w0, m w = (Ok a, w0) -> adds_user_with_hash h w0 (snd (k a w0))) ->
  adds_user_with_hash h w (snd (bind m k w)).
Proof.
  intros Hm Hk. unfold bind. destruct (m w) as [[a|e] w0] eqn:E.
  - specialize (Hk a w0 eq_refl). unfold adds_user_with_hash in *.
    rewrite <- (Hm _ _ _ E). exact Hk.
  - left. exact (Hm _ _ _ E).
Qed.

Lemma adds_by_insert {B} (u : User.t) (k : unit -> M B) w :
  (forall a, keeps_users (k a)) ->
  adds_user_with_hash (User.password_hash u) w (snd (bind (User_insert u) k w)).
Proof.
  intros Hk. unfold bind.
  destruct (User_insert u w) as [[[]|e] w0] eqn:E.
  - apply db_write_ok_inv in E as [Hs _].
    destruct (k tt w0) as [r w1] eqn:Ek. right. exists u. simpl.
    rewrite (Hk _ _ _ _ Ek), Hs. auto.
  - left. unfold User_insert, db_write, bind in E.
    destruct (db_call w) as [[[]|e'] w'] eqn:Ec; [discriminate|].
    injection E as _ <-. apply db_call_frame in Ec as [Hs _].
    simpl. rewrite Hs. reflexivity.
Qed.

(** C9. After [POST /users], [POST /drivers] or [POST /passengers], with
    any body, the users collection is what it was or has one more user,
    and that user's [password_hash] is the hash of the literal
    "password": nothing of the body reaches it. *)
Theorem created_user_has_default_password (data : pydict)
    (current_user : User.t) (w : World) :
  let h := get_password_hash auth "password" in
  adds_user_with_hash h w (snd (create_user auth models data current_user w)) /\
  adds_user_with_hash h w (snd (create_driver auth models data current_user w)) /\
  adds_user_with_hash h w (snd (create_passenger auth models data current_user w)).
Proof.
  intros h. subst h. split; [|split].
  - unfold create_user.
    apply adds_after_keeps; [keeps|]. intros [ex|] w0 _.
    { apply adds_of_keeps. keeps. }
    apply adds_after_keeps; [keeps|]. intros u w2 Hu.
    rewrite <- (User_new_hash _ _ _ _ _ _ _ _ Hu).
    apply adds_by_insert. intros; keeps.
  - unfold create_driver.
    apply adds_after_keeps; [keeps|]. intros q w0 _.
    apply adds_after_keeps; [keeps|]. intros [ex|] w1 _.
    { apply adds_of_keeps. keeps. }
    do 3 (apply adds_after_keeps; [keeps|]; intros ? ? _).
    apply adds_after_keeps; [keeps|]. intros u w5 Hu.
    rewrite <- (User_new_hash _ _ _ _ _ _ _ _ Hu).
    apply adds_by_insert. intros _. keeps.
  - unfold create_passenger.
    apply adds_after_keeps; [keeps|]. intros q w0 _.
    apply adds_after_keeps; [keeps|]. intros [ex|] w1 _.
    { apply adds_of_keeps. keeps. }
    do 3 (apply adds_after_keeps; [keeps|]; intros ? ? _).
    apply adds_after_keeps; [keeps|]. intros u w5 Hu.
    rewrite <- (User_new_hash _ _ _ _ _ _ _ _ Hu).
    apply adds_by_insert. intros _. keeps.
Qed.

(** ** What a response shows of a user *)

(** C10. A successful [POST /auth/login] returns, as its [user], a
    document of the users collection as it is stored, and a successful
    [POST /users] returns the document it appended; in both bodies the
    [password_hash] of that document is present. *)
Theorem responses_carry_password_hash :
  (forall user_credentials w resp w1,
     login auth models user_credentials w = (Ok resp, w1) ->
     In (LoginResponse.user resp) (users (store w)) /\
     field (field (LoginResponse_json resp) "user") "password_hash" =
       VStr (User.password_hash (LoginResponse.user resp))) /\
  (forall user_data current_user w u w1,
     create_user auth models user_data current_user w = (Ok u, w1) ->
     users (store w1) = users (store w) ++ [u] /\
     field (User_json u) "password_hash" = VStr (User.password_hash u) /\
     User.password_hash u = get_password_hash auth "password").
Proof.
  split.
  - intros creds w resp w1 H. unfold login in H.
    apply bind_ok_inv in H as (o & w0 & Hf & H).
    apply db_read_ok_inv in Hf as (-> & _).
    destruct (List.find _ _) as [u|] eqn:E; [|discriminate].
    destruct (negb _); [discriminate|]. injection H as <- _.
    split; [|reflexivity]. exact (proj1 (find_some _ _ E)).
  - intros data cu w u w1 H. unfold create_user in H.
    apply bind_ok_inv in H as (o & w0 & Hf & H).
    apply db_read_ok_inv in Hf as (-> & Hs0 & _).
    destruct (List.find _ _); [discriminate|].
    apply bind_ok_inv in H as (nu & w2 & Hnew & H).
    apply bind_ok_inv in H as ([] & w3 & Hins & H).
    injection H as <- <-.
    apply db_write_ok_inv in Hins as [Hs3 _].
    pose proof (keeps_User_new _ _ _ _ _ _ _ _ Hnew) as Hk.
    split; [|split; [reflexivity|exact (User_new_hash _ _ _ _ _ _ _ _ Hnew)]].
    rewrite Hs3. simpl. rewrite Hk, Hs0. reflexivity.
Qed.

(** ** Listings with dangling references *)

Lemma for_in_map {A B} (step : A -> list B -> M (list B)) (g : A -> B)
    (xs : list A) (acc : list B) w :
  (forall x acc, step x acc w = (Ok (acc ++ [g x]), w)) ->
  for_in xs step acc w = (Ok (acc ++ map g xs), w).
Proof.
  intros Hstep. revert acc. induction xs as [|x xs IH]; intros acc; simpl.
  - rewrite app_nil_r. reflexivity.
  - rewrite (bind_ok _ _ _ _ _ (Hstep x acc)), IH, <- app_assoc. reflexivity.
Qed.

Lemma Forall2_map_same {A B} (R : A -> B -> Prop) (g : A -> B) (xs : list A) :
  (forall x, In x xs -> R x (g x)) -> Forall2 R xs (map g xs).
Proof.
  induction xs as [|x xs IH]; intros H; simpl; constructor.
  - apply H. left. reflexivity.
  - apply IH. intros y Hy. apply H. right. exact Hy.
Qed.

Lemma dict_by_lookup {A} (key : A -> string) (xs : list A) (k : string) (x : A) :
  dict_by key xs !! k = Some x -> In x xs /\ key x = k.
Proof.
  unfold dict_by.
  assert (G : forall (m : gmap string A),
             foldl (fun m x => <[key x := x]> m) m xs !! k = Some x ->
             (In x xs /\ key x = k) \/ m !! k = Some x).
  { induction xs as [|y ys IH]; intros m H; simpl in *; [auto|].
    destruct (IH _ H) as [[Hin Hk] | Hm]; [auto|].
    destruct (decide (key y = k)) as [E|E].
    - rewrite E, lookup_insert_eq in Hm. injection Hm as ->. auto.
    - rewrite lookup_insert_ne in Hm by exact E. auto. }
  intros H. destruct (G ∅ H) as [?|Hm]; [assumption|].
  rewrite lookup_empty in Hm. discriminate.
Qed.

(** The fuel listing on a reachable database: one item per entry, the
    driver and the user looked up in the store. *)
Lemma get_fuel_entries_healthy (current_user : User.t) (w : World) :
  healthy w ->
  get_fuel_entries current_user w =
    (Ok (VDict [("status", VStr "success");
                ("fuel_entries",
                 VList (map (fun entry =>
                               let driver := stored_driver (FuelEntry.driver_id entry) w in
                               fuel_data entry driver
                                 (match driver with
                                  | Some d => stored_user (Driver.user_id d) w
                                  | None => None
                                  end))
                          (fuel_entries (store w))))]), w).
Proof.
  intros Hw. unfold get_fuel_entries, try_except, FuelEntry_find_all.
  rewrite (bind_ok _ _ _ _ _ (db_read_healthy _ w Hw)).
  erewrite bind_ok; [reflexivity|].
  apply for_in_map with
    (g := fun entry =>
            let driver := stored_driver (FuelEntry.driver_id entry) w in
            fuel_data entry driver
              (match driver with
               | Some d => stored_user (Driver.user_id d) w
               | None => None
               end)).
  intros entry acc. unfold fuel_entry_step, try_except, Driver_get.
  rewrite (bind_ok _ _ _ _ _ (db_read_healthy _ w Hw)).
  cbv zeta. unfold stored_driver.
  destruct (List.find _ (drivers (store w))) as [d|].
  - unfold User_get. rewrite (bind_ok _ _ _ _ _ (db_read_healthy _ w Hw)).
    reflexivity.
  - reflexivity.
Qed.

(** The assigned-ride listing on a reachable database. *)
Lemma get_assigned_rides_healthy (current_user : User.t) (w : World)
    (driver : Driver.t) :
  healthy w ->
  driver_profile_of current_user w = Some driver ->
  exists ps us,
    (forall p, In p ps -> In p (passengers (store w))) /\
    (forall u, In u us -> In u (users (store w))) /\
    get_assigned_rides current_user w =
      (Ok (map (assigned_ride_response (dict_by Passenger.id ps) (dict_by User.id us))
             (List.filter (assigned_to (Driver.id driver) [ASSIGNED; IN_PROGRESS])
                (rides (store w)))), w).
Proof.
  intros Hw Hd. unfold get_assigned_rides, Driver_find_one_user_id.
  rewrite (bind_ok _ _ _ _ _ (db_read_healthy _ w Hw)).
  unfold driver_profile_of in Hd. rewrite Hd.
  unfold Ride_find_driver_status, Passenger_find_in, User_find_in.
  rewrite (bind_ok _ _ _ _ _ (db_read_healthy _ w Hw)).
  rewrite (bind_ok _ _ _ _ _ (db_read_healthy _ w Hw)).
  rewrite (bind_ok _ _ _ _ _ (db_read_healthy _ w Hw)).
  rewrite (bind_ok _ _ _ _ _ (for_in_append _ _ _ w)).
  eexists _, _. split; [|split; [|reflexivity]].
  - intros p Hp. apply filter_In in Hp as [Hp _]. exact Hp.
  - intros u Hu. apply filter_In in Hu as [Hu _]. exact Hu.
Qed.

(** C7. With a reachable database the fuel-entry listing answers with
    status "success" and one item per entry, in which a missing driver
    shows as "Unknown" make, plate and name and a missing user as
    "Unknown" name; and the assigned-ride listing of a caller who has a
    driver profile answers with one item per ride, in which a missing
    passenger shows as [null] and a missing user of the passenger as
    [null].  Neither answers with an error because of the missing
    document. *)
Theorem listings_tolerate_missing_references (current_user : User.t)
    (w : World) :
  healthy w ->
  (exists items,
     get_fuel_entries current_user w =
       (Ok (VDict [("status", VStr "success"); ("fuel_entries", VList items)]), w) /\
     Forall2 (fuel_item_tolerant w) (fuel_entries (store w)) items) /\
  (forall driver,
     driver_profile_of current_user w = Some driver ->
     exists items,
       get_assigned_rides current_user w = (Ok items, w) /\
       Forall2 (ride_item_tolerant w)
         (List.filter (assigned_to (Driver.id driver) [ASSIGNED; IN_PROGRESS])
            (rides (store w)))
         items).
Proof.
  intros Hw. split.
  - eexists. split; [apply get_fuel_entries_healthy; exact Hw|].
    apply Forall2_map_same. intros entry _. split.
    + intros Hd. cbv zeta. rewrite Hd. simpl. auto.
    + intros d Hd Hu. cbv zeta. rewrite Hd, Hu. reflexivity.
  - intros driver Hd.
    destruct (get_assigned_rides_healthy current_user w driver Hw Hd)
      as (ps & us & Hps & Hus & ->).
    eexists. split; [reflexivity|].
    apply Forall2_map_same. intros ride _.
    unfold ride_item_tolerant, assigned_ride_response, field.
    cbn [ride_fields app dict_get String.eqb Ascii.eqb Bool.eqb].
    destruct (lookup_opt (dict_by Passenger.id ps) (Ride.passenger_id ride))
      as [p|] eqn:Hp.
    + unfold lookup_opt in Hp.
      destruct (Ride.passenger_id ride) as [pid|] eqn:Hpid; [|discriminate].
      apply dict_by_lookup in Hp as [Hpin Hpk].
      split.
      * intros Hmiss. exfalso. apply (Hmiss p (Hps p Hpin)).
        rewrite Hpid, Hpk. reflexivity.
      * intros Hmiss. right.
        cbn [passenger_details field dict_get String.eqb Ascii.eqb Bool.eqb].
        destruct (dict_by User.id us !! Passenger.user_id p) as [u|] eqn:Hu;
          [|reflexivity].
        apply dict_by_lookup in Hu as [Huin Huk].
        exfalso. apply (Hmiss p (Hps p Hpin)) with (u := u).
        -- rewrite Hpid, Hpk. reflexivity.
        -- exact (Hus u Huin).
        -- exact Huk.
    + split; intros _; [|left]; reflexivity.
Qed.

(** ** Debug endpoints and exceptions *)

Lemma first_fault_firstn_S (k : nat) (fs : list (option string)) :
  first_fault (firstn (S k) fs) =
  match hd None fs with
  | Some msg => Some msg
  | None => first_fault (firstn k (tl fs))
  end.
Proof.
  destruct fs as [|[msg|] fs]; simpl; try reflexivity.
  destruct k; reflexivity.
Qed.

Lemma faults_advance (w : World) : faults (advance w) = tl (faults w).
Proof. unfold advance. destruct (faults w) eqn:E; simpl; [exact E | reflexivity]. Qed.

Lemma store_advance (w : World) : store (advance w) = store w.
Proof. unfold advance. destruct (faults w); reflexivity. Qed.

Lemma try_bind_read {A B} (f : Store -> A) (k : A -> M B) (h : exn -> M B) w :
  try_except (bind (db_read f) k) h w =
  match hd None (faults w) with
  | Some msg => h (PyError "PyMongoError" msg) (advance w)
  | None => try_except (k (f (store w))) h (advance w)
  end.
Proof.
  unfold db_read, try_except, bind, db_call, advance.
  destruct (faults w) as [|[msg|] fs] eqn:E; simpl; rewrite ?E; reflexivity.
Qed.

Lemma try_bind_ok {A B} (m : M A) (k : A -> M B) (h : exn -> M B) w a w1 :
  m w = (Ok a, w1) -> try_except (bind m k) h w = try_except (k a) h w1.
Proof. unfold try_except, bind. intros ->. reflexivity. Qed.

(** A loop whose body, its own [try] included, comes to [try_item] on
    every item lists the items [listed] tells. *)
Lemma for_in_listed {A} (step : A -> list pyval -> M (list pyval))
    (try_item : attempt A) (s : Store) (xs : list A) :
  (forall x acc w, store w = s ->
     exists w1,
       step x acc w =
         (Ok (match fst (try_item x (faults w)) with
              | Some item => acc ++ [item]
              | None => acc
              end), w1) /\
       store w1 = s /\ faults w1 = snd (try_item x (faults w))) ->
  forall acc w, store w = s ->
    exists w1,
      for_in xs step acc w = (Ok (acc ++ listed try_item xs (faults w)), w1) /\
      store w1 = s.
Proof.
  intros Hstep. induction xs as [|x xs IH]; intros acc w Hs; simpl.
  - exists w. rewrite app_nil_r. split; [reflexivity | exact Hs].
  - destruct (Hstep x acc w Hs) as (w1 & E & Hs1 & Hf1).
    rewrite (bind_ok _ _ _ _ _ E).
    destruct (IH (match fst (try_item x (faults w)) with
                  | Some item => acc ++ [item]
                  | None => acc
                  end) w1 Hs1) as (w2 & E2 & Hs2).
    exists w2. split; [|exact Hs2].
    rewrite E2, Hf1.
    destruct (try_item x (faults w)) as [[item|] fs']; simpl;
      rewrite <- ?app_assoc; reflexivity.
Qed.

Lemma debug_driver_step_listed (w0 : World) driver acc w :
  store w = store w0 ->
  exists w1,
    debug_driver_step driver acc w =
      (Ok (match fst (driver_attempt w0 driver (faults w)) with
           | Some item => acc ++ [item]
           | None => acc
           end), w1) /\
    store w1 = store w0 /\
    faults w1 = snd (driver_attempt w0 driver (faults w)).
Proof.
  intros Hs. exists (advance w).
  unfold debug_driver_step, User_get. rewrite try_bind_read.
  unfold driver_attempt, stored_user. rewrite store_advance, faults_advance.
  rewrite <- Hs.
  destruct (hd None (faults w)); simpl; auto.
Qed.

Lemma debug_driver_vehicle_step_listed (w0 : World) driver acc w :
  store w = store w0 ->
  exists w1,
    debug_driver_vehicle_step driver acc w =
      (Ok (match fst (driver_vehicle_attempt w0 driver (faults w)) with
           | Some item => acc ++ [item]
           | None => acc
           end), w1) /\
    store w1 = store w0 /\
    faults w1 = snd (driver_vehicle_attempt w0 driver (faults w)).
Proof.
  intros Hs.
  unfold debug_driver_vehicle_step, driver_vehicle_attempt, has_vehicle.
  destruct (_ && _).
  - exists (advance w). unfold User_get. rewrite try_bind_read.
    unfold stored_user. rewrite store_advance, faults_advance. rewrite <- Hs.
    destruct (hd None (faults w)); simpl; auto.
  - exists w. simpl. auto.
Qed.

Lemma fuel_entry_step_listed (w0 : World) entry acc w :
  store w = store w0 ->
  exists w1,
    fuel_entry_step entry acc w =
      (Ok (match fst (fuel_attempt w0 entry (faults w)) with
           | Some item => acc ++ [item]
           | None => acc
           end), w1) /\
    store w1 = store w0 /\
    faults w1 = snd (fuel_attempt w0 entry (faults w)).
Proof.
  intros Hs.
  unfold fuel_entry_step, Driver_get. rewrite try_bind_read.
  unfold fuel_attempt, stored_driver, stored_user. rewrite <- Hs.
  destruct (hd None (faults w)).
  { exists (advance w). rewrite store_advance, faults_advance. simpl. auto. }
  destruct (List.find _ (drivers (store w))) as [d|].
  - unfold User_get. rewrite try_bind_read.
    exists (advance (advance w)).
    rewrite !store_advance, !faults_advance.
    destruct (hd None (tl (faults w))); simpl; auto.
  - exists (advance w). rewrite store_advance, faults_advance. simpl. auto.
Qed.

(** One outer call of a debug handler: it fails and the handler answers
    with the error body, or the handler goes on. *)
Ltac outer_call :=
  rewrite first_fault_firstn_S, try_bind_read;
  match goal with
  | |- context [hd None (faults ?w)] =>
      destruct (hd None (faults w)) as [?msg|];
      [ eexists _, _; split; [reflexivity | simpl; auto]
      | rewrite <- ?faults_advance ]
  end.

Ltac finish_success :=
  eexists _, _; split; [reflexivity | simpl; auto].

(** C8, as the code has it.  No handler under [/debug] propagates an
    exception: each returns a body.  When one of the database calls it
    makes outside a per-item [try] fails, the body has the status
    "error" and the message of the first such failure; otherwise the
    body has the status "success", whatever failed while an item of
    [/debug/drivers], [/debug/vehicles] or [/debug/fuel-entries] was
    being processed: the list of such a body holds the items whose own
    calls all succeeded, in the order of the store, an item with a call
    that failed being skipped. *)
Theorem debug_handler_never_propagates (r : debug_route) (w : World) :
  exists body w1,
    debug_handler r w = (Ok body, w1) /\
    match first_fault (firstn (outer_calls r) (faults w)) with
    | Some msg =>
        field body "status" = VStr "error" /\ field body "message" = VStr msg
    | None =>
        field body "status" = VStr "success" /\
        lists_all_but_failed_items r w body
    end.
Proof.
  destruct r; cbn [debug_handler outer_calls lists_all_but_failed_items].
  - unfold debug_data, User_find_all, Driver_find_all, Passenger_find_all,
      Vehicle_find_all.
    do 4 outer_call. finish_success.
  - unfold debug_users, User_find_all. outer_call. finish_success.
  - unfold debug_users_simple, User_find_all. outer_call. finish_success.
  - unfold debug_drivers, Driver_find_all. outer_call.
    destruct (for_in_listed debug_driver_step (driver_attempt w) (store w)
                (drivers (store w)) (debug_driver_step_listed w)
                [] (advance w) (store_advance w)) as (w1 & E & _).
    rewrite (try_bind_ok _ _ _ _ _ _ E). finish_success.
  - unfold debug_vehicles, Vehicle_find_all, Driver_find_all. outer_call.
    rewrite (try_bind_ok _ _ _ _ _ _ (for_in_append _ _ _ _)). outer_call.
    rewrite !store_advance.
    assert (Hs : store (advance (advance w)) = store w)
      by (rewrite !store_advance; reflexivity).
    destruct (for_in_listed debug_driver_vehicle_step
                (driver_vehicle_attempt w) (store w) (drivers (store w))
                (debug_driver_vehicle_step_listed w)
                ([] ++ map vehicle_data_of_vehicle (vehicles (store w)))
                (advance (advance w)) Hs) as (w1 & E & _).
    rewrite (try_bind_ok _ _ _ _ _ _ E). finish_success.
  - unfold debug_rides, Ride_find_all. outer_call.
    rewrite (try_bind_ok _ _ _ _ _ _ (for_in_append _ _ _ _)). finish_success.
  - unfold debug_fuel_entries, FuelEntry_find_all. outer_call.
    destruct (for_in_listed fuel_entry_step (fuel_attempt w) (store w)
                (fuel_entries (store w)) (fuel_entry_step_listed w)
                [] (advance w) (store_advance w)) as (w1 & E & _).
    rewrite (try_bind_ok _ _ _ _ _ _ E). finish_success.
  - unfold debug_get_rides_with_details, Ride_find_all, Passenger_find_in,
      Driver_find_in, User_find_in.
    do 4 outer_call.
    rewrite (try_bind_ok _ _ _ _ _ _ (for_in_append _ _ _ _)). finish_success.
Qed.

End Properties.

(** * The properties on concrete requests *)

Lemma create_ride_is_requested_witness :
  exists r w1,
    create_ride lenient_models ride_request calm = (Ok r, w1) /\
    Ride.status r = REQUESTED /\
    RideStatus_value (Ride.status r) = "requested" /\
    Ride.requested_at r = Some noon /\
    Ride.driver_id r = None /\
    Ride.assigned_at r = None /\
    Ride.picked_up_at r = None /\
    Ride.completed_at r = None /\
    rides (store w1) = rides (store calm) ++ [r].
Proof.
  eexists _, _. split; [vm_compute; reflexivity|].
  eapply (create_ride_is_requested lenient_models ride_request calm).
  vm_compute; reflexivity.
Defined.

Lemma get_assigned_rides_own_active_witness :
  exists resp w1,
    get_assigned_rides asha calm = (Ok resp, w1) /\
    length resp = 1%nat /\
    exists driver,
      List.find (fun d => String.eqb (Driver.user_id d) (User.id asha))
        (drivers (store calm)) = Some driver /\
      Forall (fun item =>
                field item "driver_id" = VStr (Driver.id driver) /\
                (field item "status" = VStr "assigned" \/
                 field item "status" = VStr "in_progress")) resp.
Proof.
  eexists _, _. split; [vm_compute; reflexivity|]. split; [reflexivity|].
  eapply (get_assigned_rides_own_active asha calm). vm_compute; reflexivity.
Defined.


Lemma duplicate_email_is_400_witness :
  healthy calm /\
  create_user plain_auth lenient_models second_asha_request admin calm =
    (Raise (HTTPException 400 "User with this email already exists"), calm) /\
  create_driver plain_auth lenient_models second_asha_profile_request admin calm =
    (Raise (HTTPException 400 "User with this email already exists"), calm) /\
  create_passenger plain_auth lenient_models second_asha_profile_request admin calm =
    (Raise (HTTPException 400 "User with this email already exists"), calm).
Proof.
  assert (Hex : exists u, In u (users (store calm)) /\
                          User.email u = "asha@rec.example").
  { exists asha. split; [right; left|]; reflexivity. }
  split; [reflexivity|].
  pose proof (duplicate_email_is_400 plain_auth lenient_models
                second_asha_request admin calm _ eq_refl Hex) as (H1 & _ & _).
  pose proof (duplicate_email_is_400 plain_auth lenient_models
                second_asha_profile_request admin calm _ eq_refl Hex)
    as (_ & H2 & H3).
  split; [|split]; [apply H1 | apply H2 | apply H3]; reflexivity.
Defined.

Lemma create_vehicle_missing_field_witness :
  In "license_plate" required_fields /\
  dict_has vehicle_without_plate "license_plate" = false /\
  create_vehicle lenient_models decimal_only vehicle_without_plate admin calm =
    (Raise (HTTPException 400 "Missing required field: license_plate"), calm).
Proof.
  assert (Hin : In "license_plate" required_fields) by (simpl; auto 10).
  split; [exact Hin|]. split; [reflexivity|].
  destruct (create_vehicle_missing_field lenient_models decimal_only
              vehicle_without_plate admin calm "license_plate" Hin eq_refl)
    as (g & Hg & _ & _ & _ & Hrun & _).
  injection Hg as <-. exact Hrun.
Defined.

(** C5, the claim as stated fails: the body has no [license_plate] and
    its [vehicle_year] is 0; the 400 names [vehicle_year], a field that
    is present, and not the field that is missing. *)
Lemma create_vehicle_names_a_present_field :
  dict_has vehicle_of_year_zero_without_plate "license_plate" = false /\
  dict_has vehicle_of_year_zero_without_plate "vehicle_year" = true /\
  (forall f, In f required_fields -> f <> "license_plate" ->
     dict_has vehicle_of_year_zero_without_plate f = true) /\
  create_vehicle lenient_models decimal_only
      vehicle_of_year_zero_without_plate admin calm =
    (Raise (HTTPException 400 "Missing required field: vehicle_year"), calm).
Proof.
  split; [reflexivity|]. split; [reflexivity|]. split; [|reflexivity].
  intros f Hf Hne. simpl in Hf.
  repeat (destruct Hf as [<-|Hf]; [first [reflexivity | contradiction]|]).
  destruct Hf.
Qed.



Lemma listings_tolerate_missing_references_witness :
  healthy calm /\
  driver_profile_of asha calm = Some asha_profile /\
  stored_driver (FuelEntry.driver_id fuel_of_nobody) calm = None /\
  passenger_missing ride_of_asha calm /\
  (exists item,
     get_fuel_entries admin calm =
       (Ok (VDict [("status", VStr "success"); ("fuel_entries", VList [item])]),
        calm) /\
     field item "driver_name" = VStr "Unknown" /\
     field item "vehicle_make" = VStr "Unknown" /\
     field item "license_plate" = VStr "Unknown") /\
  (exists item,
     get_assigned_rides asha calm = (Ok [item], calm) /\
     field item "passenger" = VNone).
Proof.
  assert (Hmiss : passenger_missing ride_of_asha calm) by (intros p []).
  split; [reflexivity|]. split; [reflexivity|]. split; [reflexivity|].
  split; [exact Hmiss|].
  destruct (listings_tolerate_missing_references admin calm eq_refl)
    as [(items & Hrun & Hitems) _].
  destruct (listings_tolerate_missing_references asha calm eq_refl)
    as [_ Hrides].
  destruct (Hrides asha_profile eq_refl) as (ritems & Hrrun & Hritems).
  split.
  - inversion Hitems as [|entry item es its Hitem Hrest]; subst.
    inversion Hrest; subst.
    exists item. split; [exact Hrun|]. exact (proj1 Hitem eq_refl).
  - cbn in Hritems.
    inversion Hritems as [|ride item rs its Hitem Hrest]; subst.
    inversion Hrest; subst.
    exists item. split; [exact Hrrun|]. exact (proj1 Hitem Hmiss).
Defined.

(** [/debug/drivers] while the lookup of the only driver's user fails:
    the exception is raised inside the loop, and the body says
    "success" and carries no message. *)
Lemma debug_drivers_swallows_item_failure :
  debug_driver_step asha_profile [] (advance flaky) = (Ok [], advance (advance flaky)) /\
  User_get (Driver.user_id asha_profile) (advance flaky) =
    (Raise (PyError "PyMongoError" "connection reset"), advance (advance flaky)) /\
  exists body,
    debug_handler DebugDrivers flaky = (Ok body, advance (advance flaky)) /\
    field body "status" = VStr "success" /\
    field body "message" = VNone /\
    body = VDict [("status", VStr "success"); ("drivers", VList [])].
Proof.
  split; [reflexivity|]. split; [reflexivity|].
  eexists. repeat split.
Qed.

(** [/debug/drivers] on two drivers while the lookup of the first one's
    user fails: the first driver is skipped and the second one listed. *)
Example debug_drivers_lists_the_other_driver :
  drivers (store flaky_garage) = [asha_profile; kumar_profile] /\
  exists w1,
    debug_handler DebugDrivers flaky_garage =
      (Ok (VDict [("status", VStr "success");
                  ("drivers", VList [driver_data kumar_profile None])]), w1).
Proof. split; [reflexivity|]. eexists. vm_compute. reflexivity. Qed.

(** [GET /fuel-entries] while the lookup of the only entry's driver
    fails: the entry is left out. *)
Example get_fuel_entries_leaves_failed_entry_out :
  fuel_entries (store flaky) = [fuel_of_nobody] /\
  exists w1,
    get_fuel_entries admin flaky =
      (Ok (VDict [("status", VStr "success"); ("fuel_entries", VList [])]), w1).
Proof. split; [reflexivity|]. eexists. vm_compute. reflexivity. Qed.

(** A body with its own password: the stored hash is still that of
    "password". *)
Example create_user_ignores_supplied_password :
  exists u w1,
    create_user plain_auth lenient_models new_user_request admin calm = (Ok u, w1) /\
    dict_get new_user_request "password" = VStr "hunter2" /\
    users (store w1) = users (store calm) ++ [u] /\
    User.password_hash u = "hash:password".
Proof. eexists _, _. repeat split. Qed.

Example create_driver_ignores_supplied_password :
  exists d w1,
    create_driver plain_auth lenient_models new_profile_request admin calm =
      (Ok d, w1) /\
    exists u, users (store w1) = users (store calm) ++ [u] /\
              Driver.user_id d = User.id u /\
              User.password_hash u = "hash:password".
Proof. eexists _, _. split; [vm_compute; reflexivity|]. eexists. repeat split. Qed.

Example create_passenger_ignores_supplied_password :
  exists p w1,
    create_passenger plain_auth lenient_models new_profile_request admin calm =
      (Ok p, w1) /\
    exists u, users (store w1) = users (store calm) ++ [u] /\
              Passenger.user_id p = User.id u /\
              User.password_hash u = "hash:password".
Proof. eexists _, _. split; [vm_compute; reflexivity|]. eexists. repeat split. Qed.

Lemma responses_carry_password_hash_witness :
  (exists resp w1,
     login plain_auth lenient_models login_of_asha calm = (Ok resp, w1) /\
     field (field (LoginResponse_json resp) "user") "password_hash" =
       VStr "hash:password") /\
  (exists u w1,
     create_user plain_auth lenient_models new_user_request admin calm = (Ok u, w1) /\
     field (User_json u) "password_hash" = VStr "hash:password").
Proof.
  pose proof (responses_carry_password_hash plain_auth lenient_models) as [Hl Hc].
  split.
  - eexists _, _. split; [vm_compute; reflexivity|].
    exact (proj2 (Hl login_of_asha calm _ _ eq_refl)).
  - eexists _, _. split; [vm_compute; reflexivity|].
    exact (proj1 (proj2 (Hc new_user_request admin calm _ _ eq_refl))).
Defined.

(** * Further properties of the code *)

(** ** [config.py] *)

Lemma truthy_opt_some (v : string) : truthy_opt (Some v) = false <-> v = "".
Proof.
  simpl. rewrite negb_false_iff. apply String.eqb_eq.
Qed.

(** Unless [REDIS_URL] is set to the empty string, [get_redis_url] is the
    value of the variable, or the local default when it is not set,
    whatever [ENVIRONMENT] says. *)
Theorem get_redis_url_ignores_environment (env : Config.environ) :
  env "REDIS_URL" <> Some "" ->
  Config.get_redis_url env =
    Config.getenv_default env "REDIS_URL" "redis://localhost:6379".
Proof.
  intros Hne. unfold Config.get_redis_url, Config.getenv_default. cbv zeta.
  destruct (env "REDIS_URL") as [v|] eqn:E.
  - destruct (truthy_opt (Some v)) eqn:T; [reflexivity|].
    apply truthy_opt_some in T. subst v. contradiction.
  - destruct (Config.is_production env); reflexivity.
Qed.

(** [get_redis_url] answers the empty string exactly when [REDIS_URL] is
    set to the empty string in production. *)
Theorem get_redis_url_empty_iff (env : Config.environ) :
  Config.get_redis_url env = "" <->
  env "REDIS_URL" = Some "" /\ env "ENVIRONMENT" = Some "production".
Proof.
  unfold Config.get_redis_url, Config.getenv_default, Config.is_production.
  cbv zeta. destruct (env "REDIS_URL") as [v|] eqn:E.
  - destruct (truthy_opt (Some v)) eqn:T.
    + split.
      * intros ->. discriminate.
      * intros [[= ->] _]. discriminate.
    + apply truthy_opt_some in T. subst v.
      destruct (env "ENVIRONMENT") as [e|].
      * destruct (String.eqb e "production") eqn:P; simpl.
        -- apply String.eqb_eq in P. subst e. tauto.
        -- apply String.eqb_neq in P. split; [discriminate|].
           intros [_ [= ->]]. contradiction.
      * split; [discriminate | intros [_ [=]]].
  - destruct (env "ENVIRONMENT") as [e|]; [destruct (String.eqb e "production")|];
      simpl; split; try discriminate; intros [[=] _].
Qed.

Lemma env_fallback_empty_iff (env : Config.environ) (k default : string) :
  default <> "" ->
  match env k with
  | Some v =>
      if truthy_opt (Some v) then v
      else if Config.is_production env
           then Config.getenv_default env k default else default
  | None =>
      if Config.is_production env
      then Config.getenv_default env k default else default
  end = "" <->
  env k = Some "" /\ env "ENVIRONMENT" = Some "production".
Proof.
  intros Hd. unfold Config.getenv_default, Config.is_production.
  destruct (env k) as [v|] eqn:E.
  - destruct (truthy_opt (Some v)) eqn:T.
    + split.
      * intros ->. discriminate.
      * intros [[= ->] _]. discriminate.
    + apply truthy_opt_some in T. subst v.
      destruct (env "ENVIRONMENT") as [e|].
      * destruct (String.eqb e "production") eqn:P; simpl.
        -- apply String.eqb_eq in P. subst e. tauto.
        -- apply String.eqb_neq in P. split; [intros; contradiction|].
           intros [_ [= ->]]. contradiction.
      * split; [intros; contradiction | intros [_ [=]]].
  - destruct (env "ENVIRONMENT") as [e|]; [destruct (String.eqb e "production")|];
      simpl; (split; [intros; contradiction | intros [[=] _]]).
Qed.

(** [get_mongodb_url] answers the empty string exactly when the settings
    hold no URL of their own (the empty string or the local default) and
    [MONGODB_URL] is set to the empty string in production. *)
Theorem get_mongodb_url_empty_iff (url : string) (env : Config.environ) :
  Config.get_mongodb_url url env = "" <->
  (url = "" \/ url = "mongodb://localhost:27017") /\
  env "MONGODB_URL" = Some "" /\ env "ENVIRONMENT" = Some "production".
Proof.
  unfold Config.get_mongodb_url. cbv zeta.
  destruct (negb (String.eqb url "") &&
            negb (String.eqb url "mongodb://localhost:27017")) eqn:C.
  - apply andb_prop in C as [C0 C1].
    apply negb_true_iff, String.eqb_neq in C0, C1.
    split; [intros; contradiction | intros [[?|?] _]; contradiction].
  - assert (Hurl : url = "" \/ url = "mongodb://localhost:27017").
    { apply andb_false_iff in C as [C|C];
        apply negb_false_iff, String.eqb_eq in C; auto. }
    rewrite (env_fallback_empty_iff env "MONGODB_URL"
               "mongodb://localhost:27017") by discriminate.
    tauto.
Qed.

Lemma get_mongodb_url_cases (url : string) (env : Config.environ) :
  let custom u :=
    negb (String.eqb u "") && negb (String.eqb u "mongodb://localhost:27017") in
  (custom url = true /\ Config.get_mongodb_url url env = url) \/
  (custom url = false /\
   Config.get_mongodb_url url env = Config.get_mongodb_url "" env).
Proof.
  cbv zeta. unfold Config.get_mongodb_url. cbv zeta.
  destruct (negb (String.eqb url "") &&
            negb (String.eqb url "mongodb://localhost:27017")); auto.
Qed.

Lemma get_mongodb_url_again (url : string) (env : Config.environ) :
  Config.get_mongodb_url (Config.get_mongodb_url url env) env =
  Config.get_mongodb_url url env.
Proof.
  destruct (get_mongodb_url_cases (Config.get_mongodb_url url env) env)
    as [[_ H] | [C H]]; [exact H|].
  rewrite H.
  destruct (get_mongodb_url_cases url env) as [[C' H'] | [_ H']].
  - rewrite H' in C. cbv beta in C, C'. rewrite C' in C. discriminate.
  - symmetry. exact H'.
Qed.

(** The assignment of the computed URLs to the settings, which ends the
    module, reaches a fixed point at once: doing it again changes
    nothing. *)
Theorem update_settings_idempotent (settings : Config.Settings)
    (env : Config.environ) :
  Config.update_settings (Config.update_settings settings env) env =
  Config.update_settings settings env.
Proof.
  unfold Config.update_settings. simpl. rewrite get_mongodb_url_again.
  reflexivity.
Qed.

(** ** Frames *)

Lemma bind_inv {A B} (m : M A) (k : A -> M B) w r w2 :
  bind m k w = (r, w2) ->
  (exists a w1, m w = (Ok a, w1) /\ k a w1 = (r, w2)) \/
  (exists e, m w = (Raise e, w2) /\ r = Raise e).
Proof.
  unfold bind. destruct (m w) as [[a|e] w1]; intros H.
  - left. eauto.
  - right. injection H as <- <-. eauto.
Qed.

Lemma ks_ret {A} (a : A) : keeps_store (ret a).
Proof. intros w r w1 [= _ <-]. reflexivity. Qed.

Lemma ks_raise {A} (e : exn) : keeps_store (@raise A e).
Proof. intros w r w1 [= _ <-]. reflexivity. Qed.

Lemma ks_bind {A B} (m : M A) (k : A -> M B) :
  keeps_store m -> (forall a, keeps_store (k a)) -> keeps_store (bind m k).
Proof.
  intros Hm Hk w r w2 H. apply bind_inv in H as [(a & w1 & Hm1 & Hk1) | (e & Hm1 & _)].
  - rewrite (Hk _ _ _ _ Hk1). exact (Hm _ _ _ Hm1).
  - exact (Hm _ _ _ Hm1).
Qed.

Lemma ks_try {A} (m : M A) (h : exn -> M A) :
  keeps_store m -> (forall e, keeps_store (h e)) -> keeps_store (try_except m h).
Proof.
  intros Hm Hh w r w2. unfold try_except.
  destruct (m w) as [[a|e] w1] eqn:E; intros H.
  - injection H as _ <-. exact (Hm _ _ _ E).
  - rewrite (Hh _ _ _ _ H). exact (Hm _ _ _ E).
Qed.

Lemma ks_for_in {A S} (step : A -> S -> M S) (xs : list A) :
  (forall x acc, keeps_store (step x acc)) ->
  forall acc, keeps_store (for_in xs step acc).
Proof.
  intros Hstep. induction xs as [|x xs IH]; intros acc; simpl.
  - apply ks_ret.
  - apply ks_bind; [apply Hstep | exact IH].
Qed.

Lemma ks_db_call : keeps_store db_call.
Proof. intros w r w1 H. apply db_call_frame in H as [-> _]. reflexivity. Qed.

Lemma ks_db_read {A} (f : Store -> A) : keeps_store (db_read f).
Proof.
  apply ks_bind; [exact ks_db_call|]. intros _ w r w1 [= _ <-]. reflexivity.
Qed.

Lemma ks_utcnow : keeps_store utcnow.
Proof. intros w r w1 [= _ <-]. reflexivity. Qed.

Lemma ks_fresh_id models : keeps_store (fresh_id models).
Proof. intros w r w1 [= _ <-]. reflexivity. Qed.

Lemma kh_ret {A} (a : A) : keeps_healthy (ret a).
Proof. intros w r w1 Hw [= _ <-]. exact Hw. Qed.

Lemma kh_raise {A} (e : exn) : keeps_healthy (@raise A e).
Proof. intros w r w1 Hw [= _ <-]. exact Hw. Qed.

Lemma kh_bind {A B} (m : M A) (k : A -> M B) :
  keeps_healthy m -> (forall a, keeps_healthy (k a)) -> keeps_healthy (bind m k).
Proof.
  intros Hm Hk w r w2 Hw H.
  apply bind_inv in H as [(a & w1 & Hm1 & Hk1) | (e & Hm1 & _)].
  - exact (Hk _ _ _ _ (Hm _ _ _ Hw Hm1) Hk1).
  - exact (Hm _ _ _ Hw Hm1).
Qed.

Lemma kh_try {A} (m : M A) (h : exn -> M A) :
  keeps_healthy m -> (forall e, keeps_healthy (h e)) ->
  keeps_healthy (try_except m h).
Proof.
  intros Hm Hh w r w2 Hw. unfold try_except.
  destruct (m w) as [[a|e] w1] eqn:E; intros H.
  - injection H as _ <-. exact (Hm _ _ _ Hw E).
  - exact (Hh _ _ _ _ (Hm _ _ _ Hw E) H).
Qed.

Lemma kh_for_in {A S} (step : A -> S -> M S) (xs : list A) :
  (forall x acc, keeps_healthy (step x acc)) ->
  forall acc, keeps_healthy (for_in xs step acc).
Proof.
  intros Hstep. induction xs as [|x xs IH]; intros acc; simpl.
  - apply kh_ret.
  - apply kh_bind; [apply Hstep | exact IH].
Qed.

Lemma kh_db_call : keeps_healthy db_call.
Proof.
  intros w r w1 Hw H. rewrite (db_call_healthy w Hw) in H.
  injection H as _ <-. exact Hw.
Qed.

Lemma kh_db_read {A} (f : Store -> A) : keeps_healthy (db_read f).
Proof.
  apply kh_bind; [exact kh_db_call|]. intros _ w r w1 Hw [= _ <-]. exact Hw.
Qed.

Lemma kh_db_write (f : Store -> Store) : keeps_healthy (db_write f).
Proof.
  apply kh_bind; [exact kh_db_call|]. intros _ w r w1 Hw [= _ <-]. exact Hw.
Qed.

Lemma kh_utcnow : keeps_healthy utcnow.
Proof. intros w r w1 Hw [= _ <-]. exact Hw. Qed.

Lemma kh_fresh_id models : keeps_healthy (fresh_id models).
Proof. intros w r w1 Hw [= _ <-]. exact Hw. Qed.

(** Computations built from the database primitives. *)
Ltac kh :=
  repeat first
    [ progress cbv zeta
    | apply kh_db_read
    | apply kh_db_write
    | apply kh_utcnow
    | apply kh_fresh_id
    | apply kh_ret
    | apply kh_raise
    | apply kh_try; [|intros ?]
    | apply kh_for_in; intros ? ?
    | apply kh_bind; [|intros ?]
    | match goal with
      | |- keeps_healthy (match ?x with _ => _ end) => destruct x
      end ].

(** Computations built from reads, loops and [try] blocks. *)
Ltac ks :=
  repeat first
    [ progress cbv zeta
    | apply ks_db_read
    | apply ks_utcnow
    | apply ks_fresh_id
    | apply ks_ret
    | apply ks_raise
    | apply ks_try; [|intros ?]
    | apply ks_for_in; intros ? ?
    | apply ks_bind; [|intros ?]
    | match goal with
      | |- keeps_store (match ?x with _ => _ end) => destruct x
      end ].

Section MoreProperties.

Variable auth : Auth.
Variable models : Models.
Variable int_of_str : string -> option Z.
Variable float_of : pyval -> option Q.
Variable FuelEntry_valid :
  string -> pyval -> pyval -> pyval -> pyval -> pyval -> datetime -> bool.

(** ** Endpoints that only read *)

(** The login, every [GET] handler and every debug handler leave all
    six collections as they are, whatever they answer and whichever
    database call fails. *)
Theorem reading_endpoints_keep_the_store (current_user : User.t) :
  (forall user_credentials, keeps_store (login auth models user_credentials)) /\
  keeps_store (get_current_user_info current_user) /\
  keeps_store (get_all_drivers current_user) /\
  keeps_store (get_all_passengers current_user) /\
  keeps_store (get_all_vehicles current_user) /\
  keeps_store (get_fuel_entries current_user) /\
  keeps_store (get_pending_rides current_user) /\
  keeps_store (get_assigned_rides current_user) /\
  (forall r, keeps_store (debug_handler r)).
Proof.
  repeat split.
  - intros creds. unfold login, User_find_one_email. ks.
  - unfold get_current_user_info. ks.
  - unfold get_all_drivers, Driver_find_all. ks.
  - unfold get_all_passengers, Passenger_find_all, User_find_in. ks.
  - unfold get_all_vehicles, Vehicle_find_all, Driver_find_all. ks.
  - unfold get_fuel_entries, FuelEntry_find_all, fuel_entry_step, Driver_get,
      User_get. ks.
  - unfold get_pending_rides. ks.
  - unfold get_assigned_rides, Driver_find_one_user_id, Ride_find_driver_status,
      Passenger_find_in, User_find_in. ks.
  - intros r. destruct r; cbn [debug_handler];
      unfold debug_data, debug_users, debug_users_simple, debug_drivers,
        debug_vehicles, debug_rides, debug_fuel_entries,
        debug_get_rides_with_details, debug_driver_step,
        debug_driver_vehicle_step, fuel_entry_step,
        User_find_all, Driver_find_all, Passenger_find_all, Vehicle_find_all,
        Ride_find_all, FuelEntry_find_all, User_get, Driver_get,
        Passenger_find_in, Driver_find_in, User_find_in; ks.
Qed.

(** ** Creators that store all or nothing *)

Lemma so_raise {A} (add : A -> Store -> Store) (e : exn) :
  stores_on_ok add (raise e).
Proof. intros w r w1 [= <- <-]. reflexivity. Qed.

Lemma so_bind {A B} (add : B -> Store -> Store) (m : M A) (k : A -> M B) :
  keeps_store m -> (forall a, stores_on_ok add (k a)) ->
  stores_on_ok add (bind m k).
Proof.
  intros Hm Hk w r w2 H.
  apply bind_inv in H as [(a & w1 & Hm1 & Hk1) | (e & Hm1 & ->)].
  - specialize (Hk _ _ _ _ Hk1). rewrite (Hm _ _ _ Hm1) in Hk. exact Hk.
  - exact (Hm _ _ _ Hm1).
Qed.

Lemma so_write {A} (add : A -> Store -> Store) (a : A) (f : Store -> Store) :
  (forall s, f s = add a s) ->
  stores_on_ok add (bind (db_write f) (fun _ => ret a)).
Proof.
  intros Hf w r w2 H.
  apply bind_inv in H as [([] & w1 & Hw & [= <- <-]) | (e & Hw & ->)].
  - apply db_write_ok_inv in Hw as [-> _]. apply Hf.
  - unfold db_write in Hw.
    apply bind_inv in Hw as [([] & w1 & _ & [=]) | (e' & Hc & _)].
    apply db_call_frame in Hc as [-> _]. reflexivity.
Qed.

Lemma so_reraise {A} (add : A -> Store -> Store) (m : M A) (h : exn -> exn) :
  stores_on_ok add m ->
  stores_on_ok add (try_except m (fun e => raise (h e))).
Proof.
  intros Hm w r w2. unfold try_except.
  destruct (m w) as [[a|e] w1] eqn:E; intros [= <- <-].
  - exact (Hm _ _ _ E).
  - exact (Hm _ _ _ E).
Qed.

Lemma ks_validate_required fields data : keeps_store (validate_required fields data).
Proof. intros w r w1 H. rewrite validate_required_spec in H.
  destruct (first_missing fields data); injection H as _ <-; reflexivity. Qed.

Lemma ks_subscript d k : keeps_store (subscript d k).
Proof. unfold subscript. ks. Qed.

Lemma ks_py_int v : keeps_store (py_int int_of_str v).
Proof. unfold py_int. ks. Qed.

Lemma ks_py_float v : keeps_store (py_float float_of v).
Proof. unfold py_float. ks. Qed.

(** A chain of steps that keep the store, ending in one insert. *)
Ltac so :=
  repeat first
    [ progress cbv zeta
    | apply so_raise
    | apply so_write; reflexivity
    | apply so_reraise
    | apply so_bind;
      [ first [ apply ks_validate_required | apply ks_subscript
              | apply ks_py_int | apply ks_py_float | solve [ks] ]
      | intros ? ]
    | match goal with
      | |- stores_on_ok _ (match ?x with _ => _ end) => destruct x
      end ].

(** [POST /users], [POST /rides], [POST /vehicles] and
    [POST /fuel-entries] store all or nothing: when the handler returns
    a document, the store is the old one with that document appended to
    its collection; when the handler raises, whatever the reason, the
    store is the old one. *)
Theorem single_insert_creators_are_atomic (data : pydict)
    (current_user : User.t) :
  stores_on_ok with_user (create_user auth models data current_user) /\
  stores_on_ok with_ride (create_ride models data) /\
  stores_on_ok with_vehicle (create_vehicle models int_of_str data current_user) /\
  stores_on_ok with_fuel_entry
    (create_fuel_entry models float_of FuelEntry_valid data current_user).
Proof.
  repeat split.
  - unfold create_user, User_find_one_email, User_new, User_insert. so.
  - unfold create_ride, Ride_new, Ride_insert. so.
  - unfold create_vehicle, Vehicle_new, Vehicle_insert. so.
  - unfold create_fuel_entry, fuel_date_of, FuelEntry_new, FuelEntry_insert. so.
Qed.

(** ** Error answers of the creators *)

Lemma validated_has (fields : list string) (data : pydict) (k : string) :
  In k fields -> first_missing fields data = None -> dict_has data k = true.
Proof.
  intros Hin Hmiss. apply has_of_truthy. unfold first_missing in Hmiss.
  pose proof (find_none _ _ Hmiss k Hin) as Hn. apply negb_false_iff, Hn.
Qed.


(** When a required field of a fuel entry is absent, empty or zero,
    [POST /fuel-entries] does not answer 400: the 400 it raises is caught
    by its own handler and comes out as a 500 that quotes it; nothing is
    stored. *)
Theorem create_fuel_entry_missing_field_is_500 (fuel_data : pydict)
    (current_user : User.t) (w : World) (g : string) :
  first_missing fuel_required_fields fuel_data = Some g ->
  create_fuel_entry models float_of FuelEntry_valid fuel_data current_user w =
    (Raise (HTTPException 500
              ("Failed to create fuel entry: " +:+
               str_exn (HTTPException 400 ("Missing required field: " +:+ g)))),
     w).
Proof.
  intros Hg. unfold create_fuel_entry, try_except. unfold bind at 1.
  rewrite validate_required_spec, Hg. reflexivity.
Qed.

(** [POST /fuel-entries] fails with the status 500 and nothing else. *)
Theorem create_fuel_entry_fails_with_500 (fuel_data : pydict)
    (current_user : User.t) (w : World) :
  match fst (create_fuel_entry models float_of FuelEntry_valid fuel_data
               current_user w) with
  | Ok _ => True
  | Raise (HTTPException code _) => code = 500
  | Raise (PyError _ _) => False
  end.
Proof.
  unfold create_fuel_entry, try_except.
  match goal with
  | |- context [match ?b w with _ => _ end] => destruct (b w) as [[?|?] ?]
  end; simpl; auto.
Qed.

(** ** A user without a profile *)

(** [POST /passengers] inserts the user and then the passenger.  When
    the lookup and the first insert go through and the second insert
    fails, the request fails with the database error and the user stays
    in the store, without a passenger profile. *)
Theorem create_passenger_can_orphan_user (data ud : pydict)
    (current_user : User.t) (w : World) (e msg : string)
    (fs : list (option string)) :
  dict_get_default data "user" (VDict []) = VDict ud ->
  dict_get ud "email" = VStr e ->
  user_with_email models (VStr e) w = None ->
  User_valid models (dict_get ud "name") e (dict_get ud "phone")
    (VStr "passenger") = true ->
  Passenger_valid models (object_id models (next_id w))
    (dict_get_default data "rating" (VFloat 5))
    (dict_get_default data "total_rides" (VInt 0)) = true ->
  faults w = None :: None :: Some msg :: fs ->
  exists u w1,
    create_passenger auth models data current_user w =
      (Raise (PyError "PyMongoError" msg), w1) /\
    store w1 = with_user u (store w) /\
    User.email u = e /\
    User.id u = object_id models (next_id w) /\
    passengers (store w1) = passengers (store w).
Proof.
  intros Hud He Hnone Hvalid Hpvalid Hf.
  destruct w as [s f c n]. simpl in Hf, Hpvalid. subst f.
  unfold user_with_email in Hnone. simpl in Hnone.
  unfold create_passenger, get_method, User_find_one_email, User_new,
    User_insert, Passenger_new, Passenger_insert, db_read, db_write, db_call,
    fresh_id, utcnow, bind, ret, raise.
  rewrite Hud, He. simpl. rewrite Hnone, Hvalid. simpl. rewrite Hpvalid. simpl.
  eexists _, _. split; [reflexivity|]. simpl. auto.
Qed.

(** ** Emails stay unique *)

Lemma adds_such_of_keeps {A} (P : User.t -> Prop) (m : M A) w :
  keeps_users m -> adds_user_such P w (snd (m w)).
Proof. intros Hm. left. destruct (m w) as [r w1] eqn:E. exact (Hm _ _ _ E). Qed.

Lemma adds_such_after_keeps {A B} (P : User.t -> Prop) (m : M A)
    (k : A -> M B) w :
  keeps_users m ->
  (forall a w0, m w = (Ok a, w0) -> adds_user_such P w0 (snd (k a w0))) ->
  adds_user_such P w (snd (bind m k w)).
Proof.
  intros Hm Hk. unfold bind. destruct (m w) as [[a|e] w0] eqn:E.
  - specialize (Hk a w0 eq_refl). unfold adds_user_such in *.
    rewrite <- (Hm _ _ _ E). exact Hk.
  - left. exact (Hm _ _ _ E).
Qed.

Lemma adds_such_by_insert {B} (P : User.t -> Prop) (u : User.t)
    (k : unit -> M B) w :
  P u -> (forall a, keeps_users (k a)) ->
  adds_user_such P w (snd (bind (User_insert u) k w)).
Proof.
  intros HP Hk. unfold bind.
  destruct (User_insert u w) as [[[]|e] w0] eqn:E.
  - apply db_write_ok_inv in E as [Hs _].
    destruct (k tt w0) as [r w1] eqn:Ek. right. exists u. simpl.
    rewrite (Hk _ _ _ _ Ek), Hs. auto.
  - left. unfold User_insert, db_write, bind in E.
    destruct (db_call w) as [[[]|e'] w'] eqn:Ec; [discriminate|].
    injection E as _ <-. apply db_call_frame in Ec as [Hs _].
    simpl. rewrite Hs. reflexivity.
Qed.

Lemma User_new_email a b c d h w u w1 :
  User_new models a b c d h w = (Ok u, w1) -> b = VStr (User.email u).
Proof.
  unfold User_new. destruct b; try discriminate.
  destruct (User_valid _ _ _ _ _); [|discriminate].
  intros [= <- _]. reflexivity.
Qed.

Lemma get_method_ok_inv (v : pyval) (k : string) w a w1 :
  get_method v k w = (Ok a, w1) ->
  w1 = w /\ exists d, v = VDict d /\ a = dict_get d k.
Proof.
  destruct v; simpl; try discriminate. intros [= <- <-]. eauto.
Qed.

Lemma not_found_is_new (q : pyval) (w w0 : World) (o : option User.t) (u : User.t) :
  User_find_one_email models q w = (Ok o, w0) ->
  o = None -> q = VStr (User.email u) -> email_is_new w u.
Proof.
  intros Hf -> -> u' Hin Heq. apply db_read_ok_inv in Hf as (Hf & _).
  symmetry in Hf. pose proof (find_none _ _ Hf u' Hin) as Hm.
  simpl in Hm. rewrite Heq, String.eqb_refl in Hm. discriminate.
Qed.

Lemma email_is_new_frame (w w0 : World) (u : User.t) :
  users (store w0) = users (store w) -> email_is_new w u -> email_is_new w0 u.
Proof. unfold email_is_new. intros ->. auto. Qed.

Lemma create_user_adds_new_email data current_user w :
  adds_user_such (email_is_new w) w
    (snd (create_user auth models data current_user w)).
Proof.
  unfold create_user.
  apply adds_such_after_keeps; [apply keeps_User_find_one_email|].
  intros [ex|] w0 Hf.
  { apply adds_such_of_keeps. apply keeps_raise. }
  apply adds_such_after_keeps; [apply keeps_User_new|]. intros u w2 Hu.
  apply adds_such_by_insert; [|intros; apply keeps_ret].
  exact (not_found_is_new _ _ _ _ _ Hf eq_refl (User_new_email _ _ _ _ _ _ _ _ Hu)).
Qed.

Lemma create_driver_adds_new_email data current_user w :
  adds_user_such (email_is_new w) w
    (snd (create_driver auth models data current_user w)).
Proof.
  unfold create_driver.
  apply adds_such_after_keeps; [apply keeps_get_method|]. intros q w0 Hq.
  apply get_method_ok_inv in Hq as (-> & d & Hd & ->).
  apply adds_such_after_keeps; [apply keeps_User_find_one_email|].
  intros [ex|] w1 Hf.
  { apply adds_such_of_keeps. apply keeps_raise. }
  apply adds_such_after_keeps; [apply keeps_get_method|]. intros name w2 _.
  apply adds_such_after_keeps; [apply keeps_get_method|]. intros email w3 He.
  apply get_method_ok_inv in He as (_ & d' & Hd' & ->).
  rewrite Hd in Hd'. injection Hd' as <-.
  apply adds_such_after_keeps; [apply keeps_get_method|]. intros phone w4 _.
  apply adds_such_after_keeps; [apply keeps_User_new|]. intros u w5 Hu.
  apply adds_such_by_insert.
  - exact (not_found_is_new _ _ _ _ _ Hf eq_refl
             (User_new_email _ _ _ _ _ _ _ _ Hu)).
  - intros _. apply keeps_bind;
      [apply keeps_Driver_create_driver | intros; apply keeps_ret].
Qed.

Lemma create_passenger_adds_new_email data current_user w :
  adds_user_such (email_is_new w) w
    (snd (create_passenger auth models data current_user w)).
Proof.
  unfold create_passenger.
  apply adds_such_after_keeps; [apply keeps_get_method|]. intros q w0 Hq.
  apply get_method_ok_inv in Hq as (-> & d & Hd & ->).
  apply adds_such_after_keeps; [apply keeps_User_find_one_email|].
  intros [ex|] w1 Hf.
  { apply adds_such_of_keeps. apply keeps_raise. }
  apply adds_such_after_keeps; [apply keeps_get_method|]. intros name w2 _.
  apply adds_such_after_keeps; [apply keeps_get_method|]. intros email w3 He.
  apply get_method_ok_inv in He as (_ & d' & Hd' & ->).
  rewrite Hd in Hd'. injection Hd' as <-.
  apply adds_such_after_keeps; [apply keeps_get_method|]. intros phone w4 _.
  apply adds_such_after_keeps; [apply keeps_User_new|]. intros u w5 Hu.
  apply adds_such_by_insert.
  - exact (not_found_is_new _ _ _ _ _ Hf eq_refl
             (User_new_email _ _ _ _ _ _ _ _ Hu)).
  - intros _. apply keeps_bind; [apply keeps_Passenger_new|]. intros p.
    apply keeps_bind; [apply keeps_Passenger_insert | intros; apply keeps_ret].
Qed.

Lemma unique_after_add (w w1 : World) :
  emails_unique w -> adds_user_such (email_is_new w) w w1 -> emails_unique w1.
Proof.
  unfold emails_unique. intros Hu [-> | (u & -> & Hnew)]; [exact Hu|].
  rewrite map_app. simpl. apply NoDup_app. split; [exact Hu|].
  split; [|apply NoDup_singleton].
  intros e Hin Hin'. apply list_elem_of_In in Hin.
  apply in_map_iff in Hin as (u' & <- & Hu').
  apply list_elem_of_In in Hin'. destruct Hin' as [Heq | []].
  exact (Hnew u' Hu' (eq_sym Heq)).
Qed.

(** In a store where no two users share an email, [POST /users],
    [POST /drivers] and [POST /passengers] leave it so, whatever the
    body and whatever the outcome. *)
Theorem creators_keep_emails_unique (data : pydict) (current_user : User.t)
    (w : World) :
  emails_unique w ->
  emails_unique (snd (create_user auth models data current_user w)) /\
  emails_unique (snd (create_driver auth models data current_user w)) /\
  emails_unique (snd (create_passenger auth models data current_user w)).
Proof.
  intros Hu. repeat split; apply (unique_after_add w); try exact Hu.
  - apply create_user_adds_new_email.
  - apply create_driver_adds_new_email.
  - apply create_passenger_adds_new_email.
Qed.

(** ** Creating and then reading *)

Lemma find_app_last {A} (f : A -> bool) (l : list A) (x : A) :
  List.find f l = None -> f x = true -> List.find f (l ++ [x]) = Some x.
Proof.
  induction l as [|y l IH]; simpl; intros Hn Hx.
  - rewrite Hx. reflexivity.
  - destruct (f y); [discriminate|]. exact (IH Hn Hx).
Qed.

Lemma kh_create_user data current_user :
  keeps_healthy (create_user auth models data current_user).
Proof. unfold create_user, User_find_one_email, User_new, User_insert. kh. Qed.

Lemma kh_create_ride data : keeps_healthy (create_ride models data).
Proof. unfold create_ride, Ride_new, Ride_insert. kh. Qed.

Lemma kh_validate_required fields data :
  keeps_healthy (validate_required fields data).
Proof.
  intros w r w1 Hw H. rewrite validate_required_spec in H.
  destruct (first_missing fields data); injection H as _ <-; exact Hw.
Qed.

Lemma kh_create_vehicle data current_user :
  keeps_healthy (create_vehicle models int_of_str data current_user).
Proof.
  unfold create_vehicle. apply kh_bind; [apply kh_validate_required|].
  intros _. unfold subscript, py_int, Vehicle_new, Vehicle_insert. kh.
Qed.

Lemma kh_create_fuel_entry data current_user :
  keeps_healthy (create_fuel_entry models float_of FuelEntry_valid data current_user).
Proof.
  unfold create_fuel_entry. apply kh_try; [|intros; apply kh_raise].
  apply kh_bind; [apply kh_validate_required|].
  intros _. unfold fuel_date_of, subscript, py_float, FuelEntry_new,
    FuelEntry_insert. kh.
Qed.

Lemma create_user_ok_inv data current_user w u w1 :
  create_user auth models data current_user w = (Ok u, w1) ->
  user_with_email models (dict_get data "email") w = None /\
  dict_get data "email" = VStr (User.email u) /\
  User.password_hash u = get_password_hash auth "password" /\
  store w1 = with_user u (store w).
Proof.
  intros H. unfold create_user in H.
  apply bind_ok_inv in H as (o & w0 & Hf & H).
  apply db_read_ok_inv in Hf as (-> & Hs0 & _).
  unfold user_with_email.
  destruct (List.find _ _); [discriminate|].
  apply bind_ok_inv in H as (nu & w2 & Hnew & H).
  apply bind_ok_inv in H as ([] & w3 & Hins & H).
  injection H as <- <-.
  apply db_write_ok_inv in Hins as [Hs3 _].
  split; [reflexivity|]. split; [exact (User_new_email _ _ _ _ _ _ _ _ Hnew)|].
  split; [exact (User_new_hash _ _ _ _ _ _ _ _ _ Hnew)|].
  rewrite Hs3. unfold with_user.
  assert (Hst : store w2 = store w0).
  { revert Hnew. unfold User_new. destruct (dict_get data "email"); try discriminate.
    destruct (User_valid _ _ _ _ _); [|discriminate]. intros [= _ <-]. reflexivity. }
  rewrite Hst, Hs0. reflexivity.
Qed.

(** A user created through [POST /users] can log in at once with the
    password "password", provided [verify_password] accepts a password
    against its own hash: the login finds that very user. *)
Theorem created_user_can_log_in (user_data user_credentials : pydict)
    (current_user : User.t) (w : World) (u : User.t) (w1 : World) :
  healthy w ->
  verify_password auth (VStr "password") (get_password_hash auth "password")
    = true ->
  create_user auth models user_data current_user w = (Ok u, w1) ->
  dict_get user_credentials "email" = VStr (User.email u) ->
  dict_get user_credentials "password" = VStr "password" ->
  login auth models user_credentials w1 =
    (Ok (LoginResponse.mk (create_access_token auth (User.email u) 30)
           "bearer" u), w1).
Proof.
  intros Hw Hverify Hcreate Hemail Hpw.
  pose proof (kh_create_user _ _ _ _ _ Hw Hcreate) as Hw1.
  apply create_user_ok_inv in Hcreate as (Hnone & He & Hh & Hs).
  unfold login, User_find_one_email.
  rewrite (bind_ok _ _ _ _ _ (db_read_healthy _ w1 Hw1)).
  rewrite Hs, Hemail, Hpw. unfold with_user. cbn [users].
  rewrite He in Hnone. unfold user_with_email in Hnone.
  rewrite (find_app_last _ _ u Hnone) by (simpl; apply String.eqb_refl).
  rewrite Hh, Hverify. reflexivity.
Qed.

(** After a successful [POST /users], a second request with the same
    email is answered with 400 and stores nothing. *)
Theorem second_create_user_is_400 (user_data again : pydict)
    (current_user other_admin : User.t) (w : World) (u : User.t) (w1 : World) :
  healthy w ->
  create_user auth models user_data current_user w = (Ok u, w1) ->
  dict_get again "email" = dict_get user_data "email" ->
  create_user auth models again other_admin w1 =
    (Raise (HTTPException 400 "User with this email already exists"), w1).
Proof.
  intros Hw Hcreate Hsame.
  pose proof (kh_create_user _ _ _ _ _ Hw Hcreate) as Hw1.
  apply create_user_ok_inv in Hcreate as (Hnone & He & _ & Hs).
  unfold create_user, User_find_one_email.
  rewrite (bind_ok _ _ _ _ _ (db_read_healthy _ w1 Hw1)).
  rewrite Hs, Hsame, He. unfold with_user. cbn [users].
  rewrite He in Hnone. unfold user_with_email in Hnone.
  rewrite (find_app_last _ _ u Hnone) by (simpl; apply String.eqb_refl).
  reflexivity.
Qed.

Lemma create_ride_ok_inv data w r w1 :
  create_ride models data w = (Ok r, w1) ->
  Ride.status r = REQUESTED /\ Ride.driver_id r = None /\
  store w1 = with_ride r (store w).
Proof.
  intros H. unfold create_ride in H.
  apply bind_ok_inv in H as (nr & w0 & Hnew & H).
  apply bind_ok_inv in H as ([] & w2 & Hins & H).
  injection H as <- <-.
  apply Ride_new_ok_inv in Hnew as (Hst & _ & Hd & _ & _ & _ & Hs).
  apply db_write_ok_inv in Hins as (Hs2 & _).
  rewrite Hs2, Hs. auto.
Qed.

(** A ride created through [POST /rides] is the last of the pending
    rides [GET /rides/pending] returns next, after the rides that were
    pending before. *)
Theorem created_ride_is_pending (ride_data : pydict) (current_user : User.t)
    (w : World) (r : Ride.t) (w1 : World) :
  healthy w ->
  create_ride models ride_data w = (Ok r, w1) ->
  get_pending_rides current_user w1 =
    (Ok (List.filter (fun x => RideStatus_eqb (Ride.status x) REQUESTED)
           (rides (store w)) ++ [r]), w1).
Proof.
  intros Hw Hcreate.
  pose proof (kh_create_ride _ _ _ _ Hw Hcreate) as Hw1.
  apply create_ride_ok_inv in Hcreate as (Hst & _ & Hs).
  unfold get_pending_rides.
  rewrite (bind_ok _ _ _ _ _ (db_read_healthy _ w1 Hw1)).
  rewrite Hs. unfold with_ride. cbn [rides].
  rewrite List.filter_app. simpl. rewrite Hst. reflexivity.
Qed.

(** A ride created through [POST /rides] changes no driver's
    [GET /rides/assigned]: the answer is what it was before. *)
Theorem created_ride_is_nobodys (ride_data : pydict) (current_user : User.t)
    (w : World) (r : Ride.t) (w1 : World) :
  healthy w ->
  create_ride models ride_data w = (Ok r, w1) ->
  fst (get_assigned_rides current_user w1) =
  fst (get_assigned_rides current_user w).
Proof.
  intros Hw Hcreate.
  pose proof (kh_create_ride _ _ _ _ Hw Hcreate) as Hw1.
  apply create_ride_ok_inv in Hcreate as (_ & Hd & Hs).
  unfold get_assigned_rides, Driver_find_one_user_id, Ride_find_driver_status,
    Passenger_find_in, User_find_in.
  rewrite (bind_ok _ _ _ _ _ (db_read_healthy _ w1 Hw1)).
  rewrite (bind_ok _ _ _ _ _ (db_read_healthy _ w Hw)).
  rewrite Hs. unfold with_ride. cbn [drivers].
  destruct (List.find _ (drivers (store w))) as [driver|]; [|reflexivity].
  rewrite (bind_ok _ _ _ _ _ (db_read_healthy _ w1 Hw1)).
  rewrite (bind_ok _ _ _ _ _ (db_read_healthy _ w Hw)).
  rewrite ?Hs. unfold with_ride. cbn [rides]. rewrite List.filter_app. simpl.
  replace (assigned_to (Driver.id driver) [ASSIGNED; IN_PROGRESS] r) with false
    by (unfold assigned_to; rewrite Hd; reflexivity).
  rewrite app_nil_r. cbv zeta.
  rewrite (bind_ok _ _ _ _ _ (db_read_healthy _ w1 Hw1)).
  rewrite (bind_ok _ _ _ _ _ (db_read_healthy _ w Hw)).
  rewrite ?Hs. unfold with_ride. cbn [passengers].
  rewrite (bind_ok _ _ _ _ _ (db_read_healthy _ w1 Hw1)).
  rewrite (bind_ok _ _ _ _ _ (db_read_healthy _ w Hw)).
  rewrite ?Hs. unfold with_ride. cbn [users].
  rewrite !(bind_ok _ _ _ _ _ (for_in_append _ _ _ _)). reflexivity.
Qed.

(** ** Fuel entries *)

Lemma subscript_ok_inv (d : pydict) (k : string) w a w1 :
  subscript d k w = (Ok a, w1) -> w1 = w /\ a = dict_get d k.
Proof.
  unfold subscript. destruct (dict_has d k); [|discriminate].
  intros [= <- <-]. auto.
Qed.

Lemma py_float_ok_inv (v : pyval) w a w1 :
  py_float float_of v w = (Ok a, w1) -> w1 = w.
Proof.
  unfold py_float. destruct (float_of v); [|discriminate]. intros [= _ <-].
  reflexivity.
Qed.

Lemma fuel_date_of_spec (fuel_data : pydict) (w : World) :
  fuel_date_of (dict_get fuel_data "date") w = (Ok (entry_date fuel_data w), w).
Proof.
  unfold fuel_date_of, entry_date.
  destruct (dict_get fuel_data "date") as [| | | |s| |]; try reflexivity.
  destruct (truthy (VStr s)) eqn:T.
  - destruct (strptime_Ymd s); reflexivity.
  - simpl in T. apply negb_false_iff, String.eqb_eq in T. subst s. reflexivity.
Qed.

Lemma FuelEntry_new_ok_inv a b c d e f t w x w1 :
  FuelEntry_new models FuelEntry_valid a b c d e f t w = (Ok x, w1) ->
  a = VStr (FuelEntry.driver_id x) /\ FuelEntry.date x = Some t /\
  FuelEntry.fuel_station x = f /\ store w1 = store w.
Proof.
  unfold FuelEntry_new. destruct a; try discriminate.
  destruct (FuelEntry_valid _ _ _ _ _ _ _); [|discriminate].
  intros [= <- <-]. auto.
Qed.

Lemma create_fuel_entry_ok_inv fuel_data current_user w x w1 :
  create_fuel_entry models float_of FuelEntry_valid fuel_data current_user w
    = (Ok x, w1) ->
  dict_get fuel_data "driver_id" = VStr (FuelEntry.driver_id x) /\
  FuelEntry.date x = Some (entry_date fuel_data w) /\
  FuelEntry.fuel_station x =
    dict_get_default fuel_data "fuel_station" (VStr "Unknown") /\
  store w1 = with_fuel_entry x (store w).
Proof.
  intros H. unfold create_fuel_entry, try_except in H.
  match type of H with
  | (let (_, _) := ?b w in _) = _ =>
      destruct (b w) as [[x'|e'] w2] eqn:Hb; [|discriminate]
  end.
  injection H as -> ->.
  apply bind_ok_inv in Hb as ([] & w0 & Hv & Hb).
  rewrite validate_required_spec in Hv.
  destruct (first_missing fuel_required_fields fuel_data); [discriminate|].
  injection Hv as <-.
  apply bind_ok_inv in Hb as (t & w0 & Hd & Hb).
  rewrite fuel_date_of_spec in Hd. injection Hd as <- <-.
  apply bind_ok_inv in Hb as (did & w0 & Hs & Hb).
  apply subscript_ok_inv in Hs as [-> ->].
  repeat match type of Hb with
  | bind (subscript _ _) _ _ = _ =>
      apply bind_ok_inv in Hb as (? & ? & Hs & Hb);
      apply subscript_ok_inv in Hs as [-> ->]
  | bind (py_float _ _) _ _ = _ =>
      apply bind_ok_inv in Hb as (? & ? & Hs & Hb);
      apply py_float_ok_inv in Hs as ->
  end.
  apply bind_ok_inv in Hb as (fe & w3 & Hnew & Hb).
  apply bind_ok_inv in Hb as ([] & w4 & Hins & Hb).
  injection Hb as <- <-.
  apply FuelEntry_new_ok_inv in Hnew as (Hdid & Hdate & Hst & Hstore).
  apply db_write_ok_inv in Hins as [Hs4 _].
  repeat split; try assumption.
  rewrite Hs4, Hstore. reflexivity.
Qed.

(** The date of a created fuel entry is the [date] of the body when
    that is a string in the format [%Y-%m-%d], and the time of the
    request in every other case (no date, another type, another format,
    an impossible day): a bad date is never an error. *)
Theorem create_fuel_entry_date (fuel_data : pydict) (current_user : User.t)
    (w : World) (x : FuelEntry.t) (w1 : World) :
  create_fuel_entry models float_of FuelEntry_valid fuel_data current_user w
    = (Ok x, w1) ->
  FuelEntry.date x =
    Some (match dict_get fuel_data "date" with
          | VStr s => match strptime_Ymd s with
                      | Some t => t
                      | None => clock w
                      end
          | _ => clock w
          end).
Proof.
  intros H. apply create_fuel_entry_ok_inv in H as (_ & -> & _).
  unfold entry_date. destruct (dict_get fuel_data "date"); reflexivity.
Qed.

(** A body that has the five required fields with truthy values, a
    string as driver id, amounts [float] reads, and values the class
    accepts, is stored whatever the store holds: the entry is created
    with an id of its own and the driver id of the body. *)
Lemma create_fuel_entry_accepts (fuel_data : pydict) (current_user : User.t)
    (w : World) (did : string) (amount cost odometer : Q) :
  healthy w ->
  first_missing fuel_required_fields fuel_data = None ->
  dict_get fuel_data "driver_id" = VStr did ->
  float_of (dict_get fuel_data "fuel_amount") = Some amount ->
  float_of (dict_get fuel_data "fuel_cost") = Some cost ->
  float_of (dict_get fuel_data "odometer_reading") = Some odometer ->
  FuelEntry_valid did (VFloat amount) (VFloat cost)
    (dict_get fuel_data "fuel_type") (VFloat odometer)
    (dict_get_default fuel_data "fuel_station" (VStr "Unknown"))
    (entry_date fuel_data w) = true ->
  exists x w1,
    create_fuel_entry models float_of FuelEntry_valid fuel_data current_user w
      = (Ok x, w1) /\
    FuelEntry.driver_id x = did.
Proof.
  intros Hw Hmiss Hdid Ha Hc Ho Hvalid.
  assert (Hv : validate_required fuel_required_fields fuel_data w = (Ok tt, w))
    by (rewrite validate_required_spec, Hmiss; reflexivity).
  unfold create_fuel_entry, try_except.
  rewrite (bind_ok _ _ _ _ _ Hv), (bind_ok _ _ _ _ _ (fuel_date_of_spec _ _)).
  unfold subscript.
  rewrite !(validated_has fuel_required_fields fuel_data)
    by (assumption || (simpl; auto 10)).
  unfold bind, ret, py_float. rewrite Hdid, Ha, Hc, Ho.
  unfold ret, FuelEntry_new. cbv beta iota zeta. rewrite Hvalid.
  unfold bind, ret, fresh_id, utcnow, FuelEntry_insert, db_write, bind, db_call.
  cbn [faults]. unfold healthy in Hw. rewrite Hw.
  eexists _, _. split; reflexivity.
Qed.

(** No driver is looked up when a fuel entry is created: a body as
    above is accepted whether or not a driver of the store has its
    driver id; when none has, the next [GET /fuel-entries] lists the new
    entry last, under the name "Unknown". *)
Theorem fuel_entry_of_unknown_driver_is_listed (fuel_data : pydict)
    (current_user reader : User.t) (w : World) (did : string)
    (amount cost odometer : Q) :
  healthy w ->
  first_missing fuel_required_fields fuel_data = None ->
  dict_get fuel_data "driver_id" = VStr did ->
  float_of (dict_get fuel_data "fuel_amount") = Some amount ->
  float_of (dict_get fuel_data "fuel_cost") = Some cost ->
  float_of (dict_get fuel_data "odometer_reading") = Some odometer ->
  FuelEntry_valid did (VFloat amount) (VFloat cost)
    (dict_get fuel_data "fuel_type") (VFloat odometer)
    (dict_get_default fuel_data "fuel_station" (VStr "Unknown"))
    (entry_date fuel_data w) = true ->
  exists x w1,
    create_fuel_entry models float_of FuelEntry_valid fuel_data current_user w
      = (Ok x, w1) /\
    FuelEntry.driver_id x = did /\
    store w1 = with_fuel_entry x (store w) /\
    (stored_driver did w = None ->
     exists items item,
       get_fuel_entries reader w1 =
         (Ok (VDict [("status", VStr "success");
                     ("fuel_entries", VList (items ++ [item]))]), w1) /\
       length items = length (fuel_entries (store w)) /\
       field item "id" = VStr (FuelEntry.id x) /\
       field item "driver_id" = VStr did /\
       field item "driver_name" = VStr "Unknown" /\
       field item "vehicle_make" = VStr "Unknown" /\
       field item "license_plate" = VStr "Unknown").
Proof.
  intros Hw Hmiss Hdid Ha Hc Ho Hvalid.
  destruct (create_fuel_entry_accepts fuel_data current_user w did amount cost
              odometer Hw Hmiss Hdid Ha Hc Ho Hvalid) as (x & w1 & Hcreate & Hx).
  exists x, w1. split; [exact Hcreate|]. split; [exact Hx|].
  pose proof (kh_create_fuel_entry _ _ _ _ _ Hw Hcreate) as Hw1.
  apply create_fuel_entry_ok_inv in Hcreate as (_ & _ & _ & Hs).
  split; [exact Hs|]. intros Hnone.
  rewrite (get_fuel_entries_healthy reader w1 Hw1).
  rewrite Hs. unfold with_fuel_entry at 1. cbn [fuel_entries].
  rewrite map_app. cbn [map].
  eexists _, _. split; [reflexivity|].
  split; [apply length_map|].
  assert (Hd1 : stored_driver (FuelEntry.driver_id x) w1 = None).
  { unfold stored_driver in *. rewrite Hs, Hx. exact Hnone. }
  cbv zeta. rewrite Hd1. simpl. rewrite Hx. auto 10.
Qed.

Lemma listed_length {A} (try_item : attempt A) (xs : list A)
    (fs : list (option string)) :
  (length (listed try_item xs fs) <= length xs)%nat.
Proof.
  revert fs. induction xs as [|x xs IH]; intros fs; simpl; [lia|].
  destruct (try_item x fs) as [[item|] fs']; simpl; specialize (IH fs'); lia.
Qed.

(** [GET /fuel-entries] never raises.  When its first database call
    fails it answers with the error body; otherwise with the status
    "success" and the entries whose own lookups all succeed, in the
    order of the store and with the driver and the user the store has
    for them: an entry with a lookup that fails is left out, so that
    there is at most one item per stored entry. *)
Theorem get_fuel_entries_never_raises (current_user : User.t) (w : World) :
  exists body w1,
    get_fuel_entries current_user w = (Ok body, w1) /\
    match hd None (faults w) with
    | Some msg =>
        field body "status" = VStr "error" /\ field body "message" = VStr msg
    | None =>
        exists items,
          body = VDict [("status", VStr "success");
                        ("fuel_entries", VList items)] /\
          items = listed (fuel_attempt w) (fuel_entries (store w))
                    (tl (faults w)) /\
          (length items <= length (fuel_entries (store w)))%nat
    end.
Proof.
  unfold get_fuel_entries, FuelEntry_find_all. rewrite try_bind_read.
  destruct (hd None (faults w)) as [msg|].
  { eexists _, _. split; [reflexivity|]. simpl. auto. }
  destruct (for_in_listed fuel_entry_step (fuel_attempt w) (store w)
              (fuel_entries (store w)) (fuel_entry_step_listed w)
              [] (advance w) (store_advance w)) as (w1 & E & _).
  rewrite (try_bind_ok _ _ _ _ _ _ E), faults_advance.
  eexists _, _. split; [reflexivity|]. eexists. split; [reflexivity|].
  split; [reflexivity | apply listed_length].
Qed.

(** ** Vehicles *)

Lemma for_in_filter_append {A B} (f : A -> bool) (g : A -> B) (xs : list A)
    (acc : list B) w :
  for_in xs (fun x acc => if f x then ret (acc ++ [g x]) else ret acc) acc w =
  (Ok (acc ++ map g (List.filter f xs)), w).
Proof.
  revert acc. induction xs as [|x xs IH]; intros acc; simpl.
  - rewrite app_nil_r. reflexivity.
  - unfold bind at 1. destruct (f x); unfold ret at 1; rewrite IH.
    + simpl. rewrite <- app_assoc. reflexivity.
    + reflexivity.
Qed.

(** The vehicle listing on a reachable database: the stored vehicles in
    order, then the drivers that have a make, a model, a plate and a
    colour. *)
Lemma get_all_vehicles_healthy (current_user : User.t) (w : World) :
  healthy w ->
  get_all_vehicles current_user w =
    (Ok (map vehicle_data_of_vehicle (vehicles (store w)) ++
         map driver_vehicle_entry (List.filter has_vehicle (drivers (store w)))),
     w).
Proof.
  intros Hw. unfold get_all_vehicles, Vehicle_find_all, Driver_find_all.
  rewrite (bind_ok _ _ _ _ _ (db_read_healthy _ w Hw)).
  rewrite (bind_ok _ _ _ _ _ (db_read_healthy _ w Hw)). cbv zeta.
  rewrite (bind_ok _ _ _ _ _ (for_in_filter_append _ _ _ _ _)). reflexivity.
Qed.

Lemma Vehicle_new_ok_inv a b y c d e arg w v w1 :
  Vehicle_new models a b y c d e arg w = (Ok v, w1) ->
  (forall t, arg = Parsed t -> Vehicle.license_expiry v = Some t) /\
  store w1 = store w.
Proof.
  unfold Vehicle_new. intros H.
  apply bind_ok_inv in H as (t & w0 & Harg & H).
  destruct (Vehicle_valid _ _ _ _ _ _ _); [|discriminate].
  injection H as <- <-. split.
  - intros t' ->. injection Harg as -> _. reflexivity.
  - destruct arg; [injection Harg as _ <-; reflexivity|].
    destruct (coerce_datetime models v); [|discriminate].
    injection Harg as _ <-. reflexivity.
Qed.

Lemma create_vehicle_ok_inv data current_user w v w1 :
  create_vehicle models int_of_str data current_user w = (Ok v, w1) ->
  (forall s, dict_get data "license_expiry" = VStr s ->
             exists t, strptime_dmY s = Some t /\
                       Vehicle.license_expiry v = Some t) /\
  store w1 = with_vehicle v (store w).
Proof.
  intros H. unfold create_vehicle in H.
  apply bind_ok_inv in H as ([] & w0 & Hv & H).
  rewrite validate_required_spec in Hv.
  destruct (first_missing required_fields data); [discriminate|].
  injection Hv as <-.
  apply bind_ok_inv in H as (le & w0 & Hsub & H).
  apply subscript_ok_inv in Hsub as [-> ->].
  apply bind_ok_inv in H as (arg & w0 & Harg & H).
  unfold try_except in H.
  match type of H with
  | (let (_, _) := ?b w0 in _) = _ =>
      destruct (b w0) as [[v'|e'] w2] eqn:Hb; [|discriminate]
  end.
  injection H as -> ->.
  repeat match type of Hb with
  | bind (subscript _ _) _ _ = _ =>
      apply bind_ok_inv in Hb as (? & ? & Hs & Hb);
      apply subscript_ok_inv in Hs as [-> ->]
  | bind (py_int _ _) _ _ = _ =>
      apply bind_ok_inv in Hb as (? & ? & Hs & Hb);
      apply py_int_frame in Hs as ->
  end.
  apply bind_ok_inv in Hb as (veh & w3 & Hnew & Hb).
  apply bind_ok_inv in Hb as ([] & w4 & Hins & Hb).
  injection Hb as <- <-.
  apply Vehicle_new_ok_inv in Hnew as [Hexp Hst].
  apply db_write_ok_inv in Hins as [Hw4 _].
  split.
  - intros s Hs. rewrite Hs in Harg.
    destruct (strptime_dmY s) as [t|]; [|discriminate].
    injection Harg as <- <-. exists t. split; [reflexivity|].
    apply Hexp. reflexivity.
  - rewrite Hw4, Hst.
    assert (w0 = w) as ->; [|reflexivity].
    destruct (dict_get data "license_expiry"); try (injection Harg as _ <-; reflexivity).
    destruct (strptime_dmY s); [injection Harg as _ <-; reflexivity | discriminate].
Qed.

(** A vehicle created through [POST /vehicles] from an expiry string is
    in the next [GET /vehicles], after the vehicles stored before and
    before the vehicles of the drivers, with its expiry in ISO format:
    the date [strptime] read, at midnight. *)
Theorem created_vehicle_is_listed (data : pydict) (current_user reader : User.t)
    (w : World) (v : Vehicle.t) (w1 : World) (s : string) :
  healthy w ->
  create_vehicle models int_of_str data current_user w = (Ok v, w1) ->
  dict_get data "license_expiry" = VStr s ->
  exists t,
    strptime_dmY s = Some t /\
    get_all_vehicles reader w1 =
      (Ok (map vehicle_data_of_vehicle (vehicles (store w)) ++
           [vehicle_data_of_vehicle v] ++
           map driver_vehicle_entry (List.filter has_vehicle (drivers (store w)))),
       w1) /\
    field (vehicle_data_of_vehicle v) "id" = VStr (Vehicle.id v) /\
    field (vehicle_data_of_vehicle v) "license_expiry" = VStr (isoformat t) /\
    hour t = 0 /\ minute t = 0 /\ second t = 0 /\ microsecond t = 0.
Proof.
  intros Hw Hcreate Hs.
  pose proof (kh_create_vehicle _ _ _ _ _ Hw Hcreate) as Hw1.
  apply create_vehicle_ok_inv in Hcreate as (Hexp & Hst).
  destruct (Hexp s Hs) as (t & Hp & Ht). exists t. split; [exact Hp|].
  rewrite (get_all_vehicles_healthy reader w1 Hw1), Hst.
  unfold with_vehicle. cbn [vehicles drivers]. rewrite map_app, <- app_assoc.
  split; [reflexivity|]. split; [reflexivity|].
  split; [simpl; rewrite Ht; reflexivity|].
  unfold strptime_dmY in Hp. destruct (re_dmY s) as [|[[[d m] y] rest] ?];
    [discriminate|].
  destruct (String.eqb rest ""); [|discriminate].
  destruct (valid_date y m d); [|discriminate].
  injection Hp as <-. auto.
Qed.

(** ** Passengers *)

Lemma dict_by_lookup_some {A} (key : A -> string) (xs : list A) (x : A) :
  In x xs -> exists y, dict_by key xs !! key x = Some y.
Proof.
  unfold dict_by.
  assert (G : forall (m : gmap string A),
             In x xs \/ is_Some (m !! key x) ->
             is_Some (foldl (fun m x => <[key x := x]> m) m xs !! key x)).
  { induction xs as [|y ys IH]; intros m H; simpl in *.
    - destruct H as [[]|H]; exact H.
    - apply IH. destruct H as [[-> | Hin] | Hm]; [right | left | right]; auto.
      + rewrite lookup_insert_eq. eauto.
      + destruct (decide (key y = key x)) as [E|E].
        * rewrite E, lookup_insert_eq. eauto.
        * rewrite lookup_insert_ne by exact E. exact Hm. }
  intros Hin. destruct (G ∅ (or_introl Hin)) as [y Hy]. eauto.
Qed.

Lemma mem_In (s : string) (l : list string) : In s l -> mem s l = true.
Proof.
  intros H. unfold mem. apply existsb_exists. exists s.
  split; [exact H | apply String.eqb_refl].
Qed.

(** With a reachable database, [GET /passengers] answers with one item
    per passenger, in order; the item carries the passenger's id, and as
    ["user"] either [null], when no user has the id the passenger refers
    to, or a stored user with that id in full, its [password_hash]
    included. *)
Theorem get_all_passengers_shows_users (current_user : User.t) (w : World) :
  healthy w ->
  exists items,
    get_all_passengers current_user w = (Ok items, w) /\
    Forall2 (passenger_item_shows_user w) (passengers (store w)) items.
Proof.
  intros Hw. unfold get_all_passengers, Passenger_find_all, User_find_in.
  rewrite (bind_ok _ _ _ _ _ (db_read_healthy _ w Hw)). cbv zeta.
  rewrite (bind_ok _ _ _ _ _ (db_read_healthy _ w Hw)).
  rewrite (bind_ok _ _ _ _ _ (for_in_append _ _ _ _)).
  eexists. split; [reflexivity|]. simpl.
  apply Forall2_map_same. intros p Hp.
  unfold passenger_item_shows_user.
  set (us := List.filter _ (users (store w))).
  split; [reflexivity|].
  destruct (dict_by User.id us !! Passenger.user_id p) as [u|] eqn:Hl; simpl.
  - apply dict_by_lookup in Hl as [Hin Hid].
    apply filter_In in Hin as [Hin _]. split.
    + intros Hno. exfalso. exact (Hno u Hin Hid).
    + intros _. exists u. auto.
  - split; [reflexivity|]. intros (u & Hin & Hid). exfalso.
    assert (Hus : In u us).
    { apply filter_In. split; [exact Hin|]. apply mem_In. rewrite Hid.
      apply in_map. exact Hp. }
    destruct (dict_by_lookup_some User.id us u Hus) as [y Hy].
    rewrite Hid, Hl in Hy. discriminate.
Qed.

(** ** Dates *)

Lemma digit_of_digit_char (n : Z) : digit (digit_char n) = Some (n mod 10).
Proof.
  unfold digit, digit_char.
  pose proof (Z.mod_pos_bound n 10 ltac:(lia)) as Hb.
  rewrite N_ascii_embedding by lia.
  rewrite Z2N.id by lia.
  replace (48 + n mod 10 - 48) with (n mod 10) by lia.
  replace (0 <=? n mod 10) with true by (symmetry; apply Z.leb_le; lia).
  replace (n mod 10 <=? 9) with true by (symmetry; apply Z.leb_le; lia).
  reflexivity.
Qed.

(** Writing a date of the calendar as [DD-MM-YYYY] and reading it with
    [strptime] gives the date back, at midnight. *)
Theorem strptime_reads_formatted_date (y m d : Z) :
  valid_date y m d = true ->
  strptime_dmY (format_dmY (mk_datetime y m d 0 0 0 0)) =
    Some (mk_datetime y m d 0 0 0 0).
Proof.
  intros Hv. apply DD_MM_YYYY_strptime.
  pose proof (valid_date_bounds _ _ _ Hv) as [Hm Hd].
  assert (Hy : 1 <= y <= 9999).
  { unfold valid_date in Hv. repeat (apply andb_prop in Hv as [Hv ?]). lia. }
  unfold format_dmY. cbn [day month year]. simpl.
  rewrite !digit_of_digit_char.
  replace (10 * ((d / 10) mod 10) + d mod 10) with d
    by (Z.div_mod_to_equations; lia).
  replace (10 * ((m / 10) mod 10) + m mod 10) with m
    by (Z.div_mod_to_equations; lia).
  replace (1000 * ((y / 10 / 10 / 10) mod 10) + 100 * ((y / 10 / 10) mod 10) +
           10 * ((y / 10) mod 10) + y mod 10) with y
    by (Z.div_mod_to_equations; lia).
  rewrite Hv. reflexivity.
Qed.

(** ** The two vehicle listings *)

Lemma for_in_filter_map {A B} (step : A -> list B -> M (list B))
    (f : A -> bool) (g : A -> B) (xs : list A) (acc : list B) w :
  (forall x acc, step x acc w = (Ok (if f x then acc ++ [g x] else acc), w)) ->
  for_in xs step acc w = (Ok (acc ++ map g (List.filter f xs)), w).
Proof.
  intros Hstep. revert acc. induction xs as [|x xs IH]; intros acc; simpl.
  - rewrite app_nil_r. reflexivity.
  - rewrite (bind_ok _ _ _ _ _ (Hstep x acc)), IH. destruct (f x).
    + simpl. rewrite <- app_assoc. reflexivity.
    + reflexivity.
Qed.

Lemma Forall2_map_map {A B C} (R : B -> C -> Prop) (g : A -> B) (h : A -> C)
    (xs : list A) :
  (forall x, R (g x) (h x)) -> Forall2 R (map g xs) (map h xs).
Proof. intros H. induction xs; simpl; constructor; auto. Qed.

Lemma debug_vehicles_healthy (w : World) :
  healthy w ->
  debug_vehicles w =
    (Ok (VDict [("status", VStr "success");
                ("vehicles",
                 VList (map vehicle_data_of_vehicle (vehicles (store w)) ++
                        map (fun d => vehicle_data_of_driver d
                                        (stored_user (Driver.user_id d) w))
                          (List.filter has_vehicle (drivers (store w)))))]), w).
Proof.
  intros Hw. unfold debug_vehicles, try_except, Vehicle_find_all, Driver_find_all.
  rewrite (bind_ok _ _ _ _ _ (db_read_healthy _ w Hw)).
  rewrite (bind_ok _ _ _ _ _ (for_in_append _ _ _ _)).
  rewrite (bind_ok _ _ _ _ _ (db_read_healthy _ w Hw)).
  erewrite bind_ok; [reflexivity|].
  apply for_in_filter_map with
    (f := has_vehicle)
    (g := fun d => vehicle_data_of_driver d (stored_user (Driver.user_id d) w)).
  intros d acc. unfold debug_driver_vehicle_step, has_vehicle.
  destruct (_ && _); [|reflexivity].
  unfold try_except, User_get.
  rewrite (bind_ok _ _ _ _ _ (db_read_healthy _ w Hw)). reflexivity.
Qed.

(** On a reachable database [GET /debug/vehicles] and [GET /vehicles]
    show the same vehicles in the same order: as many entries, and
    position by position the same make, model, year, plate, colour,
    license number and expiry. *)
Theorem vehicle_listings_agree (current_user : User.t) (w : World) :
  healthy w ->
  exists debug_list admin_list,
    debug_vehicles w =
      (Ok (VDict [("status", VStr "success"); ("vehicles", VList debug_list)]), w) /\
    get_all_vehicles current_user w = (Ok admin_list, w) /\
    Forall2 same_vehicle debug_list admin_list.
Proof.
  intros Hw. eexists _, _.
  split; [exact (debug_vehicles_healthy w Hw)|].
  split; [exact (get_all_vehicles_healthy current_user w Hw)|].
  apply Forall2_app.
  - apply Forall2_map_map. intros v. repeat split.
  - apply Forall2_map_map. intros d. repeat split.
Qed.

(** ** An expiry that is not a string *)

(** A [license_expiry] that is not a string is never checked against
    [DD-MM-YYYY]: the only 400 such a request can get is the one for a
    missing field, and a vehicle it creates stores what the class made
    of the value. *)
Theorem create_vehicle_unparsed_expiry (data : pydict) (current_user : User.t)
    (w : World) :
  (forall s, dict_get data "license_expiry" <> VStr s) ->
  match create_vehicle models int_of_str data current_user w with
  | (Ok v, _) =>
      Vehicle.license_expiry v =
        coerce_datetime models (dict_get data "license_expiry")
  | (Raise (HTTPException code detail), _) =>
      code = 400 ->
      exists g, In g required_fields /\ detail = "Missing required field: " +:+ g
  | (Raise (PyError _ _), _) => False
  end.
Proof.
  intros Hns.
  destruct (create_vehicle models int_of_str data current_user w) as [r w1] eqn:H.
  unfold create_vehicle in H.
  apply bind_inv in H as [([] & w0 & Hv & H) | (e & Hv & ->)];
    rewrite validate_required_spec in Hv;
    destruct (first_missing required_fields data) as [g|] eqn:Hmiss;
    try discriminate.
  2: { injection Hv as <- _. intros _. exists g. split; [|reflexivity].
       exact (proj1 (find_some _ _ Hmiss)). }
  injection Hv as <-.
  pose proof (validated_has required_fields data "license_expiry"
                ltac:(simpl; auto 10) Hmiss) as Hhas.
  apply bind_inv in H as [(le & w0 & Hsub & H) | (e & Hsub & ->)];
    apply subscript_inv in Hsub as [-> Hle]; specialize (Hle Hhas);
    [|discriminate].
  injection Hle as ->.
  apply bind_inv in H as [(arg & w0 & Hp & H) | (e & Hp & ->)].
  2: { destruct (dict_get data "license_expiry") eqn:E; try discriminate.
       exfalso. exact (Hns s eq_refl). }
  assert (arg = Unparsed (dict_get data "license_expiry") /\ w0 = w) as [-> ->].
  { destruct (dict_get data "license_expiry") eqn:E;
      try (injection Hp as <- <-; auto).
    exfalso. exact (Hns s eq_refl). }
  unfold try_except in H.
  match type of H with
  | (let (_, _) := ?b w in _) = _ =>
      destruct (b w) as [[v'|e'] w2] eqn:Hb
  end.
  - injection H as <- _.
    repeat match type of Hb with
    | bind (subscript _ _) _ _ = _ =>
        apply bind_ok_inv in Hb as (? & ? & Hs & Hb);
        apply subscript_ok_inv in Hs as [-> ->]
    | bind (py_int _ _) _ _ = _ =>
        apply bind_ok_inv in Hb as (? & ? & Hs & Hb);
        apply py_int_frame in Hs as ->
    end.
    apply bind_ok_inv in Hb as (veh & w3 & Hnew & Hb).
    apply bind_ok_inv in Hb as ([] & w4 & Hins & Hb).
    injection Hb as <- _.
    unfold Vehicle_new in Hnew.
    apply bind_ok_inv in Hnew as (t & w5 & Harg & Hnew).
    destruct (coerce_datetime models (dict_get data "license_expiry"));
      [|discriminate].
    injection Harg as <- <-.
    destruct (Vehicle_valid _ _ _ _ _ _ _); [|discriminate].
    injection Hnew as <- _. reflexivity.
  - injection H as <- _. discriminate.
Qed.

End MoreProperties.

(** * The further properties on concrete requests *)

Lemma get_redis_url_ignores_environment_witness :
  production_with_cache "REDIS_URL" <> Some "" /\
  Config.get_redis_url production_with_cache = "redis://cache:6379".
Proof.
  assert (H : production_with_cache "REDIS_URL" <> Some "") by discriminate.
  split; [exact H|].
  exact (get_redis_url_ignores_environment production_with_cache H).
Defined.

Lemma create_fuel_entry_missing_field_is_500_witness :
  first_missing fuel_required_fields free_fuel_request = Some "fuel_cost" /\
  create_fuel_entry lenient_models plain_float any_fuel_entry free_fuel_request
    admin calm =
    (Raise (HTTPException 500
              "Failed to create fuel entry: 400: Missing required field: fuel_cost"),
     calm).
Proof.
  split; [reflexivity|].
  exact (create_fuel_entry_missing_field_is_500 lenient_models plain_float
           any_fuel_entry free_fuel_request admin calm "fuel_cost" eq_refl).
Defined.

Lemma create_passenger_can_orphan_user_witness :
  faults failing_third = [None; None; Some "write failed"] /\
  exists u w1,
    create_passenger plain_auth lenient_models new_profile_request admin
      failing_third = (Raise (PyError "PyMongoError" "write failed"), w1) /\
    store w1 = with_user u (store failing_third) /\
    User.email u = "meena@rec.example" /\
    User.id u = object_id lenient_models (next_id failing_third) /\
    passengers (store w1) = passengers (store failing_third).
Proof.
  split; [reflexivity|].
  exact (create_passenger_can_orphan_user plain_auth lenient_models
           new_profile_request
           [("name", VStr "Meena"); ("email", VStr "meena@rec.example");
            ("phone", VStr "104"); ("password", VStr "hunter2")]
           admin failing_third "meena@rec.example" "write failed" []
           eq_refl eq_refl eq_refl eq_refl eq_refl eq_refl).
Defined.

Lemma creators_keep_emails_unique_witness :
  emails_unique calm /\
  emails_unique (snd (create_user plain_auth lenient_models new_user_request
                        admin calm)) /\
  emails_unique (snd (create_driver plain_auth lenient_models
                        new_profile_request admin calm)) /\
  emails_unique (snd (create_passenger plain_auth lenient_models
                        new_profile_request admin calm)).
Proof.
  assert (H : emails_unique calm).
  { unfold emails_unique. simpl.
    apply NoDup_cons. split; [|apply NoDup_singleton].
    intros Hin. apply list_elem_of_In in Hin. destruct Hin as [|[]]. discriminate. }
  split; [exact H|]. split.
  - exact (proj1 (creators_keep_emails_unique plain_auth lenient_models
                    new_user_request admin calm H)).
  - exact (proj2 (creators_keep_emails_unique plain_auth lenient_models
                    new_profile_request admin calm H)).
Defined.

Lemma created_user_can_log_in_witness :
  healthy calm /\
  exists u w1,
    create_user plain_auth lenient_models new_user_request admin calm = (Ok u, w1) /\
    login plain_auth lenient_models login_of_ravi w1 =
      (Ok (LoginResponse.mk (create_access_token plain_auth (User.email u) 30)
             "bearer" u), w1).
Proof.
  split; [reflexivity|]. eexists _, _. split; [vm_compute; reflexivity|].
  apply (created_user_can_log_in plain_auth lenient_models new_user_request
           login_of_ravi admin calm); reflexivity.
Defined.

Lemma second_create_user_is_400_witness :
  healthy calm /\
  exists u w1,
    create_user plain_auth lenient_models new_user_request admin calm = (Ok u, w1) /\
    create_user plain_auth lenient_models login_of_ravi asha w1 =
      (Raise (HTTPException 400 "User with this email already exists"), w1).
Proof.
  split; [reflexivity|]. eexists _, _. split; [vm_compute; reflexivity|].
  eapply (second_create_user_is_400 plain_auth lenient_models new_user_request
            login_of_ravi admin asha calm);
    [reflexivity | vm_compute; reflexivity | reflexivity].
Defined.

Lemma created_ride_is_pending_witness :
  healthy calm /\
  exists r w1,
    create_ride lenient_models ride_request calm = (Ok r, w1) /\
    get_pending_rides admin w1 = (Ok [r], w1).
Proof.
  split; [reflexivity|]. eexists _, _. split; [vm_compute; reflexivity|].
  exact (created_ride_is_pending lenient_models ride_request admin calm _ _
           eq_refl eq_refl).
Defined.

Lemma created_ride_is_nobodys_witness :
  healthy calm /\
  exists r w1,
    create_ride lenient_models ride_request calm = (Ok r, w1) /\
    fst (get_assigned_rides asha w1) = fst (get_assigned_rides asha calm).
Proof.
  split; [reflexivity|]. eexists _, _. split; [vm_compute; reflexivity|].
  exact (created_ride_is_nobodys lenient_models ride_request asha calm _ _
           eq_refl eq_refl).
Defined.

Lemma create_fuel_entry_date_witness :
  exists x w1,
    create_fuel_entry lenient_models plain_float any_fuel_entry fuel_request
      admin calm = (Ok x, w1) /\
    FuelEntry.date x = Some noon.
Proof.
  eexists _, _. split; [vm_compute; reflexivity|].
  exact (create_fuel_entry_date lenient_models plain_float any_fuel_entry
           fuel_request admin calm _ _ eq_refl).
Defined.

Lemma fuel_entry_of_unknown_driver_is_listed_witness :
  healthy calm /\
  first_missing fuel_required_fields fuel_request = None /\
  stored_driver "d-nobody" calm = None /\
  exists x w1,
    create_fuel_entry lenient_models plain_float any_fuel_entry fuel_request
      admin calm = (Ok x, w1) /\
    FuelEntry.driver_id x = "d-nobody" /\
    store w1 = with_fuel_entry x (store calm) /\
    (stored_driver "d-nobody" calm = None ->
     exists items item,
       get_fuel_entries asha w1 =
         (Ok (VDict [("status", VStr "success");
                     ("fuel_entries", VList (items ++ [item]))]), w1) /\
       length items = length (fuel_entries (store calm)) /\
       field item "id" = VStr (FuelEntry.id x) /\
       field item "driver_id" = VStr "d-nobody" /\
       field item "driver_name" = VStr "Unknown" /\
       field item "vehicle_make" = VStr "Unknown" /\
       field item "license_plate" = VStr "Unknown").
Proof.
  split; [reflexivity|]. split; [reflexivity|]. split; [reflexivity|].
  exact (fuel_entry_of_unknown_driver_is_listed lenient_models plain_float
           any_fuel_entry fuel_request admin asha calm "d-nobody"
           (inject_Z 30) (inject_Z 3000) (inject_Z 42100)
           eq_refl eq_refl eq_refl eq_refl eq_refl eq_refl eq_refl).
Defined.

Lemma created_vehicle_is_listed_witness :
  healthy calm /\
  exists v w1,
    create_vehicle lenient_models decimal_only (vehicle_request "05-11-2027")
      admin calm = (Ok v, w1) /\
    exists items,
      get_all_vehicles admin w1 = (Ok items, w1) /\
      field (vehicle_data_of_vehicle v) "license_expiry" =
        VStr "2027-11-05T00:00:00".
Proof.
  split; [reflexivity|]. eexists _, _. split; [vm_compute; reflexivity|].
  destruct (created_vehicle_is_listed lenient_models decimal_only
              (vehicle_request "05-11-2027") admin admin calm _ _ "05-11-2027"
              eq_refl eq_refl eq_refl)
    as (t & Ht & Hlist & _ & Hexp & _).
  injection Ht as <-. eexists. split; [exact Hlist | exact Hexp].
Defined.

Lemma get_all_passengers_shows_users_witness :
  healthy riders /\
  exists items,
    get_all_passengers admin riders = (Ok items, riders) /\
    Forall2 (passenger_item_shows_user riders) (passengers (store riders)) items.
Proof.
  split; [reflexivity|].
  exact (get_all_passengers_shows_users admin riders eq_refl).
Defined.

Example get_all_passengers_on_riders :
  exists with_user without_user,
    get_all_passengers admin riders = (Ok [with_user; without_user], riders) /\
    field (field with_user "user") "password_hash" = VStr "hash:password" /\
    field without_user "user" = VNone.
Proof. eexists _, _. split; [vm_compute; reflexivity|]. split; reflexivity. Qed.

Lemma strptime_reads_formatted_date_witness :
  valid_date 2028 2 29 = true /\
  format_dmY (mk_datetime 2028 2 29 0 0 0 0) = "29-02-2028" /\
  strptime_dmY "29-02-2028" = Some (mk_datetime 2028 2 29 0 0 0 0).
Proof.
  split; [reflexivity|]. split; [reflexivity|].
  exact (strptime_reads_formatted_date 2028 2 29 eq_refl).
Defined.

Lemma vehicle_listings_agree_witness :
  healthy garage /\
  exists debug_list admin_list,
    debug_vehicles garage =
      (Ok (VDict [("status", VStr "success"); ("vehicles", VList debug_list)]),
       garage) /\
    get_all_vehicles admin garage = (Ok admin_list, garage) /\
    Forall2 same_vehicle debug_list admin_list.
Proof.
  split; [reflexivity|]. exact (vehicle_listings_agree admin garage eq_refl).
Defined.

Example vehicle_listings_on_garage :
  exists a b, get_all_vehicles admin garage = (Ok [a; b], garage) /\
              field a "license_plate" = VStr "TN 01 N 0001" /\
              field b "license_plate" = VStr "TN 01 N 0002".
Proof. eexists _, _. split; [vm_compute; reflexivity|]. split; reflexivity. Qed.

Lemma create_vehicle_unparsed_expiry_witness :
  (forall s, dict_get vehicle_request_with_timestamp "license_expiry" <> VStr s) /\
  exists v w1,
    create_vehicle timestamp_models decimal_only vehicle_request_with_timestamp
      admin calm = (Ok v, w1) /\
    Vehicle.license_expiry v = Some noon.
Proof.
  assert (H : forall s, dict_get vehicle_request_with_timestamp "license_expiry"
                        <> VStr s) by (intros s; discriminate).
  split; [exact H|].
  pose proof (create_vehicle_unparsed_expiry timestamp_models decimal_only
                vehicle_request_with_timestamp admin calm H) as P.
  destruct (create_vehicle timestamp_models decimal_only
              vehicle_request_with_timestamp admin calm) as [[v|e] w1] eqn:E.
  - exists v, w1. split; [reflexivity|]. exact P.
  - exfalso. revert E. vm_compute. discriminate.
Defined.
